(** * Grid trading strategy: a shallow embedding of [strategy.py]

    The development follows the class [GridStrategy]: its configuration,
    its mutable state (cash, holdings, the two dictionaries of active
    orders and of positions, the statistics and the price history) and
    its methods.

    Conventions of the model.
    - Python floats are modelled by exact rationals ([Q]); float literals
      such as [0.004] are their decimal values. Equalities between
      computed amounts are stated up to [Qeq] ([==]).
    - A Python exception is a value [Raise e]; a method that mutates the
      object before raising returns the mutated state next to it.
    - A [dict] is an association list in insertion order, as Python
      iterates it.
    - [print] is modelled by the list of lines a call writes. *)

From Stdlib Require Import ZArith QArith Qround Qabs Qminmax Qpower Lqa Lia.
From Stdlib Require Import List String Ascii Bool DecimalString DecimalNat.
Import ListNotations.

Local Open Scope Q_scope.
Local Open Scope string_scope.

(** ** Exceptions *)

Inductive exn : Type :=
| ZeroDivisionError
| IndexError.

Inductive outcome (A : Type) : Type :=
| Ok (a : A)
| Raise (e : exn).

Arguments Ok {A} a.
Arguments Raise {A} e.

Definition bind {A B : Type} (m : outcome A) (k : A -> outcome B) : outcome B :=
  match m with
  | Ok a => k a
  | Raise e => Raise e
  end.

Notation "x <- m ;; k" := (bind m (fun x => k))
  (at level 61, m at next level, right associativity).

(** ** Float operations on rationals *)

Definition Qlt_bool (x y : Q) : bool := negb (Qle_bool y x).

(** [x / y] on floats: division by zero raises. *)
Definition pdiv (x y : Q) : outcome Q :=
  if Qeq_bool y 0 then Raise ZeroDivisionError else Ok (x / y).

(** [round(x)]: to the nearest integer, ties to the even one. *)
Definition py_round (x : Q) : Z :=
  let f := Qfloor x in
  let r := x - inject_Z f in
  if Qlt_bool r (1 # 2) then f
  else if Qlt_bool (1 # 2) r then (f + 1)%Z
  else if Z.even f then f else (f + 1)%Z.

(** [sum(l)] and [np.mean(l)] (the latter on a non-empty list). *)
Definition Qsum (l : list Q) : Q := fold_left Qplus l 0.

Definition np_mean (l : list Q) : Q := Qsum l / inject_Z (Z.of_nat (List.length l)).

(** ** Number formatting *)

Definition nat_str (n : nat) : string :=
  NilZero.string_of_uint (Nat.to_uint n).

Definition Z_digits (z : Z) : string :=
  NilZero.string_of_uint (N.to_uint (Z.to_N z)).

Fixpoint zeros (n : nat) : string :=
  match n with
  | O => EmptyString
  | S k => String "0"%char (zeros k)
  end.

(** [pad d s]: [s] padded with zeros on the left up to [d] characters. *)
Definition pad (d : nat) (s : string) : string :=
  zeros (d - String.length s) ++ s.

(** [f"{x:.df}"]: fixed notation with [d] decimals, ties to even. *)
Definition format_fixed (d : nat) (x : Q) : string :=
  let scale := (10 ^ Z.of_nat d)%Z in
  let n := py_round (Qabs x * inject_Z scale) in
  let sign := if Qlt_bool x 0 then "-" else "" in
  let int_part := Z_digits (n / scale) in
  match d with
  | O => sign ++ int_part
  | _ => sign ++ int_part ++ "." ++ pad d (Z_digits (n mod scale))
  end.

(** [f"{x:.d%}"] *)
Definition format_percent (d : nat) (x : Q) : string :=
  format_fixed d (x * 100) ++ "%".

(** ** Dictionaries in insertion order *)

Section Dict.
Context {V : Type}.

Definition dict : Type := list (string * V).

Fixpoint dict_get (k : string) (m : dict) : option V :=
  match m with
  | [] => None
  | (k', v) :: m' => if String.eqb k k' then Some v else dict_get k m'
  end.

Definition dict_mem (k : string) (m : dict) : bool :=
  match dict_get k m with Some _ => true | None => false end.

(** [m[k] = v]: an existing key keeps its place, a new one goes last. *)
Fixpoint dict_set (k : string) (v : V) (m : dict) : dict :=
  match m with
  | [] => [(k, v)]
  | (k', v') :: m' =>
      if String.eqb k k' then (k', v) :: m' else (k', v') :: dict_set k v m'
  end.

(** [del m[k]] for a key that is present. *)
Fixpoint dict_del (k : string) (m : dict) : dict :=
  match m with
  | [] => []
  | (k', v') :: m' =>
      if String.eqb k k' then m' else (k', v') :: dict_del k m'
  end.

Definition dict_values (m : dict) : list V := map snd m.
End Dict.

Arguments dict V : clear implicits.


(** [l[k:]] for a possibly negative [k]. *)
Definition py_slice_from {A : Type} (k : Z) (l : list A) : list A :=
  let n := Z.of_nat (List.length l) in
  let start := if (k <? 0)%Z then Z.max (n + k) 0 else Z.min k n in
  skipn (Z.to_nat start) l.

(** [range(lo, hi)] *)
Definition py_range (lo hi : Z) : list Z :=
  map (fun k => (lo + Z.of_nat k)%Z) (seq 0 (Z.to_nat (hi - lo))).

(** [enumerate(l)] *)
Definition enumerate {A : Type} (l : list A) : list (nat * A) :=
  combine (seq 0 (List.length l)) l.

(** ** Data model *)

Inductive OrderType : Type := BUY | SELL.

Inductive OrderStatus : Type := NEW | FILLED | CANCELED.

Definition OrderType_eqb (a b : OrderType) : bool :=
  match a, b with
  | BUY, BUY | SELL, SELL => true
  | _, _ => false
  end.

Record Order : Type := mkOrder {
  id : string;
  symbol : string;
  side : OrderType;
  price : Q;
  quantity : Q;
  status : OrderStatus;
  level_key : option string
}.

Record Position : Type := mkPosition {
  level_price : Q;
  pos_quantity : Q;
  buy_price : Q;
  tp_price : option Q;
  tp_order_id : option string
}.

(** The configuration file, one record per section of the JSON object. *)
Record GridConfig : Type := mkGrid {
  mode : string;
  step_percent : Q;
  atr_window : Z;
  atr_k : Q;
  tick_size : Q;
  qty_step : Q;
  levels_below : Z;
  levels_above : Z;
  maker_buffer_frac : Q;
  tp_mode : string;
  tp_percent : Q;
  sizing_mode : string;
  skew_strength : Q;
  min_notional : Q
}.

Record CapitalConfig : Type := mkCapital {
  quote_start : Q;
  base_start_quote : Q;
  target_inventory_ratio : Q;
  compound : bool
}.

Record RiskConfig : Type := mkRisk {
  dd_pause_frac : Q;
  kill_switch_frac : Q
}.

Record Config : Type := mkConfig {
  grid : GridConfig;
  capital : CapitalConfig;
  risk : RiskConfig;
  runtime_symbol : string
}.

(** The attributes of a [GridStrategy] object (the configuration is
    passed along separately: no method changes it). *)
Record State : Type := mkState {
  cash : Q;
  base_holdings : Q;
  active_orders : dict Order;
  positions : dict Position;
  total_pnl : Q;
  realized_pnl : Q;
  max_equity : Q;
  max_drawdown : Q;
  price_history : list Q
}.

Definition set_cash (c : Q) (s : State) : State :=
  mkState c (base_holdings s) (active_orders s) (positions s) (total_pnl s)
          (realized_pnl s) (max_equity s) (max_drawdown s) (price_history s).

Definition set_base_holdings (b : Q) (s : State) : State :=
  mkState (cash s) b (active_orders s) (positions s) (total_pnl s)
          (realized_pnl s) (max_equity s) (max_drawdown s) (price_history s).

Definition set_active_orders (o : dict Order) (s : State) : State :=
  mkState (cash s) (base_holdings s) o (positions s) (total_pnl s)
          (realized_pnl s) (max_equity s) (max_drawdown s) (price_history s).

Definition set_positions (p : dict Position) (s : State) : State :=
  mkState (cash s) (base_holdings s) (active_orders s) p (total_pnl s)
          (realized_pnl s) (max_equity s) (max_drawdown s) (price_history s).

Definition set_total_pnl (x : Q) (s : State) : State :=
  mkState (cash s) (base_holdings s) (active_orders s) (positions s) x
          (realized_pnl s) (max_equity s) (max_drawdown s) (price_history s).

Definition set_realized_pnl (x : Q) (s : State) : State :=
  mkState (cash s) (base_holdings s) (active_orders s) (positions s)
          (total_pnl s) x (max_equity s) (max_drawdown s) (price_history s).

Definition set_max_equity (x : Q) (s : State) : State :=
  mkState (cash s) (base_holdings s) (active_orders s) (positions s)
          (total_pnl s) (realized_pnl s) x (max_drawdown s) (price_history s).

Definition set_price_history (h : list Q) (s : State) : State :=
  mkState (cash s) (base_holdings s) (active_orders s) (positions s)
          (total_pnl s) (realized_pnl s) (max_equity s) (max_drawdown s) h.

Definition set_status (st : OrderStatus) (o : Order) : Order :=
  mkOrder (id o) (symbol o) (side o) (price o) (quantity o) st (level_key o).

(** The dictionary [step_book] returns. The orders of [place_orders] are
    the objects stored in [active_orders]. *)
Record Actions : Type := mkActions {
  place_orders : list Order;
  cancel_orders : list string;
  messages : list string
}.

(** The dictionary [get_status] returns. *)
Record Status : Type := mkStatus {
  st_cash : Q;
  st_base_holdings : Q;
  st_equity : Q;
  st_realized_pnl : Q;
  st_total_pnl : Q;
  st_max_equity : Q;
  st_drawdown : Q;
  st_active_orders : nat;
  st_positions : nat;
  st_config : Config
}.

(** ** The methods of [GridStrategy] *)

Section Strategy.
Variable cfg : Config.

(** [__init__]: the state after construction and the line it prints. *)
Definition init : State * list string :=
  let c := quote_start (capital cfg) in
  let b := base_start_quote (capital cfg) / 45000 in
  (mkState c b [] [] 0 0 c 0 [],
   ["Стратегия инициализирована: Cash=" ++ format_fixed 2 c
    ++ ", Base=" ++ format_fixed 6 b]).

Definition normalize_price (p : Q) : outcome Q :=
  let tick := tick_size (grid cfg) in
  q <- pdiv p tick ;;
  Ok (inject_Z (py_round q) * tick).

Definition normalize_quantity (qty : Q) : outcome Q :=
  let qs := qty_step (grid cfg) in
  q <- pdiv qty qs ;;
  Ok (inject_Z (py_round q) * qs).

Definition get_grid_step (s : State) (current_price : Q) : Q :=
  if String.eqb (mode (grid cfg)) "percent" then
    current_price * step_percent (grid cfg)
  else
    if (Z.of_nat (List.length (price_history s)) <? atr_window (grid cfg))%Z then
      current_price * (4 # 1000)
    else
      let window := atr_window (grid cfg) in
      let recent_prices := py_slice_from (- window) (price_history s) in
      let high_low :=
        map (fun p => Qabs (fst p - snd p))
            (combine (tl recent_prices) (removelast recent_prices)) in
      let atr :=
        match high_low with
        | [] => current_price * (4 # 1000)
        | _ => np_mean high_low
        end in
      atr * atr_k (grid cfg).

Definition calculate_position_size (s : State) (level_index : nat)
    (current_price : Q) : outcome Q :=
  let available_cash := cash s * (9 # 10) in
  let levels_below := levels_below (grid cfg) in
  size_per_level <-
    (if String.eqb (sizing_mode (grid cfg)) "linear" then
       pdiv available_cash (inject_Z levels_below)
     else
       let weights :=
         map (fun i => Qpower (12 # 10) i) (py_range 0 levels_below) in
       let total_weight := Qsum weights in
       per_weight <- pdiv available_cash total_weight ;;
       match nth_error weights level_index with
       | Some w => Ok (per_weight * w)
       | None => Raise IndexError
       end) ;;
  let current_equity := cash s + base_holdings s * current_price in
  inventory_ratio <- pdiv (base_holdings s * current_price) current_equity ;;
  let target_ratio := target_inventory_ratio (capital cfg) in
  if Qlt_bool inventory_ratio target_ratio then
    let skew_mult :=
      1 + (target_ratio - inventory_ratio) * skew_strength (grid cfg) in
    Ok (size_per_level * skew_mult)
  else Ok size_per_level.

(** The second component of what [can_place_buy] returns, before it is
    rendered as text ([step_book] drops it). *)
Inductive reason : Type :=
| LevelOccupied (level_key : string)
| DuplicateBuy (order_price_norm : Q)
| BelowMinNotional (notional min_notional : Q)
| InsufficientCash (position_size cash : Q)
| ReasonOK.

Definition can_place_buy (s : State) (level_price current_price : Q)
    : outcome (bool * reason) :=
  nl <- normalize_price level_price ;;
  let level_key := format_fixed 8 nl in
  if dict_mem level_key (positions s) then
    Ok (false, LevelOccupied level_key)
  else
    let maker_buffer := maker_buffer_frac (grid cfg) in
    let order_price := level_price * (1 - maker_buffer) in
    order_price_norm <- normalize_price order_price ;;
    if existsb
         (fun order =>
            OrderType_eqb (side order) BUY
            && Qlt_bool (Qabs (price order - order_price_norm))
                        (tick_size (grid cfg)))
         (dict_values (active_orders s))
    then Ok (false, DuplicateBuy order_price_norm)
    else
      position_size <- calculate_position_size s 0 current_price ;;
      q <- pdiv position_size order_price_norm ;;
      quantity <- normalize_quantity q ;;
      let min_notional := min_notional (grid cfg) in
      if Qlt_bool (quantity * order_price_norm) min_notional then
        Ok (false, BelowMinNotional (quantity * order_price_norm) min_notional)
      else if Qlt_bool (cash s) position_size then
        Ok (false, InsufficientCash position_size (cash s))
      else Ok (true, ReasonOK).

Definition get_target_levels (s : State) (current_price : Q) : list Q :=
  let step := get_grid_step s current_price in
  map (fun i => current_price - inject_Z i * step)
      (py_range 1 (levels_below (grid cfg) + 1))
  ++ map (fun i => current_price + inject_Z i * step)
      (py_range 1 (levels_above (grid cfg) + 1)).

(** The body of the [if can_place:] branch of [step_book] up to the
    construction of the [Order]. *)
Definition build_buy_order (s : State) (i : nat) (level current_price : Q)
    : outcome Order :=
  let maker_buffer := maker_buffer_frac (grid cfg) in
  order_price <- normalize_price (level * (1 - maker_buffer)) ;;
  position_size <- calculate_position_size s i current_price ;;
  q <- pdiv position_size order_price ;;
  quantity <- normalize_quantity q ;;
  let order_id :=
    "BUY_" ++ format_fixed 2 level ++ "_"
    ++ nat_str (List.length (active_orders s)) in
  nl <- normalize_price level ;;
  Ok (mkOrder order_id (runtime_symbol cfg) BUY order_price quantity NEW
              (Some (format_fixed 8 nl))).

Definition placed_message (order : Order) : string :=
  "Размещен BUY: " ++ format_fixed 4 (quantity order)
  ++ " @ " ++ format_fixed 2 (price order).

(** The loop [for i, level in enumerate(target_levels)] of [step_book].
    An exception leaves the orders stored so far in [active_orders]. *)
Fixpoint place_loop (current_price : Q) (items : list (nat * Q))
    (s : State) (actions : Actions) : State * outcome Actions :=
  match items with
  | [] => (s, Ok actions)
  | (i, level) :: rest =>
      if Qle_bool current_price level then
        place_loop current_price rest s actions
      else
        match can_place_buy s level current_price with
        | Raise e => (s, Raise e)
        | Ok (false, _) => place_loop current_price rest s actions
        | Ok (true, _) =>
            match build_buy_order s i level current_price with
            | Raise e => (s, Raise e)
            | Ok order =>
                place_loop current_price rest
                  (set_active_orders
                     (dict_set (id order) order (active_orders s)) s)
                  (mkActions (place_orders actions ++ [order])
                             (cancel_orders actions)
                             (messages actions ++ [placed_message order]))
            end
        end
  end.

Definition pause_message (drawdown : Q) : string :=
  "ПАУЗА: просадка " ++ format_percent 1 drawdown
  ++ " превышает лимит " ++ format_percent 1 (dd_pause_frac (risk cfg)).

Definition stop_message (drawdown : Q) : string :=
  "СТОП: критическая просадка " ++ format_percent 1 drawdown.

Definition step_book (s : State) (current_price bid ask : Q)
    : State * outcome Actions :=
  let actions := mkActions [] [] [] in
  let history := (price_history s ++ [current_price])%list in
  let history :=
    if (atr_window (grid cfg) * 2 <? Z.of_nat (List.length history))%Z
    then py_slice_from (- atr_window (grid cfg)) history
    else history in
  let s := set_price_history history s in
  let current_equity := cash s + base_holdings s * current_price in
  match pdiv (max_equity s - current_equity) (max_equity s) with
  | Raise e => (s, Raise e)
  | Ok drawdown =>
      if Qlt_bool (dd_pause_frac (risk cfg)) drawdown then
        (s, Ok (mkActions [] [] [pause_message drawdown]))
      else if Qlt_bool (kill_switch_frac (risk cfg)) drawdown then
        (s, Ok (mkActions [] [] [stop_message drawdown]))
      else
        let s :=
          if Qlt_bool (max_equity s) current_equity
          then set_max_equity current_equity s else s in
        let target_levels := get_target_levels s current_price in
        place_loop current_price (enumerate target_levels) s actions
  end.

(** [drawdown] as [step_book] computes it, where [max_equity] is not 0. *)
Definition drawdown (s : State) (current_price : Q) : Q :=
  (max_equity s - (cash s + base_holdings s * current_price)) / max_equity s.

(** What a call of [on_order_filled] leaves behind: the state, the lines
    printed and whether it returned. *)
Record FillResult : Type := mkFill {
  fill_state : State;
  fill_stdout : list string;
  fill_result : outcome unit
}.

(** [order.level_key or f"{fill_price:.8f}"]: [None] and the empty
    string both give way to the formatted fill price. *)
Definition fill_level_key (order : Order) (fill_price : Q) : string :=
  match level_key order with
  | Some k => if String.eqb k "" then format_fixed 8 fill_price else k
  | None => format_fixed 8 fill_price
  end.

Definition _handle_buy_fill (s : State) (order : Order)
    (fill_price fill_quantity : Q) : FillResult :=
  let cost := fill_price * fill_quantity in
  let s := set_cash (cash s - cost) s in
  let s := set_base_holdings (base_holdings s + fill_quantity) s in
  let level_key := fill_level_key order fill_price in
  let tp :=
    if String.eqb (tp_mode (grid cfg)) "step" then
      fill_price + get_grid_step s fill_price
    else fill_price * (1 + tp_percent (grid cfg)) in
  match normalize_price tp with
  | Raise e => mkFill s [] (Raise e)
  | Ok tp_norm =>
      let position :=
        mkPosition fill_price fill_quantity fill_price (Some tp_norm) None in
      let s := set_positions (dict_set level_key position (positions s)) s in
      mkFill s
        ["BUY заполнен: " ++ format_fixed 4 fill_quantity ++ " @ "
           ++ format_fixed 2 fill_price ++ ", TP @ " ++ format_fixed 2 tp_norm;
         "Баланс: Cash=" ++ format_fixed 2 (cash s) ++ ", Base="
           ++ format_fixed 6 (base_holdings s)]
        (Ok tt)
  end.

(** The search loop of [_handle_sell_fill]: the first position, in
    insertion order, whose take-profit order is [order_id]. *)
Definition find_position (order_id : string) (ps : dict Position)
    : option (string * Position) :=
  find (fun kp =>
          match tp_order_id (snd kp) with
          | Some t => String.eqb t order_id
          | None => false
          end) ps.

Definition _handle_sell_fill (s : State) (order : Order)
    (fill_price fill_quantity : Q) : FillResult :=
  match find_position (id order) (positions s) with
  | None => mkFill s [] (Ok tt)
  | Some (position_key, position) =>
      if String.eqb position_key "" then mkFill s [] (Ok tt)
      else
        let profit := (fill_price - buy_price position) * fill_quantity in
        let s := set_realized_pnl (realized_pnl s + profit) s in
        let s := set_total_pnl (total_pnl s + profit) s in
        let s :=
          if compound (capital cfg)
          then set_cash (cash s + fill_price * fill_quantity) s else s in
        let s := set_base_holdings (base_holdings s - fill_quantity) s in
        let s := set_positions (dict_del position_key (positions s)) s in
        mkFill s
          ["TP заполнен: " ++ format_fixed 4 fill_quantity ++ " @ "
             ++ format_fixed 2 fill_price ++ ", прибыль: "
             ++ format_fixed 2 profit;
           "Реализованная прибыль: " ++ format_fixed 2 (realized_pnl s)]
          (Ok tt)
  end.

Definition on_order_filled (s : State) (order_id : string)
    (fill_price fill_quantity : Q) : FillResult :=
  match dict_get order_id (active_orders s) with
  | None => mkFill s ["Неизвестный ордер: " ++ order_id] (Ok tt)
  | Some order =>
      let order := set_status FILLED order in
      let s :=
        set_active_orders (dict_set order_id order (active_orders s)) s in
      let r :=
        match side order with
        | BUY => _handle_buy_fill s order fill_price fill_quantity
        | SELL => _handle_sell_fill s order fill_price fill_quantity
        end in
      match fill_result r with
      | Raise e => r
      | Ok _ =>
          mkFill
            (set_active_orders
               (dict_del order_id (active_orders (fill_state r)))
               (fill_state r))
            (fill_stdout r) (Ok tt)
      end
  end.

Definition get_status (s : State) : outcome Status :=
  let current_equity := cash s + base_holdings s * 45000 in
  drawdown <- pdiv (max_equity s - current_equity) (max_equity s) ;;
  Ok (mkStatus (cash s) (base_holdings s) current_equity (realized_pnl s)
               (total_pnl s) (max_equity s) drawdown
               (List.length (active_orders s)) (List.length (positions s))
               cfg).

(** ** Runs of the engine

    The driver calls [step_book] once per tick and [on_order_filled] for
    every execution reported; it logs an exception and goes on, so a run
    continues from the state the call left. *)

Inductive event : Type :=
| Tick (current_price bid ask : Q)
| Fill (order_id : string) (fill_price fill_quantity : Q).

Definition apply_event (s : State) (e : event) : State :=
  match e with
  | Tick p b a => fst (step_book s p b a)
  | Fill o p q => fill_state (on_order_filled s o p q)
  end.

Definition run (s : State) (tr : list event) : State :=
  fold_left apply_event tr s.

End Strategy.

(** ** Notions used by the properties *)

Definition set_tp_order_id (t : option string) (p : Position) : Position :=
  mkPosition (level_price p) (pos_quantity p) (buy_price p) (tp_price p) t.

(** The sum of [quantity] over the open positions. *)
Definition total_quantity (ps : dict Position) : Q :=
  Qsum (map pos_quantity (dict_values ps)).

Definition is_buy (o : Order) : bool := OrderType_eqb (side o) BUY.

Definition level_key_eqb (a b : option string) : bool :=
  match a, b with
  | Some x, Some y => String.eqb x y
  | None, None => true
  | _, _ => false
  end.

Fixpoint all_distinct (l : list (option string)) : bool :=
  match l with
  | [] => true
  | k :: l' => negb (existsb (level_key_eqb k) l') && all_distinct l'
  end.

(** The level keys of the active BUY orders are pairwise different. *)
Definition unique_buy_levels (s : State) : bool :=
  all_distinct (map level_key (filter is_buy (dict_values (active_orders s)))).

(** The attributes that [step_book] leaves alone. *)
Definition same_account (s s' : State) : Prop :=
  cash s' = cash s /\ base_holdings s' = base_holdings s
  /\ positions s' = positions s /\ total_pnl s' = total_pnl s
  /\ realized_pnl s' = realized_pnl s.

(** Every active order is a BUY order. *)
Definition only_buys (s : State) : Prop :=
  Forall (fun o => side o = BUY) (dict_values (active_orders s)).

(** Every BUY fill of the run arrives on a level key that holds no
    position at that moment. *)
Fixpoint buy_fills_on_free_levels (cfg : Config) (s : State) (tr : list event)
    : bool :=
  match tr with
  | [] => true
  | e :: tr' =>
      match e with
      | Tick _ _ _ => true
      | Fill o p q =>
          match dict_get o (active_orders s) with
          | None => true
          | Some order =>
              match side order with
              | BUY => negb (dict_mem (fill_level_key order p) (positions s))
              | SELL => true
              end
          end
      end
      && buy_fills_on_free_levels cfg (apply_event cfg s e) tr'
  end.

(** *** The grid step as the specification words it *)

(** The absolute differences of consecutive samples. *)
Fixpoint abs_diffs (l : list Q) : list Q :=
  match l with
  | [] => []
  | a :: t =>
      match t with
      | [] => []
      | b :: _ => Qabs (b - a) :: abs_diffs t
      end
  end.

(** The last [n] samples of the history. *)
Definition last_samples (n : nat) (l : list Q) : list Q :=
  skipn (List.length l - n) l.

Definition mean_abs_diff (l : list Q) : Q :=
  Qsum (abs_diffs l) / inject_Z (Z.of_nat (List.length (abs_diffs l))).

Definition computeStep (cfg : Config) (s : State) (currentPrice : Q) : Q :=
  if String.eqb (mode (grid cfg)) "percent" then
    currentPrice * step_percent (grid cfg)
  else if (Z.of_nat (List.length (price_history s)) <? atr_window (grid cfg))%Z then
    currentPrice * (4 # 1000)
  else
    mean_abs_diff
      (last_samples (Z.to_nat (atr_window (grid cfg))) (price_history s))
    * atr_k (grid cfg).

(** ** A configuration and some runs

    The configuration file is not part of the sources; this one has the
    shape of the scenario of the specification (percent mode, step 0.4%,
    three levels below, take profit one step above). *)

Definition demo_grid : GridConfig :=
  mkGrid "percent" (4 # 1000) 14 1 (1 # 100) (1 # 100000) 3 3 (5 # 10000)
         "step" (4 # 1000) "linear" (1 # 2) 5.

Definition demo_config : Config :=
  mkConfig demo_grid (mkCapital 10000 0 (1 # 2) true)
           (mkRisk (5 # 100) (10 # 100)) "BTCUSDT".

(** The same with a starting inventory worth 4500 in the quote asset. *)
Definition inventory_config : Config :=
  mkConfig demo_grid (mkCapital 10000 4500 (1 # 2) true)
           (mkRisk (5 # 100) (10 # 100)) "BTCUSDT".

(** The same in ATR mode with a window of three samples. *)
Definition atr_config : Config :=
  mkConfig
    (mkGrid "atr" (4 # 1000) 3 2 (1 # 100) (1 # 100000) 3 3 (5 # 10000)
            "step" (4 # 1000) "linear" (1 # 2) 5)
    (mkCapital 10000 0 (1 # 2) true) (mkRisk (5 # 100) (10 # 100)) "BTCUSDT".

Definition fresh (cfg : Config) : State := fst (init cfg).

(** One tick at 45000: three BUY orders are placed. *)
Definition after_first_tick : State :=
  run demo_config (fresh demo_config) [Tick 45000 44990 45010].

(** The three orders of [after_first_tick], filled at their own price and
    quantity. *)
Definition three_fills : list event :=
  [Fill "BUY_44820.00_0" (4479759 # 100) (8371 # 100000);
   Fill "BUY_44640.00_1" (4461768 # 100) (8405 # 100000);
   Fill "BUY_44460.00_2" (4443777 # 100) (8439 # 100000)].

(** The first order filled, then the price falls to 30000. *)
Definition before_crash : State :=
  run demo_config (fresh demo_config)
      [Tick 45000 44990 45010;
       Fill "BUY_44820.00_0" (4479759 # 100) (8371 # 100000)].

(** Two ticks one cent apart. *)
Definition two_close_ticks : list event :=
  [Tick (4509937 # 100) (4509936 # 100) (4509938 # 100);
   Tick (4509938 # 100) (4509937 # 100) (4509939 # 100)].


(** An account that starts with inventory only: no quote currency and
    base currency worth 4500. *)
Definition inventory_only_config : Config :=
  mkConfig demo_grid (mkCapital 0 4500 (1 # 2) true)
           (mkRisk (5 # 100) (10 # 100)) "BTCUSDT".

(** Accounts with inventory worth 4500 whose pause threshold, kill
    threshold or starting cash is negative. *)
Definition eager_pause_config : Config :=
  mkConfig demo_grid (mkCapital 10000 4500 (1 # 2) true)
           (mkRisk (- 1) (10 # 100)) "BTCUSDT".

Definition eager_kill_config : Config :=
  mkConfig demo_grid (mkCapital 10000 4500 (1 # 2) true)
           (mkRisk (5 # 100) (- 1)) "BTCUSDT".

Definition overdrawn_config : Config :=
  mkConfig demo_grid (mkCapital (- 1000) 4500 (1 # 2) true)
           (mkRisk (5 # 100) (10 # 100)) "BTCUSDT".

(** ATR mode with a window of a single sample, and the state after two
    ticks, at 100 and at 103. *)
Definition one_sample_config : Config :=
  mkConfig
    (mkGrid "atr" (4 # 1000) 1 2 (1 # 100) (1 # 100000) 3 3 (5 # 10000)
            "step" (4 # 1000) "linear" (1 # 2) 5)
    (mkCapital 10000 0 (1 # 2) true) (mkRisk (5 # 100) (10 # 100)) "BTCUSDT".

Definition one_sample_state : State :=
  run one_sample_config (fresh one_sample_config)
      [Tick 100 (999 # 10) (1001 # 10); Tick 103 (1029 # 10) (1031 # 10)].

(** A state in ATR mode with four samples in the history. *)
Definition atr_state : State :=
  set_price_history [100; 103; 101; 105] (fresh atr_config).

(** With a starting inventory: one tick, then the first order filled at
    its own price and quantity. *)
Definition inventory_run : list event :=
  [Tick 45000 44990 45010;
   Fill "BUY_44820.00_0" (4479759 # 100) (7332 # 100000)].

(** The first order of [after_first_tick], the position its fill opens
    and the take-profit order of that position. *)
Definition first_order : Order :=
  mkOrder "BUY_44820.00_0" "BTCUSDT" BUY (4479759 # 100) (8371 # 100000) NEW
          (Some "44820.00000000").

Definition first_position : Position :=
  mkPosition (4479759 # 100) (8371 # 100000) (4479759 # 100)
             (Some (4497678 # 100)) None.

Definition tp_order : Order :=
  mkOrder "TP_1" "BTCUSDT" SELL (4497678 # 100) (8371 # 100000) NEW None.

(** The state after [two_close_ticks]. *)
Definition after_close_ticks : State :=
  run demo_config (fresh demo_config) two_close_ticks.

(** The state [before_crash] once the gateway has placed the take-profit
    order of its position and the order id has been recorded on the
    position and in the book of active orders. *)
Definition tp_recorded : State :=
  set_active_orders
    (dict_set "TP_1" tp_order (active_orders before_crash))
    (set_positions
       (map (fun kp => (fst kp, set_tp_order_id (Some "TP_1") (snd kp)))
            (positions before_crash))
       before_crash).

(** ** Notions used by the further properties *)

(** The factor [calculate_position_size] applies to the size of a level
    for a given inventory ratio. *)
Definition skew_factor (cfg : Config) (inventory_ratio : Q) : Q :=
  if Qlt_bool inventory_ratio (target_inventory_ratio (capital cfg)) then
    1 + (target_inventory_ratio (capital cfg) - inventory_ratio)
        * skew_strength (grid cfg)
  else 1.

(** Two BUY orders are at least one tick apart in price. *)
Definition apart (cfg : Config) (a b : Order) : Prop :=
  side a = BUY -> side b = BUY ->
  tick_size (grid cfg) <= Qabs (price a - price b).

Definition buy_prices_apart (cfg : Config) (s : State) : Prop :=
  ForallOrdPairs (apart cfg) (dict_values (active_orders s)).

(** No order id is a key of [active_orders] twice. *)
Definition keys_unique (s : State) : Prop :=
  NoDup (map fst (active_orders s)).

(** The number of ticks of a run. *)
Definition ticks (tr : list event) : nat :=
  List.length
    (filter (fun e => match e with Tick _ _ _ => true | Fill _ _ _ => false end)
            tr).

(** An engine that starts with no cash. *)
Definition unfunded_config : Config :=
  mkConfig demo_grid (mkCapital 0 0 (1 # 2) true)
           (mkRisk (5 # 100) (10 # 100)) "BTCUSDT".

(** The demo configuration with geometric sizing. *)
Definition geometric_config : Config :=
  mkConfig
    (mkGrid "percent" (4 # 1000) 14 1 (1 # 100) (1 # 100000) 3 3 (5 # 10000)
            "step" (4 # 1000) "geometric" (1 # 2) 5)
    (mkCapital 10000 0 (1 # 2) true) (mkRisk (5 # 100) (10 # 100)) "BTCUSDT".

(** What every order placed by [step_book] looks like. *)
Definition placed_shape (cfg : Config) (o : Order) : Prop :=
  side o = BUY /\ status o = NEW /\ symbol o = runtime_symbol cfg.

(** The tick of [step_book] as far as the price history goes. *)
Definition next_history (cfg : Config) (h : list Q) (p : Q) : list Q :=
  if (atr_window (grid cfg) * 2 <? Z.of_nat (List.length (h ++ [p])))%Z
  then py_slice_from (- atr_window (grid cfg)) (h ++ [p])%list
  else (h ++ [p])%list.

(** The ATR configuration with a window of 0 samples. *)
Definition no_window_config : Config :=
  mkConfig
    (mkGrid "atr" (4 # 1000) 0 2 (1 # 100) (1 # 100000) 3 3 (5 # 10000)
            "step" (4 # 1000) "linear" (1 # 2) 5)
    (mkCapital 10000 0 (1 # 2) true) (mkRisk (5 # 100) (10 # 100)) "BTCUSDT".

(** Five ticks. *)
Definition five_ticks : list event :=
  [Tick 45000 44990 45010; Tick 45010 45000 45020; Tick 45020 45010 45030;
   Tick 45030 45020 45040; Tick 45040 45030 45050].

(** No position carries the id of a take-profit order. *)
Definition no_take_profit_link (s : State) : Prop :=
  Forall (fun pos => tp_order_id pos = None) (dict_values (positions s)).

(** ** The mock exchange client ([MockMexcAPIClient])

    The orders of the mock are dictionaries; they are modelled by a record
    with one field per key. The mock stores quantity and price as the text
    [str(x)] of the float; the model keeps the number. The lines the mock
    prints render floats with [str] and are left out. *)

Record MockOrder : Type := mkMockOrder {
  mo_orderId : string;
  mo_symbol : string;
  mo_side : string;
  mo_type : string;
  mo_quantity : Q;
  mo_price : option Q;
  mo_status : string
}.

Record Mock : Type := mkMock {
  mock_price : Q;
  mock_orders : dict MockOrder;
  mock_balance : dict Q
}.

(** [raise ValueError(msg)] *)
Inductive api_outcome (A : Type) : Type :=
| ApiOk (a : A)
| ApiValueError (msg : string).

Arguments ApiOk {A} a.
Arguments ApiValueError {A} msg.

(** [MockMexcAPIClient.__init__] *)
Definition mock_init : Mock :=
  mkMock 45000 [] [("USDT", 10000); ("BTC", 22 # 100)].

Definition set_mock_orders (o : dict MockOrder) (m : Mock) : Mock :=
  mkMock (mock_price m) o (mock_balance m).

Definition set_mo_status (st : string) (o : MockOrder) : MockOrder :=
  mkMockOrder (mo_orderId o) (mo_symbol o) (mo_side o) (mo_type o)
              (mo_quantity o) (mo_price o) st.

(** [place_order]: [price] is [None] by default, and a price of 0 is
    stored as [None] too ([str(price) if price else None]). *)
Definition mock_place_order (m : Mock) (symbol side : string) (quantity : Q)
    (price : option Q) (order_type : string) : Mock * MockOrder :=
  let order_id := nat_str (List.length (mock_orders m) + 1) in
  let order :=
    mkMockOrder order_id symbol side order_type quantity
      (match price with
       | Some p => if Qeq_bool p 0 then None else Some p
       | None => None
       end)
      "NEW" in
  (set_mock_orders (dict_set order_id order (mock_orders m)) m, order).

(** [cancel_order]: [order_id] is [None] by default. *)
Definition mock_cancel_order (m : Mock) (symbol : string)
    (order_id : option string) : Mock * api_outcome MockOrder :=
  match order_id with
  | None => (m, ApiValueError "Ордер None не найден")
  | Some k =>
      match dict_get k (mock_orders m) with
      | Some order =>
          let order := set_mo_status "CANCELED" order in
          (set_mock_orders (dict_set k order (mock_orders m)) m, ApiOk order)
      | None => (m, ApiValueError ("Ордер " ++ k ++ " не найден"))
      end
  end.

(** [open_orders] *)
Definition mock_open_orders (m : Mock) (symbol : option string)
    : list MockOrder :=
  filter
    (fun order =>
       String.eqb (mo_status order) "NEW"
       && match symbol with
          | None => true
          | Some sym => String.eqb (mo_symbol order) sym
          end)
    (dict_values (mock_orders m)).

(** The mock as [place_order] and [cancel_order] keep it: the order ids
    are the numerals 1, 2, ... in order, and every order is stored under
    its own id. *)
Definition mock_wf (m : Mock) : Prop :=
  map fst (mock_orders m)
  = map nat_str (seq 1 (List.length (mock_orders m)))
  /\ Forall (fun kv => mo_orderId (snd kv) = fst kv) (mock_orders m).

(** ** The live driver ([LiveTradingBot]) on the mock client

    Logging is left out. *)

(** The loop of [stop] over the open orders: the [try] around it ends
    the loop at the first cancellation that raises. *)
Fixpoint cancel_all (m : Mock) (symbol : string) (active : list MockOrder)
    : Mock :=
  match active with
  | [] => m
  | order :: rest =>
      match mock_cancel_order m symbol (Some (mo_orderId order)) with
      | (m', ApiOk _) => cancel_all m' symbol rest
      | (m', ApiValueError _) => m'
      end
  end.

(** [stop], as far as the exchange goes. *)
Definition bot_stop (m : Mock) (symbol : string) : Mock :=
  cancel_all m symbol (mock_open_orders m (Some symbol)).

(** The second half of [reconcile_orders]: the orders of the strategy
    whose id the exchange does not list are deleted from the strategy.
    The code walks a set, whose order Python does not fix; the model
    walks the missing ids in the order of the book (the outcome does not
    depend on it, see [drop_missing_filter]). *)
Definition drop_missing (exchange_order_ids : list string) (s : State) : State :=
  let strategy_order_ids := map fst (active_orders s) in
  let missing_on_exchange :=
    filter (fun k => negb (existsb (String.eqb k) exchange_order_ids))
           strategy_order_ids in
  fold_left
    (fun st order_id =>
       if dict_mem order_id (active_orders st)
       then set_active_orders (dict_del order_id (active_orders st)) st
       else st)
    missing_on_exchange s.

(** [reconcile_orders] on the mock client. *)
Definition reconcile_orders (s : State) (m : Mock) (symbol : string) : State :=
  drop_missing (map mo_orderId (mock_open_orders m (Some symbol))) s.

(** Every key of the book has the form [step_book] gives to order ids. *)
Definition keys_from_engine (s : State) : Prop :=
  Forall (fun k => String.prefix "BUY_" k = true) (map fst (active_orders s)).

(** ** The backtest driver ([BacktestEngine]) *)

(** [self.slippage] *)
Definition slippage : Q := 5 # 10000.

Definition simulate_execution (order_type : string)
    (price quantity market_price : Q) : bool * Q * Q :=
  if String.eqb order_type "LIMIT" then
    if String.eqb order_type "BUY" && Qle_bool market_price price then
      (true, price * (1 + slippage), quantity)
    else if String.eqb order_type "SELL" && Qle_bool price market_price then
      (true, price * (1 - slippage), quantity)
    else (false, 0, 0)
  else (false, 0, 0).

(** A row of the data frame, with the two columns [run_backtest] reads. *)
Record Candle : Type := mkCandle {
  c_timestamp : Z;
  c_close : Q
}.

(** An entry of [results['equity_curve']]. *)
Record EquityPoint : Type := mkPoint {
  ep_timestamp : Z;
  ep_price : Q;
  ep_equity : Q;
  ep_cash : Q;
  ep_base_holdings : Q;
  ep_realized_pnl : Q
}.

(** The strategy and the equity curve of a [BacktestEngine]. *)
Record Backtest : Type := mkBacktest {
  bt_strategy : State;
  bt_equity_curve : list EquityPoint
}.

(** What a call leaves behind: the engine, the lines printed and whether
    it returned. *)
Record BacktestRun : Type := mkRun {
  run_engine : Backtest;
  run_stdout : list string;
  run_result : outcome unit
}.

(** [f"📊 Прогресс: {progress:.1f}%"] for [progress = (i / total_rows) * 100] *)
Definition progress_line (i total_rows : nat) : string :=
  "📊 Прогресс: "
  ++ format_fixed 1
       (inject_Z (Z.of_nat i) / inject_Z (Z.of_nat total_rows) * 100)
  ++ "%".

(** The loop [for i, row in df.iterrows()] of [run_backtest], for a data
    frame with the default index 0, 1, ... *)
Fixpoint backtest_rows (cfg : Config) (total_rows : nat)
    (rows : list (nat * Candle)) (bt : Backtest) (out : list string)
    : BacktestRun :=
  match rows with
  | [] => mkRun bt out (Ok tt)
  | (i, row) :: rest =>
      match (total_rows / 20)%nat with
      | O => mkRun bt out (Raise ZeroDivisionError)
      | S _ as every =>
          let out :=
            if Nat.eqb (i mod every) 0 then
              (out ++ [progress_line i total_rows])%list
            else out in
          let current_price := c_close row in
          let bid := current_price * (999 # 1000) in
          let ask := current_price * (1001 # 1000) in
          match step_book cfg (bt_strategy bt) current_price bid ask with
          | (s, Raise e) => mkRun (mkBacktest s (bt_equity_curve bt)) out (Raise e)
          | (s, Ok _) =>
              match get_status cfg s with
              | Raise e =>
                  mkRun (mkBacktest s (bt_equity_curve bt)) out (Raise e)
              | Ok status =>
                  backtest_rows cfg total_rows rest
                    (mkBacktest s
                       (bt_equity_curve bt
                        ++ [mkPoint (c_timestamp row) current_price
                                    (st_equity status) (st_cash status)
                                    (st_base_holdings status)
                                    (st_realized_pnl status)])%list)
                    out
              end
          end
      end
  end.

(** [run_backtest] up to the end of its loop (the metrics it computes
    afterwards from the curve are not modelled). *)
Definition run_backtest_loop (cfg : Config) (df : list Candle) (bt : Backtest)
    : BacktestRun :=
  backtest_rows cfg (List.length df) (enumerate df) bt
    ["🚀 Запуск бэктестинга..."].

(** [BacktestEngine.__init__], as far as the loop goes. *)
Definition backtest_init (cfg : Config) : Backtest :=
  mkBacktest (fresh cfg) [].

(** Data frames of 7 and of 20 rows. *)
Definition seven_candles : list Candle :=
  map (fun k => mkCandle (Z.of_nat k) (45000 + inject_Z (Z.of_nat k)))
      (seq 0 7).

Definition twenty_candles : list Candle :=
  map (fun k => mkCandle (Z.of_nat k) (45000 + inject_Z (Z.of_nat k)))
      (seq 0 20).

(** The mock after three orders, the second one cancelled. *)
Definition mock_three : Mock :=
  let m1 := fst (mock_place_order mock_init "BTCUSDT" "BUY" (1 # 10)
                   (Some 44000) "LIMIT") in
  let m2 := fst (mock_place_order m1 "BTCUSDT" "BUY" (2 # 10)
                   (Some 43000) "LIMIT") in
  let m3 := fst (mock_place_order m2 "ETHUSDT" "SELL" 1 (Some 3000) "LIMIT") in
  fst (mock_cancel_order m3 "BTCUSDT" (Some "2")).

(** An equity point that shows the account of the state [s0], valued at
    the fixed price of [get_status]. *)
Definition flat_point (s0 : State) (pt : EquityPoint) : Prop :=
  ep_equity pt = cash s0 + base_holdings s0 * 45000
  /\ ep_cash pt = cash s0
  /\ ep_base_holdings pt = base_holdings s0
  /\ ep_realized_pnl pt = realized_pnl s0.

(** A level key is free when no position is filed under it. *)
Definition free_level (ps : dict Position) (o : Order) : Prop :=
  exists k, level_key o = Some k /\ dict_mem k ps = false.

(** A state in ATR mode whose history is flat. *)
Definition flat_atr_state : State :=
  set_price_history [100; 100; 100] (fresh atr_config).

(** The two orders of [after_close_ticks] that share a level key, the
    first of them filled. *)
Definition one_of_two_filled : State :=
  run demo_config after_close_ticks
      [Fill "BUY_44738.58_1" (4471621 # 100) (8386 # 100000)].

(** The state [before_crash] with a SELL order in the book that no
    position names as its take-profit order. *)
Definition tp_unrecorded : State :=
  set_active_orders
    (dict_set "TP_1" tp_order (active_orders before_crash)) before_crash.

(** * Properties *)

(** ** Comparisons and sums *)

Lemma Qlt_bool_iff (x y : Q) : Qlt_bool x y = true <-> x < y.
Proof.
  unfold Qlt_bool. rewrite negb_true_iff. split; intro H.
  - apply Qnot_le_lt. intro L. apply Qle_bool_iff in L. congruence.
  - destruct (Qle_bool y x) eqn:E; [|reflexivity].
    apply Qle_bool_iff in E. exfalso. apply (Qlt_not_le _ _ H E).
Qed.

Lemma Qlt_bool_false_iff (x y : Q) : Qlt_bool x y = false <-> y <= x.
Proof.
  unfold Qlt_bool. rewrite negb_false_iff. apply Qle_bool_iff.
Qed.

Lemma pdiv_ok (x y : Q) : ~ y == 0 -> pdiv x y = Ok (x / y).
Proof.
  intro H. unfold pdiv. destruct (Qeq_bool y 0) eqn:E; [|reflexivity].
  apply Qeq_bool_iff in E. contradiction.
Qed.

Lemma fold_left_Qplus_acc (l : list Q) (a : Q) :
  fold_left Qplus l a == a + fold_left Qplus l 0.
Proof.
  revert a. induction l as [|x l IH]; intro a; simpl.
  - ring.
  - rewrite (IH (a + x)), (IH (0 + x)). ring.
Qed.

Lemma Qsum_cons (x : Q) (l : list Q) : Qsum (x :: l) == x + Qsum l.
Proof.
  unfold Qsum. simpl. rewrite fold_left_Qplus_acc. ring.
Qed.

Lemma Qsum_app (l1 l2 : list Q) : Qsum (l1 ++ l2) == Qsum l1 + Qsum l2.
Proof.
  induction l1 as [|x l1 IH]; simpl.
  - unfold Qsum at 2. simpl. ring.
  - rewrite !Qsum_cons, IH. ring.
Qed.

(** ** Dictionaries *)

Section DictFacts.
Context {V : Type}.

Lemma dict_set_fresh (k : string) (v : V) (m : dict V) :
  dict_get k m = None -> dict_set k v m = (m ++ [(k, v)])%list.
Proof.
  induction m as [|[k' v'] m IH]; simpl; [reflexivity|].
  destruct (String.eqb k k'); [discriminate|].
  intro H. rewrite (IH H). reflexivity.
Qed.

Lemma dict_get_set_same (k : string) (v : V) (m : dict V) :
  dict_get k (dict_set k v m) = Some v.
Proof.
  induction m as [|[k' v'] m IH]; simpl.
  - rewrite String.eqb_refl. reflexivity.
  - destruct (String.eqb k k') eqn:E; simpl; rewrite E; [reflexivity|exact IH].
Qed.

Lemma dict_set_values (P : V -> Prop) (k : string) (v : V) (m : dict V) :
  P v -> Forall P (dict_values m) -> Forall P (dict_values (dict_set k v m)).
Proof.
  intros Pv. induction m as [|[k' v'] m IH]; simpl; intro H.
  - constructor; [exact Pv|constructor].
  - inversion H as [|? ? Hv Hm]; subst.
    destruct (String.eqb k k'); simpl; constructor; auto.
Qed.

Lemma dict_del_values (P : V -> Prop) (k : string) (m : dict V) :
  Forall P (dict_values m) -> Forall P (dict_values (dict_del k m)).
Proof.
  induction m as [|[k' v'] m IH]; simpl; intro H; [constructor|].
  inversion H as [|? ? Hv Hm]; subst.
  destruct (String.eqb k k'); simpl; [exact Hm|constructor; auto].
Qed.

Lemma dict_get_values (P : V -> Prop) (k : string) (v : V) (m : dict V) :
  Forall P (dict_values m) -> dict_get k m = Some v -> P v.
Proof.
  induction m as [|[k' v'] m IH]; simpl; intros H G; [discriminate|].
  inversion H as [|? ? Hv Hm]; subst.
  destruct (String.eqb k k'); [injection G as <-; exact Hv|auto].
Qed.

End DictFacts.

(** ** What [step_book] touches *)

Ltac unbind H :=
  repeat match type of H with
    | bind ?m _ = Ok _ =>
        let E := fresh "E" in
        destruct m eqn:E; cbn [bind] in H; [|discriminate H]
    end.

Section StepFacts.
Variable cfg : Config.

Lemma build_buy_order_side s i level p o :
  build_buy_order cfg s i level p = Ok o -> side o = BUY.
Proof.
  unfold build_buy_order. intro H. unbind H.
  injection H as <-. reflexivity.
Qed.

Lemma place_loop_frame p items : forall s acts,
  same_account s (fst (place_loop cfg p items s acts))
  /\ max_equity (fst (place_loop cfg p items s acts)) = max_equity s
  /\ price_history (fst (place_loop cfg p items s acts)) = price_history s.
Proof.
  unfold same_account.
  induction items as [|[i level] rest IH]; intros s acts; cbn [place_loop].
  - cbn [fst]. tauto.
  - destruct (Qle_bool p level); [apply IH|].
    destruct (can_place_buy cfg s level p) as [[[|] r]|e];
      [| apply IH | cbn [fst]; tauto].
    destruct (build_buy_order cfg s i level p) as [order|e];
      [| cbn [fst]; tauto].
    match goal with
    | |- context [place_loop cfg p rest ?s1 ?a1] => specialize (IH s1 a1)
    end.
    exact IH.
Qed.

Lemma place_loop_only_buys p items : forall s acts,
  only_buys s -> only_buys (fst (place_loop cfg p items s acts)).
Proof.
  unfold only_buys.
  induction items as [|[i level] rest IH]; intros s acts Hs; cbn [place_loop].
  - exact Hs.
  - destruct (Qle_bool p level); [apply IH; exact Hs|].
    destruct (can_place_buy cfg s level p) as [[[|] r]|e];
      [| apply IH; exact Hs | exact Hs].
    destruct (build_buy_order cfg s i level p) as [order|e] eqn:B;
      [| exact Hs].
    apply IH. cbn. apply dict_set_values; [|exact Hs].
    exact (build_buy_order_side _ _ _ _ _ B).
Qed.

Lemma place_loop_cancel p items : forall s acts a,
  snd (place_loop cfg p items s acts) = Ok a ->
  cancel_orders a = cancel_orders acts.
Proof.
  induction items as [|[i level] rest IH]; intros s acts a; cbn [place_loop].
  - cbn [snd]. intro H. injection H as <-. reflexivity.
  - destruct (Qle_bool p level); [apply IH|].
    destruct (can_place_buy cfg s level p) as [[[|] r]|e];
      [| apply IH | discriminate].
    destruct (build_buy_order cfg s i level p) as [order|e]; [|discriminate].
    intro H. apply IH in H. exact H.
Qed.

Lemma step_book_frame s p b a :
  same_account s (fst (step_book cfg s p b a)).
Proof.
  unfold step_book. cbv zeta.
  destruct (pdiv _ _) as [dd|e]; [|cbn; repeat split].
  destruct (Qlt_bool (dd_pause_frac (risk cfg)) dd); [cbn; repeat split|].
  destruct (Qlt_bool (kill_switch_frac (risk cfg)) dd); [cbn; repeat split|].
  match goal with
  | |- context [place_loop cfg p ?items ?s1 ?a1] =>
      destruct (place_loop_frame p items s1 a1) as [F _]
  end.
  unfold same_account in *.
  destruct (Qlt_bool _ _); cbn in F; exact F.
Qed.

Lemma step_book_only_buys s p b a :
  only_buys s -> only_buys (fst (step_book cfg s p b a)).
Proof.
  intro Hs. unfold step_book. cbv zeta.
  destruct (pdiv _ _) as [dd|e]; [|exact Hs].
  destruct (Qlt_bool (dd_pause_frac (risk cfg)) dd); [exact Hs|].
  destruct (Qlt_bool (kill_switch_frac (risk cfg)) dd); [exact Hs|].
  apply place_loop_only_buys.
  destruct (Qlt_bool _ _); exact Hs.
Qed.

(** No branch of [step_book] ever asks for a cancellation. *)
Lemma step_book_cancels_nothing s p b a acts :
  snd (step_book cfg s p b a) = Ok acts -> cancel_orders acts = [].
Proof.
  unfold step_book. cbv zeta.
  destruct (pdiv _ _) as [dd|e]; [|discriminate].
  destruct (Qlt_bool (dd_pause_frac (risk cfg)) dd);
    [intro H; injection H as <-; reflexivity|].
  destruct (Qlt_bool (kill_switch_frac (risk cfg)) dd);
    [intro H; injection H as <-; reflexivity|].
  intro H. apply place_loop_cancel in H. exact H.
Qed.

Lemma step_book_max_equity_le s p b a :
  max_equity s <= max_equity (fst (step_book cfg s p b a)).
Proof.
  unfold step_book. cbv zeta.
  destruct (pdiv _ _) as [dd|e]; [|cbn; apply Qle_refl].
  destruct (Qlt_bool (dd_pause_frac (risk cfg)) dd); [cbn; apply Qle_refl|].
  destruct (Qlt_bool (kill_switch_frac (risk cfg)) dd); [cbn; apply Qle_refl|].
  match goal with
  | |- context [place_loop cfg p ?items ?s1 ?a1] =>
      destruct (place_loop_frame p items s1 a1) as (_ & M & _); rewrite M
  end.
  destruct (Qlt_bool _ _) eqn:E; cbn; [|apply Qle_refl].
  apply Qlt_bool_iff in E. cbn in E. apply Qlt_le_weak. exact E.
Qed.

End StepFacts.

(** The scenario of the specification: one tick at 45000 places three
    BUY orders, one per level below the price, each a maker buffer under
    its level. *)
Example first_tick_places_three_orders :
  exists acts,
    snd (step_book demo_config (fresh demo_config) 45000 44990 45010) = Ok acts
    /\ map (fun o => (id o, level_key o)) (place_orders acts)
       = [("BUY_44820.00_0", Some "44820.00000000");
          ("BUY_44640.00_1", Some "44640.00000000");
          ("BUY_44460.00_2", Some "44460.00000000")]
    /\ messages acts
       = ["Размещен BUY: 0.0837 @ 44797.59";
          "Размещен BUY: 0.0840 @ 44617.68";
          "Размещен BUY: 0.0844 @ 44437.77"]
    /\ cancel_orders acts = [].
Proof.
  eexists. split; [vm_compute; reflexivity|].
  repeat split.
Qed.

(** ** Unknown order ids *)

Lemma on_order_filled_unknown cfg s o p q :
  dict_get o (active_orders s) = None ->
  on_order_filled cfg s o p q = mkFill s ["Неизвестный ордер: " ++ o] (Ok tt).
Proof.
  intro H. unfold on_order_filled. rewrite H. reflexivity.
Qed.

(** C9: a fill reported for an order id that is not a key of
    [active_orders] leaves every attribute of the engine as it was, prints
    one diagnostic line and returns normally. *)
Theorem on_order_filled_unknown_id
    (cfg : Config) (s : State) (order_id : string) (fill_price fill_quantity : Q) :
  dict_get order_id (active_orders s) = None ->
  on_order_filled cfg s order_id fill_price fill_quantity
  = mkFill s ["Неизвестный ордер: " ++ order_id] (Ok tt).
Proof.
  exact (on_order_filled_unknown cfg s order_id fill_price fill_quantity).
Qed.

Lemma on_order_filled_unknown_id_witness :
  dict_get "7731" (active_orders after_first_tick) = None
  /\ on_order_filled demo_config after_first_tick "7731" 44800 (1 # 10)
     = mkFill after_first_tick ["Неизвестный ордер: 7731"] (Ok tt).
Proof.
  split.
  - vm_compute. reflexivity.
  - apply (on_order_filled_unknown_id demo_config after_first_tick "7731").
    vm_compute. reflexivity.
Defined.

(** ** The status report *)

(** C10, as the code has it: [get_status] values the holdings at the
    fixed price 45000. Where [max_equity] is 0 the call raises
    [ZeroDivisionError]; otherwise the equity it reports is
    [cash + base_holdings * 45000] and the drawdown it reports is
    [(max_equity - that equity) / max_equity]. The reported equity is the
    same in two states with the same cash and holdings, and no tick
    changes it, whatever price the tick carries; the reported drawdown is
    the same in two states with the same cash, holdings and [max_equity]
    (the prices of the ticks reach it through [max_equity] only). *)
Theorem get_status_fixed_price (cfg : Config) (s : State) :
  (max_equity s == 0 -> get_status cfg s = Raise ZeroDivisionError)
  /\ (~ max_equity s == 0 ->
      exists st,
        get_status cfg s = Ok st
        /\ st_equity st = cash s + base_holdings s * 45000
        /\ st_drawdown st
           = (max_equity s - (cash s + base_holdings s * 45000))
             / max_equity s)
  /\ (forall s' st st',
        cash s' = cash s -> base_holdings s' = base_holdings s ->
        get_status cfg s = Ok st -> get_status cfg s' = Ok st' ->
        st_equity st' = st_equity st)
  /\ (forall p b a st st',
        get_status cfg s = Ok st ->
        get_status cfg (fst (step_book cfg s p b a)) = Ok st' ->
        st_equity st' = st_equity st)
  /\ (forall s' st st',
        cash s' = cash s -> base_holdings s' = base_holdings s ->
        max_equity s' = max_equity s ->
        get_status cfg s = Ok st -> get_status cfg s' = Ok st' ->
        st_drawdown st' = st_drawdown st).
Proof.
  assert (same_equity : forall s' st st',
            cash s' = cash s -> base_holdings s' = base_holdings s ->
            get_status cfg s = Ok st -> get_status cfg s' = Ok st' ->
            st_equity st' = st_equity st).
  { intros s' st st' Hc Hb H H'. unfold get_status in H, H'.
    unbind H. unbind H'. injection H as <-. injection H' as <-.
    cbn. rewrite Hc, Hb. reflexivity. }
  split; [|split; [|split; [|split]]].
  - intro Z. unfold get_status, pdiv.
    apply Qeq_bool_iff in Z. rewrite Z. reflexivity.
  - intro M. unfold get_status. rewrite (pdiv_ok _ _ M). cbn [bind].
    eexists. split; [reflexivity|]. split; reflexivity.
  - exact same_equity.
  - intros p b a st st'.
    destruct (step_book_frame cfg s p b a) as (Hc & Hb & _).
    apply same_equity; assumption.
  - intros s' st st' Hc Hb Hm H H'. unfold get_status, pdiv in H, H'.
    rewrite Hc, Hb, Hm in H'.
    destruct (Qeq_bool (max_equity s) 0); [discriminate H|].
    cbn [bind] in H, H'. injection H as <-. injection H' as <-.
    reflexivity.
Qed.

Lemma get_status_fixed_price_witness :
  (max_equity (fresh inventory_only_config) == 0
   /\ get_status inventory_only_config (fresh inventory_only_config)
      = Raise ZeroDivisionError)
  /\ ~ max_equity before_crash == 0
  /\ exists st,
       get_status demo_config before_crash = Ok st
       /\ st_equity st
          = cash before_crash + base_holdings before_crash * 45000.
Proof.
  assert (Z : max_equity (fresh inventory_only_config) == 0)
    by (vm_compute; reflexivity).
  assert (M : ~ max_equity before_crash == 0).
  { intro H. vm_compute in H. discriminate H. }
  split.
  { split; [exact Z|].
    exact (proj1 (get_status_fixed_price inventory_only_config
                    (fresh inventory_only_config)) Z). }
  split; [exact M|].
  destruct (proj1 (proj2 (get_status_fixed_price demo_config before_crash)) M)
    as (st & G & E & _).
  exists st. split; [exact G|exact E].
Defined.

(** C10 as stated fails. Not every engine state has a report: an engine
    constructed with [quote_start = 0] (and a starting inventory worth
    4500) has [max_equity = 0], and [get_status] raises. And the reported
    drawdown is not independent of the prices passed to [step_book]: a
    tick at 46000 on [before_crash] leaves cash and holdings, and with
    them the reported equity, as they were, but the reported drawdown
    moves from below 0 to above 0, because the tick raised [max_equity]. *)
Lemma reported_drawdown_follows_ticks :
  get_status inventory_only_config (fresh inventory_only_config)
  = Raise ZeroDivisionError
  /\ exists st st',
       get_status demo_config before_crash = Ok st
       /\ get_status demo_config
            (fst (step_book demo_config before_crash 46000 45990 46010))
          = Ok st'
       /\ cash (fst (step_book demo_config before_crash 46000 45990 46010))
          = cash before_crash
       /\ base_holdings
            (fst (step_book demo_config before_crash 46000 45990 46010))
          = base_holdings before_crash
       /\ st_equity st' = st_equity st
       /\ st_drawdown st < 0
       /\ 0 < st_drawdown st'.
Proof.
  split; [vm_compute; reflexivity|].
  destruct (get_status demo_config before_crash) as [st|e] eqn:G;
    [|vm_compute in G; discriminate G].
  destruct (get_status demo_config
              (fst (step_book demo_config before_crash 46000 45990 46010)))
    as [st'|e] eqn:G'; [|vm_compute in G'; discriminate G'].
  exists st, st'. split; [reflexivity|]. split; [reflexivity|].
  vm_compute in G. injection G as <-.
  vm_compute in G'. injection G' as <-.
  split; [vm_compute; reflexivity|]. split; [vm_compute; reflexivity|].
  split; [vm_compute; reflexivity|]. split; vm_compute; reflexivity.
Qed.

(** ** The risk guard *)

(** C4: when the drawdown of a tick is strictly above the pause
    threshold, [step_book] returns a batch with no order to place, no
    cancellation and one message, the pause message
    "ПАУЗА: просадка <drawdown> превышает лимит <threshold>" with both
    figures as percentages to one decimal, and it leaves the active
    orders, the positions, the cash and the holdings as they were. (The
    pause test comes first in the code, so this holds whether or not the
    drawdown is also above the kill threshold.) *)
Theorem step_book_paused (cfg : Config) (s : State) (p b a : Q) :
  ~ max_equity s == 0 ->
  dd_pause_frac (risk cfg) < drawdown s p ->
  exists s',
    step_book cfg s p b a
    = (s', Ok (mkActions [] []
                 ["ПАУЗА: просадка "
                  ++ (format_fixed 1 (drawdown s p * 100) ++ "%")
                  ++ " превышает лимит "
                  ++ (format_fixed 1 (dd_pause_frac (risk cfg) * 100) ++ "%")]))
    /\ active_orders s' = active_orders s
    /\ positions s' = positions s
    /\ cash s' = cash s
    /\ base_holdings s' = base_holdings s.
Proof.
  intros M D. unfold step_book. cbv zeta.
  cbn [set_price_history cash base_holdings max_equity].
  rewrite (pdiv_ok _ _ M). fold (drawdown s p).
  apply Qlt_bool_iff in D. rewrite D.
  eexists. split; [reflexivity|]. cbn. repeat split.
Qed.

Lemma step_book_paused_witness :
  ~ max_equity before_crash == 0
  /\ dd_pause_frac (risk demo_config) < drawdown before_crash 36000
  /\ drawdown before_crash 36000 <= kill_switch_frac (risk demo_config)
  /\ exists s',
       step_book demo_config before_crash 36000 35990 36010
       = (s', Ok (mkActions [] []
                    ["ПАУЗА: просадка 7.4% превышает лимит 5.0%"]))
       /\ active_orders s' = active_orders before_crash
       /\ positions s' = positions before_crash
       /\ cash s' = cash before_crash
       /\ base_holdings s' = base_holdings before_crash.
Proof.
  assert (M : ~ max_equity before_crash == 0).
  { intro H. vm_compute in H. discriminate H. }
  assert (D : dd_pause_frac (risk demo_config) < drawdown before_crash 36000).
  { vm_compute. reflexivity. }
  split; [exact M|]. split; [exact D|]. split.
  - vm_compute. intro H. discriminate H.
  - destruct (step_book_paused demo_config before_crash 36000 35990 36010 M D)
      as (s' & E & F).
    exists s'. split; [|exact F].
    rewrite E. vm_compute. reflexivity.
Defined.

(** ** The high-water mark *)

Lemma on_order_filled_max_equity cfg s o p q :
  max_equity (fill_state (on_order_filled cfg s o p q)) = max_equity s.
Proof.
  unfold on_order_filled.
  destruct (dict_get o (active_orders s)) as [order|]; [|reflexivity].
  cbv zeta. destruct (side (set_status FILLED order)).
  - unfold _handle_buy_fill. cbv zeta.
    destruct (normalize_price _ _) as [t|e]; reflexivity.
  - unfold _handle_sell_fill.
    destruct (find_position _ _) as [[k pos]|]; [|reflexivity].
    destruct (String.eqb k ""); [reflexivity|].
    cbv zeta. destruct (compound (capital cfg)); reflexivity.
Qed.

Lemma apply_event_max_equity_le cfg s e :
  max_equity s <= max_equity (apply_event cfg s e).
Proof.
  destruct e as [p b a|o p q]; cbn [apply_event].
  - apply step_book_max_equity_le.
  - rewrite on_order_filled_max_equity. apply Qle_refl.
Qed.

Lemma run_max_equity_le cfg tr : forall s,
  max_equity s <= max_equity (run cfg s tr).
Proof.
  unfold run. induction tr as [|e tr IH]; intro s; cbn [fold_left].
  - apply Qle_refl.
  - eapply Qle_trans; [apply apply_event_max_equity_le|apply IH].
Qed.

Lemma drawdown_pos_equity_below (M E d : Q) :
  0 < M -> 0 <= d -> d < (M - E) / M -> E < M.
Proof.
  intros HM Hd H.
  assert (P : 0 < (M - E) / M) by (eapply Qle_lt_trans; eassumption).
  assert (R : M - E == (M - E) / M * M).
  { field. intro Z. rewrite Z in HM. apply (Qlt_irrefl 0). exact HM. }
  assert (T : 0 < (M - E) / M * M) by (apply Qmult_lt_0_compat; assumption).
  rewrite <- R in T. lra.
Qed.

(** C7, as the code has it: [max_equity] never decreases along a run of
    ticks and fills. With non-negative thresholds and a positive
    high-water mark (the starting cash of a funded account), after every
    tick it is the larger of its former value and the equity
    [cash + base_holdings * price] of that tick. *)
Theorem max_equity_watermark (cfg : Config) :
  (forall s tr, max_equity s <= max_equity (run cfg s tr))
  /\ (forall s p b a,
        0 <= dd_pause_frac (risk cfg) ->
        0 <= kill_switch_frac (risk cfg) ->
        0 < max_equity s ->
        max_equity (fst (step_book cfg s p b a))
        == Qmax (max_equity s) (cash s + base_holdings s * p)).
Proof.
  split; [intros s tr; apply run_max_equity_le|].
  intros s p b a HP HK HM.
  assert (M : ~ max_equity s == 0).
  { intro Z. rewrite Z in HM. apply (Qlt_irrefl 0). exact HM. }
  unfold step_book. cbv zeta.
  cbn [set_price_history cash base_holdings max_equity].
  rewrite (pdiv_ok _ _ M).
  destruct (Qlt_bool (dd_pause_frac (risk cfg)) _) eqn:EP.
  { apply Qlt_bool_iff in EP. cbn.
    rewrite Q.max_l; [reflexivity|]. apply Qlt_le_weak.
    exact (drawdown_pos_equity_below _ _ _ HM HP EP). }
  destruct (Qlt_bool (kill_switch_frac (risk cfg)) _) eqn:EK.
  { apply Qlt_bool_iff in EK. cbn.
    rewrite Q.max_l; [reflexivity|]. apply Qlt_le_weak.
    exact (drawdown_pos_equity_below _ _ _ HM HK EK). }
  match goal with
  | |- context [place_loop cfg p ?items ?s1 ?a1] =>
      destruct (place_loop_frame cfg p items s1 a1) as (_ & F & _); rewrite F
  end.
  destruct (Qlt_bool (max_equity s) _) eqn:EU; cbn.
  - apply Qlt_bool_iff in EU. rewrite Q.max_r; [reflexivity|].
    apply Qlt_le_weak. exact EU.
  - apply Qlt_bool_false_iff in EU. rewrite Q.max_l; [reflexivity|exact EU].
Qed.

Lemma max_equity_watermark_witness :
  0 <= dd_pause_frac (risk demo_config)
  /\ 0 <= kill_switch_frac (risk demo_config)
  /\ 0 < max_equity before_crash
  /\ max_equity (fst (step_book demo_config before_crash 46000 45990 46010))
     == Qmax (max_equity before_crash)
             (cash before_crash + base_holdings before_crash * 46000).
Proof.
  assert (HP : 0 <= dd_pause_frac (risk demo_config)).
  { vm_compute. intro H. discriminate H. }
  assert (HK : 0 <= kill_switch_frac (risk demo_config)).
  { vm_compute. intro H. discriminate H. }
  assert (HM : 0 < max_equity before_crash).
  { vm_compute. reflexivity. }
  split; [exact HP|]. split; [exact HK|]. split; [exact HM|].
  exact (proj2 (max_equity_watermark demo_config)
           before_crash 46000 45990 46010 HP HK HM).
Defined.

(** C7 as stated fails: [max_equity] is not brought up to the equity on
    every tick. An engine that starts with inventory only has
    [max_equity = 0]; its tick raises [ZeroDivisionError] at the drawdown
    and the mark stays 0 under an equity of 4500. With a negative pause
    or kill threshold, or a negative mark, a tick whose equity is above
    the mark counts as a drawdown beyond the threshold and returns before
    the update. *)
Lemma watermark_left_below_equity :
  (snd (step_book inventory_only_config (fresh inventory_only_config)
          45000 44990 45010) = Raise ZeroDivisionError
   /\ max_equity
        (fst (step_book inventory_only_config (fresh inventory_only_config)
                45000 44990 45010)) == 0
   /\ cash (fresh inventory_only_config)
      + base_holdings (fresh inventory_only_config) * 45000 == 4500)
  /\ (dd_pause_frac (risk eager_pause_config) < 0
      /\ max_equity
           (fst (step_book eager_pause_config (fresh eager_pause_config)
                   45000 44990 45010)) == 10000
      /\ cash (fresh eager_pause_config)
         + base_holdings (fresh eager_pause_config) * 45000 == 14500)
  /\ (kill_switch_frac (risk eager_kill_config) < 0
      /\ max_equity
           (fst (step_book eager_kill_config (fresh eager_kill_config)
                   45000 44990 45010)) == 10000
      /\ cash (fresh eager_kill_config)
         + base_holdings (fresh eager_kill_config) * 45000 == 14500)
  /\ (max_equity (fresh overdrawn_config) < 0
      /\ max_equity
           (fst (step_book overdrawn_config (fresh overdrawn_config)
                   45000 44990 45010)) == - 1000
      /\ cash (fresh overdrawn_config)
         + base_holdings (fresh overdrawn_config) * 45000 == 3500)
  /\ ~ (forall cfg s p b a,
          max_equity (fst (step_book cfg s p b a))
          == Qmax (max_equity s) (cash s + base_holdings s * p)).
Proof.
  split; [repeat split; vm_compute; reflexivity|].
  split; [repeat split; vm_compute; reflexivity|].
  split; [repeat split; vm_compute; reflexivity|].
  split; [repeat split; vm_compute; reflexivity|].
  intro H.
  specialize (H inventory_only_config (fresh inventory_only_config)
                45000 44990 45010).
  vm_compute in H. discriminate H.
Qed.

(** ** The grid step *)

Lemma zip_diffs_abs_diffs (r : list Q) :
  map (fun p => Qabs (fst p - snd p)) (combine (tl r) (removelast r))
  = abs_diffs r.
Proof.
  induction r as [|x t IH]; [reflexivity|].
  destruct t as [|y t']; [reflexivity|].
  change (removelast (x :: y :: t')) with (x :: removelast (y :: t')).
  cbn [tl combine map fst snd abs_diffs].
  f_equal. exact IH.
Qed.

Lemma slice_last_samples (w : Z) (l : list Q) :
  (0 < w)%Z ->
  py_slice_from (- w) l = last_samples (Z.to_nat w) l.
Proof.
  intro H. unfold py_slice_from, last_samples.
  destruct (- w <? 0)%Z eqn:E; [|apply Z.ltb_ge in E; lia].
  f_equal. lia.
Qed.

Lemma abs_diffs_two (l : list Q) :
  (2 <= List.length l)%nat -> abs_diffs l <> [].
Proof.
  destruct l as [|x [|y t]]; cbn [List.length]; try lia.
  intros _. cbn [abs_diffs]. discriminate.
Qed.

Lemma get_grid_step_atr (cfg : Config) (s : State) (current_price : Q) :
  mode (grid cfg) <> "percent" ->
  (2 <= atr_window (grid cfg))%Z ->
  (atr_window (grid cfg) <= Z.of_nat (List.length (price_history s)))%Z ->
  get_grid_step cfg s current_price
  = mean_abs_diff
      (last_samples (Z.to_nat (atr_window (grid cfg))) (price_history s))
    * atr_k (grid cfg).
Proof.
  intros Hm Hw Hl. unfold get_grid_step.
  apply String.eqb_neq in Hm. rewrite Hm.
  assert (Hl' := Hl). apply Z.ltb_ge in Hl'. rewrite Hl'. cbv zeta.
  rewrite zip_diffs_abs_diffs, slice_last_samples by lia.
  assert (N : abs_diffs
                (last_samples (Z.to_nat (atr_window (grid cfg)))
                              (price_history s)) <> []).
  { apply abs_diffs_two. unfold last_samples. rewrite length_skipn. lia. }
  unfold mean_abs_diff, np_mean.
  destruct (abs_diffs _) as [|d ds]; [contradiction|reflexivity].
Qed.

Lemma get_grid_step_one_sample (cfg : Config) (s : State) (current_price : Q) :
  mode (grid cfg) <> "percent" ->
  atr_window (grid cfg) = 1%Z ->
  (1 <= List.length (price_history s))%nat ->
  get_grid_step cfg s current_price
  = current_price * (4 # 1000) * atr_k (grid cfg).
Proof.
  intros Hm Hw Hl. unfold get_grid_step.
  apply String.eqb_neq in Hm. rewrite Hm, Hw.
  destruct (Z.of_nat (List.length (price_history s)) <? 1)%Z eqn:El;
    [apply Z.ltb_lt in El; lia|].
  cbv zeta. rewrite zip_diffs_abs_diffs, slice_last_samples by lia.
  unfold last_samples. change (Z.to_nat 1) with 1%nat.
  assert (L : List.length
                (skipn (List.length (price_history s) - 1) (price_history s))
              = 1%nat) by (rewrite length_skipn; lia).
  destruct (skipn _ _) as [|x [|y r]]; cbn [List.length] in L; try lia.
  reflexivity.
Qed.

(** C8, as the code has it: in percent mode the grid step is
    [current_price * step_percent]; in ATR mode it is
    [current_price * 0.004] while the history holds fewer than
    [atr_window] samples, and otherwise, for a window of at least two
    samples, the mean absolute difference of consecutive prices over the
    last [atr_window] samples, times [atr_k]. For such a window
    [get_grid_step] is the [computeStep] of the specification. With a
    window of one sample there is no difference to average and the step
    is [current_price * 0.004 * atr_k]. *)
Theorem get_grid_step_cases (cfg : Config) (s : State) (current_price : Q) :
  (mode (grid cfg) = "percent" ->
   get_grid_step cfg s current_price
   = current_price * step_percent (grid cfg))
  /\ (mode (grid cfg) <> "percent" ->
      (Z.of_nat (List.length (price_history s)) < atr_window (grid cfg))%Z ->
      get_grid_step cfg s current_price = current_price * (4 # 1000))
  /\ (mode (grid cfg) <> "percent" ->
      (2 <= atr_window (grid cfg))%Z ->
      (atr_window (grid cfg) <= Z.of_nat (List.length (price_history s)))%Z ->
      get_grid_step cfg s current_price
      = mean_abs_diff
          (last_samples (Z.to_nat (atr_window (grid cfg))) (price_history s))
        * atr_k (grid cfg))
  /\ ((2 <= atr_window (grid cfg))%Z ->
      get_grid_step cfg s current_price = computeStep cfg s current_price)
  /\ (mode (grid cfg) <> "percent" ->
      atr_window (grid cfg) = 1%Z ->
      (1 <= List.length (price_history s))%nat ->
      get_grid_step cfg s current_price
      = current_price * (4 # 1000) * atr_k (grid cfg)).
Proof.
  split; [|split; [|split; [|split]]].
  - intro Hm. unfold get_grid_step. rewrite Hm. reflexivity.
  - intros Hm Hl. unfold get_grid_step.
    apply String.eqb_neq in Hm. rewrite Hm.
    apply Z.ltb_lt in Hl. rewrite Hl. reflexivity.
  - apply get_grid_step_atr.
  - intro Hw. unfold computeStep.
    destruct (String.eqb (mode (grid cfg)) "percent") eqn:Em.
    + unfold get_grid_step. rewrite Em. reflexivity.
    + destruct (Z.of_nat (List.length (price_history s))
                <? atr_window (grid cfg))%Z eqn:El.
      * unfold get_grid_step. rewrite Em, El. reflexivity.
      * apply get_grid_step_atr; [apply String.eqb_neq; exact Em|exact Hw|].
        apply Z.ltb_ge. exact El.
  - apply get_grid_step_one_sample.
Qed.

Lemma get_grid_step_cases_witness :
  (mode (grid demo_config) = "percent"
   /\ get_grid_step demo_config after_first_tick 45000
      = 45000 * step_percent (grid demo_config))
  /\ (mode (grid atr_config) <> "percent"
      /\ (Z.of_nat (List.length (price_history (fresh atr_config)))
          < atr_window (grid atr_config))%Z
      /\ get_grid_step atr_config (fresh atr_config) 105 = 105 * (4 # 1000))
  /\ (2 <= atr_window (grid atr_config))%Z
  /\ (atr_window (grid atr_config)
      <= Z.of_nat (List.length (price_history atr_state)))%Z
  /\ get_grid_step atr_config atr_state 105
     = mean_abs_diff
         (last_samples (Z.to_nat (atr_window (grid atr_config)))
                       (price_history atr_state))
       * atr_k (grid atr_config)
  /\ get_grid_step atr_config atr_state 105
     = computeStep atr_config atr_state 105
  /\ get_grid_step atr_config atr_state 105 == 6
  /\ (atr_window (grid one_sample_config) = 1%Z
      /\ (1 <= List.length (price_history one_sample_state))%nat
      /\ get_grid_step one_sample_config one_sample_state 100
         = 100 * (4 # 1000) * atr_k (grid one_sample_config)).
Proof.
  assert (Hp : mode (grid demo_config) = "percent") by reflexivity.
  assert (Hm : mode (grid atr_config) <> "percent") by discriminate.
  assert (Hs : (Z.of_nat (List.length (price_history (fresh atr_config)))
                < atr_window (grid atr_config))%Z) by (cbn; lia).
  assert (Hw : (2 <= atr_window (grid atr_config))%Z) by (cbn; lia).
  assert (Hl : (atr_window (grid atr_config)
                <= Z.of_nat (List.length (price_history atr_state)))%Z)
    by (cbn; lia).
  split; [split; [exact Hp|]|].
  { exact (proj1 (get_grid_step_cases demo_config after_first_tick 45000) Hp). }
  split; [split; [exact Hm|split; [exact Hs|]]|].
  { exact (proj1 (proj2 (get_grid_step_cases atr_config (fresh atr_config) 105))
             Hm Hs). }
  split; [exact Hw|]. split; [exact Hl|]. split; [|split].
  - exact (proj1 (proj2 (proj2 (get_grid_step_cases atr_config atr_state 105)))
             Hm Hw Hl).
  - exact (proj1 (proj2 (proj2 (proj2
             (get_grid_step_cases atr_config atr_state 105)))) Hw).
  - split; [vm_compute; reflexivity|].
    assert (H1 : mode (grid one_sample_config) <> "percent") by discriminate.
    assert (W1 : atr_window (grid one_sample_config) = 1%Z) by reflexivity.
    assert (L1 : (1 <= List.length (price_history one_sample_state))%nat)
      by (vm_compute; lia).
    split; [exact W1|]. split; [exact L1|].
    exact (proj2 (proj2 (proj2 (proj2
             (get_grid_step_cases one_sample_config one_sample_state 100))))
             H1 W1 L1).
Defined.

(** C8 as stated fails: with a window of one sample and two samples in
    the history, the step at price 100 is [100 * 0.004 * atr_k = 0.8],
    which is neither the mean absolute difference of the last window
    samples times [atr_k] (there is no difference among one sample:
    [computeStep] gives 0) nor the fallback [100 * 0.004 = 0.4]. *)
Lemma get_grid_step_one_sample_window :
  price_history one_sample_state = [100; 103]
  /\ (atr_window (grid one_sample_config)
      <= Z.of_nat (List.length (price_history one_sample_state)))%Z
  /\ get_grid_step one_sample_config one_sample_state 100 == 8 # 10
  /\ computeStep one_sample_config one_sample_state 100 == 0
  /\ ~ get_grid_step one_sample_config one_sample_state 100
       == computeStep one_sample_config one_sample_state 100
  /\ ~ get_grid_step one_sample_config one_sample_state 100
       == 100 * (4 # 1000).
Proof.
  split; [vm_compute; reflexivity|]. split; [vm_compute; discriminate|].
  split; [vm_compute; reflexivity|]. split; [vm_compute; reflexivity|].
  split; intro H; vm_compute in H; discriminate H.
Qed.

(** ** What a fill does to the account *)

Section FillFacts.
Variable cfg : Config.

Lemma normalize_price_ok (x : Q) :
  ~ tick_size (grid cfg) == 0 ->
  normalize_price cfg x
  = Ok (inject_Z (py_round (x / tick_size (grid cfg))) * tick_size (grid cfg)).
Proof.
  intro T. unfold normalize_price. rewrite (pdiv_ok _ _ T). reflexivity.
Qed.

(** A BUY fill debits [fill_price * fill_quantity], also when the call
    raises afterwards; a SELL fill credits that amount or nothing. *)
Lemma on_order_filled_cash s o p q :
  match dict_get o (active_orders s) with
  | None => cash (fill_state (on_order_filled cfg s o p q)) = cash s
  | Some order =>
      match side order with
      | BUY => cash (fill_state (on_order_filled cfg s o p q)) = cash s - p * q
      | SELL =>
          cash (fill_state (on_order_filled cfg s o p q)) = cash s
          \/ cash (fill_state (on_order_filled cfg s o p q)) = cash s + p * q
      end
  end.
Proof.
  unfold on_order_filled.
  destruct (dict_get o (active_orders s)) as [order|]; [|reflexivity].
  cbv zeta. cbn [side set_status]. destruct (side order).
  - unfold _handle_buy_fill. cbv zeta.
    destruct (normalize_price _ _) as [t|e]; reflexivity.
  - unfold _handle_sell_fill.
    destruct (find_position _ _) as [[k pos]|]; [|left; reflexivity].
    destruct (String.eqb k ""); [left; reflexivity|].
    cbv zeta. destruct (compound (capital cfg)); [right|left]; reflexivity.
Qed.

(** A BUY fill that returns: the holdings grow by the filled quantity, a
    position with that quantity and the fill price as buy price is stored
    under the level key of the order, and the order leaves the book. *)
Lemma buy_fill_effect s o order p q :
  ~ tick_size (grid cfg) == 0 ->
  dict_get o (active_orders s) = Some order ->
  side order = BUY ->
  exists tp,
    on_order_filled cfg s o p q
    = mkFill
        (set_active_orders
           (dict_del o (dict_set o (set_status FILLED order) (active_orders s)))
           (set_positions
              (dict_set (fill_level_key order p)
                        (mkPosition p q p (Some tp) None) (positions s))
              (set_base_holdings (base_holdings s + q)
                 (set_cash (cash s - p * q) s))))
        (fill_stdout (on_order_filled cfg s o p q)) (Ok tt).
Proof.
  intros T G B. unfold on_order_filled. rewrite G. cbv zeta.
  cbn [side set_status]. rewrite B.
  unfold _handle_buy_fill. cbv zeta. rewrite (normalize_price_ok _ T).
  eexists. cbn. reflexivity.
Qed.

Lemma on_order_filled_only_buys s o p q :
  only_buys s -> only_buys (fill_state (on_order_filled cfg s o p q)).
Proof.
  unfold only_buys. intro H. unfold on_order_filled.
  destruct (dict_get o (active_orders s)) as [order|] eqn:G; [|exact H].
  assert (B : side order = BUY) by exact (dict_get_values _ _ _ _ H G).
  assert (H1 : Forall (fun x => side x = BUY)
                 (dict_values
                    (dict_set o (set_status FILLED order) (active_orders s)))).
  { apply dict_set_values; [exact B|exact H]. }
  cbv zeta. cbn [side set_status]. rewrite B.
  unfold _handle_buy_fill. cbv zeta.
  destruct (normalize_price _ _) as [t|e]; cbn; [|exact H1].
  apply dict_del_values. exact H1.
Qed.

End FillFacts.

(** ** Cash *)

(** C2, evaluated on one tick and the fills of its orders. From a fresh
    engine with 10000 in cash the first level passes every test of
    [can_place_buy], the cash test among them, and the tick places three
    orders; [step_book] reserves nothing, so the cash is still 10000
    while the orders together cost more than that. Filled each at its
    own price and quantity they leave [cash] at -1250.2256732. *)
Theorem cash_negative_after_admitted_fills :
  can_place_buy demo_config (fresh demo_config) 44820 45000
  = Ok (true, ReasonOK)
  /\ (exists acts,
        snd (step_book demo_config (fresh demo_config) 45000 44990 45010)
        = Ok acts
        /\ map (fun o => Fill (id o) (price o) (quantity o)) (place_orders acts)
           = three_fills
        /\ cash (fresh demo_config)
           < Qsum (map (fun o => price o * quantity o) (place_orders acts)))
  /\ cash (fst (step_book demo_config (fresh demo_config) 45000 44990 45010))
     = cash (fresh demo_config)
  /\ cash (run demo_config (fresh demo_config)
             (Tick 45000 44990 45010 :: three_fills))
     == - (3125564183 # 2500000)
  /\ cash (run demo_config (fresh demo_config)
             (Tick 45000 44990 45010 :: three_fills)) < 0.
Proof.
  split; [vm_compute; reflexivity|]. split.
  - eexists. split; [vm_compute; reflexivity|].
    split; vm_compute; reflexivity.
  - split; [vm_compute; reflexivity|]. split; vm_compute; reflexivity.
Qed.

(** ** Holdings and positions *)

Lemma total_quantity_set_fresh (k : string) (pos : Position) (ps : dict Position) :
  dict_mem k ps = false ->
  total_quantity (dict_set k pos ps) == total_quantity ps + pos_quantity pos.
Proof.
  unfold dict_mem. intro H.
  destruct (dict_get k ps) eqn:G; [discriminate|].
  rewrite (dict_set_fresh _ _ _ G). unfold total_quantity, dict_values.
  rewrite !map_app, Qsum_app. cbn [map snd].
  rewrite Qsum_cons. change (Qsum []) with 0. ring.
Qed.

Lemma conservation_step cfg b0 s e tr :
  ~ tick_size (grid cfg) == 0 ->
  only_buys s ->
  base_holdings s == b0 + total_quantity (positions s) ->
  buy_fills_on_free_levels cfg s (e :: tr) = true ->
  only_buys (apply_event cfg s e)
  /\ base_holdings (apply_event cfg s e)
     == b0 + total_quantity (positions (apply_event cfg s e))
  /\ buy_fills_on_free_levels cfg (apply_event cfg s e) tr = true.
Proof.
  intros T B I F. cbn [buy_fills_on_free_levels] in F.
  apply andb_true_iff in F. destruct F as [F1 F2].
  split; [|split; [|exact F2]].
  - destruct e as [p b a|o p q]; cbn [apply_event].
    + apply step_book_only_buys. exact B.
    + apply on_order_filled_only_buys. exact B.
  - destruct e as [p b a|o p q]; cbn [apply_event].
    + destruct (step_book_frame cfg s p b a) as (_ & Hb & Hp & _).
      rewrite Hb, Hp. exact I.
    + destruct (dict_get o (active_orders s)) as [order|] eqn:G.
      * assert (S : side order = BUY) by exact (dict_get_values _ _ _ _ B G).
        rewrite S in F1. apply negb_true_iff in F1.
        destruct (buy_fill_effect cfg s o order p q T G S) as [tp E].
        rewrite E. cbn [fill_state set_active_orders set_positions
                          set_base_holdings set_cash base_holdings positions].
        rewrite (total_quantity_set_fresh _ _ _ F1). cbn [pos_quantity].
        rewrite I. ring.
      * rewrite (on_order_filled_unknown cfg s o p q G). exact I.
Qed.

Lemma conservation_run cfg b0 tr : forall s,
  ~ tick_size (grid cfg) == 0 ->
  only_buys s ->
  base_holdings s == b0 + total_quantity (positions s) ->
  buy_fills_on_free_levels cfg s tr = true ->
  base_holdings (run cfg s tr) == b0 + total_quantity (positions (run cfg s tr)).
Proof.
  induction tr as [|e tr IH]; intros s T B I F.
  - exact I.
  - unfold run. cbn [fold_left].
    destruct (conservation_step cfg b0 s e tr T B I F) as (B' & I' & F').
    exact (IH _ T B' I' F').
Qed.

(** C3, as the code has it: along a run of ticks and fills from a freshly
    constructed engine, in which every BUY fill arrives on a level key
    that holds no position, [base_holdings] is the starting inventory
    [base_start_quote / 45000] plus the sum of the quantities of the open
    positions. *)
Theorem holdings_conservation (cfg : Config) (tr : list event) :
  ~ tick_size (grid cfg) == 0 ->
  buy_fills_on_free_levels cfg (fresh cfg) tr = true ->
  base_holdings (run cfg (fresh cfg) tr)
  == base_start_quote (capital cfg) / 45000
     + total_quantity (positions (run cfg (fresh cfg) tr)).
Proof.
  intros T F. apply conservation_run; [exact T| | |exact F].
  - unfold only_buys. cbn. constructor.
  - cbn. unfold total_quantity, Qsum. cbn. ring.
Qed.

Lemma holdings_conservation_witness :
  ~ tick_size (grid inventory_config) == 0
  /\ buy_fills_on_free_levels inventory_config (fresh inventory_config)
       inventory_run = true
  /\ base_holdings (run inventory_config (fresh inventory_config) inventory_run)
     == base_start_quote (capital inventory_config) / 45000
        + total_quantity
            (positions
               (run inventory_config (fresh inventory_config) inventory_run)).
Proof.
  assert (T : ~ tick_size (grid inventory_config) == 0).
  { intro H. vm_compute in H. discriminate H. }
  assert (F : buy_fills_on_free_levels inventory_config
                (fresh inventory_config) inventory_run = true).
  { vm_compute. reflexivity. }
  split; [exact T|]. split; [exact F|].
  exact (holdings_conservation inventory_config inventory_run T F).
Defined.

(** C3 as stated fails: with a starting inventory, after one tick and the
    fill of the first order, the holdings exceed the quantity of the one
    open position by the starting inventory (a tenth of a unit, far more
    than the quantity step or the tick size). *)
Lemma holdings_exceed_positions :
  List.length
    (positions (run inventory_config (fresh inventory_config) inventory_run))
  = 1%nat
  /\ base_holdings (run inventory_config (fresh inventory_config) inventory_run)
     - total_quantity
         (positions (run inventory_config (fresh inventory_config) inventory_run))
     == 1 # 10
  /\ tick_size (grid inventory_config) < 1 # 10
  /\ qty_step (grid inventory_config) < 1 # 10
  /\ ~ base_holdings
         (run inventory_config (fresh inventory_config) inventory_run)
       == total_quantity
            (positions
               (run inventory_config (fresh inventory_config) inventory_run)).
Proof.
  split; [vm_compute; reflexivity|].
  split; [vm_compute; reflexivity|].
  split; [vm_compute; reflexivity|].
  split; [vm_compute; reflexivity|].
  intro H. vm_compute in H. discriminate H.
Qed.

(** ** Round trips *)

Lemma append_nonempty_l (a b : string) : a <> "" -> a ++ b <> "".
Proof.
  destruct a; [congruence|discriminate].
Qed.

Lemma append_nonempty_r (a b : string) : b <> "" -> a ++ b <> "".
Proof.
  destruct a; [trivial|discriminate].
Qed.

Lemma Z_digits_nonempty (z : Z) : Z_digits z <> "".
Proof.
  unfold Z_digits. destruct (N.to_uint (Z.to_N z)); discriminate.
Qed.

Lemma format_fixed_nonempty (d : nat) (x : Q) : format_fixed d x <> "".
Proof.
  unfold format_fixed. cbv zeta.
  destruct d.
  - apply append_nonempty_r, Z_digits_nonempty.
  - apply append_nonempty_r, append_nonempty_l, Z_digits_nonempty.
Qed.

Lemma fill_level_key_nonempty (order : Order) (p : Q) :
  fill_level_key order p <> "".
Proof.
  unfold fill_level_key. destruct (level_key order) as [k|].
  - destruct (String.eqb k "") eqn:E.
    + apply format_fixed_nonempty.
    + apply String.eqb_neq. exact E.
  - apply format_fixed_nonempty.
Qed.

(** A SELL fill matched to a position under a non-empty key. *)
Lemma sell_fill_effect cfg s o order k pos fp fq :
  dict_get o (active_orders s) = Some order ->
  side order = SELL ->
  find_position (id order) (positions s) = Some (k, pos) ->
  k <> "" ->
  fill_result (on_order_filled cfg s o fp fq) = Ok tt
  /\ realized_pnl (fill_state (on_order_filled cfg s o fp fq))
     = realized_pnl s + (fp - buy_price pos) * fq
  /\ total_pnl (fill_state (on_order_filled cfg s o fp fq))
     = total_pnl s + (fp - buy_price pos) * fq.
Proof.
  intros G S F K. unfold on_order_filled. rewrite G. cbv zeta.
  cbn [side set_status]. rewrite S.
  unfold _handle_sell_fill. cbn [id set_status positions set_active_orders].
  rewrite F. apply String.eqb_neq in K. rewrite K. cbv zeta.
  destruct (compound (capital cfg)); cbn; repeat split.
Qed.

(** ** The kill switch *)

(** Above the kill threshold [step_book] returns one message and nothing
    else, on either branch of the risk guard: no order to place, none to
    cancel, and the book untouched. *)
Lemma step_book_above_kill (cfg : Config) (s : State) (p b a : Q) :
  ~ max_equity s == 0 ->
  kill_switch_frac (risk cfg) < drawdown s p ->
  exists s' msg,
    step_book cfg s p b a = (s', Ok (mkActions [] [] [msg]))
    /\ (msg = pause_message cfg (drawdown s p)
        \/ msg = stop_message (drawdown s p))
    /\ active_orders s' = active_orders s
    /\ positions s' = positions s.
Proof.
  intros M K. unfold step_book. cbv zeta.
  cbn [set_price_history cash base_holdings max_equity].
  rewrite (pdiv_ok _ _ M). fold (drawdown s p).
  destruct (Qlt_bool (dd_pause_frac (risk cfg)) (drawdown s p)).
  - eexists. eexists. split; [reflexivity|]. split; [left; reflexivity|].
    split; reflexivity.
  - apply Qlt_bool_iff in K. rewrite K.
    eexists. eexists. split; [reflexivity|]. split; [right; reflexivity|].
    split; reflexivity.
Qed.

(** C1, evaluated where the drawdown is above the kill threshold: after
    one tick at 45000 and the fill of the first order, a tick at 30000
    finds a drawdown of 12.4% against a kill threshold of 10%. With one
    position open and two orders active, [step_book] returns the pause
    message alone: nothing to place, nothing to cancel, no liquidation,
    and the book is left as it was. *)
Theorem kill_switch_without_liquidation :
  kill_switch_frac (risk demo_config) < drawdown before_crash 30000
  /\ List.length (positions before_crash) = 1%nat
  /\ List.length (active_orders before_crash) = 2%nat
  /\ step_book demo_config before_crash 30000 29990 30010
     = (set_price_history [45000; 30000] before_crash,
        Ok (mkActions [] []
              ["ПАУЗА: просадка 12.4% превышает лимит 5.0%"])).
Proof.
  split; [vm_compute; reflexivity|].
  split; [vm_compute; reflexivity|].
  split; [vm_compute; reflexivity|].
  vm_compute. reflexivity.
Qed.

(** ** One order per level *)

(** C6, evaluated on two ticks one cent apart (45099.37, then 45099.38):
    the second level of both ticks (44738.57504 and 44738.58496)
    normalizes to 44738.58, the buffered order prices 44716.21 and
    44716.22 are exactly one tick apart, which the test [< tick_size]
    lets through, so the second order is admitted and two active BUY
    orders carry the level key of 44738.58. *)
Theorem two_buy_orders_on_one_level :
  unique_buy_levels after_close_ticks = false
  /\ exists o1 o2,
       dict_get "BUY_44738.58_1" (active_orders after_close_ticks) = Some o1
       /\ dict_get "BUY_44738.58_4" (active_orders after_close_ticks) = Some o2
       /\ side o1 = BUY /\ side o2 = BUY
       /\ level_key o1 = Some "44738.58000000"
       /\ level_key o2 = Some "44738.58000000"
       /\ price o1 == 4471621 # 100
       /\ price o2 == 4471622 # 100.
Proof.
  split; [vm_compute; reflexivity|].
  eexists. eexists.
  split; [vm_compute; reflexivity|].
  split; [vm_compute; reflexivity|].
  repeat split; vm_compute; reflexivity.
Qed.

(** * Further properties of the strategy and of its drivers *)

(** ** Rounding to the grid *)

Lemma py_round_comp (x y : Q) : x == y -> py_round x = py_round y.
Proof.
  intro E. unfold py_round.
  assert (F : Qfloor x = Qfloor y) by (rewrite E; reflexivity).
  rewrite F.
  assert (R : x - inject_Z (Qfloor y) == y - inject_Z (Qfloor y))
    by (rewrite E; reflexivity).
  assert (L1 : Qlt_bool (x - inject_Z (Qfloor y)) (1 # 2)
               = Qlt_bool (y - inject_Z (Qfloor y)) (1 # 2)).
  { unfold Qlt_bool. rewrite R. reflexivity. }
  assert (L2 : Qlt_bool (1 # 2) (x - inject_Z (Qfloor y))
               = Qlt_bool (1 # 2) (y - inject_Z (Qfloor y))).
  { unfold Qlt_bool. rewrite R. reflexivity. }
  rewrite L1, L2. reflexivity.
Qed.

Lemma py_round_inject_Z (z : Z) : py_round (inject_Z z) = z.
Proof.
  unfold py_round. rewrite Qfloor_Z.
  assert (L : Qlt_bool (inject_Z z - inject_Z z) (1 # 2) = true).
  { apply Qlt_bool_iff. lra. }
  rewrite L. reflexivity.
Qed.

Lemma py_round_near (x : Q) : Qabs (inject_Z (py_round x) - x) <= 1 # 2.
Proof.
  pose proof (Qfloor_le x) as Lo.
  pose proof (Qlt_floor x) as Hi.
  rewrite inject_Z_plus in Hi.
  apply Qabs_Qle_condition. unfold py_round.
  change (inject_Z 1) with 1 in Hi.
  destruct (Qlt_bool (x - inject_Z (Qfloor x)) (1 # 2)) eqn:A.
  - apply Qlt_bool_iff in A.
    generalize dependent (inject_Z (Qfloor x)). intros f Lo Hi A. split; lra.
  - apply Qlt_bool_false_iff in A.
    destruct (Qlt_bool (1 # 2) (x - inject_Z (Qfloor x))) eqn:B.
    + rewrite inject_Z_plus. change (inject_Z 1) with 1.
      generalize dependent (inject_Z (Qfloor x)). intros f Lo Hi A B.
      split; lra.
    + apply Qlt_bool_false_iff in B.
      destruct (Z.even (Qfloor x));
        [|rewrite inject_Z_plus; change (inject_Z 1) with 1];
        generalize dependent (inject_Z (Qfloor x)); intros f Lo Hi A B;
        split; lra.
Qed.

(** [round(x / t) * t] stays within half a step of [x]. *)
Lemma snap_near (x t : Q) :
  ~ t == 0 ->
  Qabs (inject_Z (py_round (x / t)) * t - x) <= Qabs t * (1 # 2).
Proof.
  intro T.
  assert (E : inject_Z (py_round (x / t)) * t - x
              == (inject_Z (py_round (x / t)) - x / t) * t) by (field; exact T).
  rewrite E, Qabs_Qmult, (Qmult_comm (Qabs t)).
  apply Qmult_le_compat_r; [apply py_round_near|apply Qabs_nonneg].
Qed.

(** Snapping a multiple of the step gives it back. *)
Lemma snap_multiple (k : Z) (t : Q) :
  ~ t == 0 -> py_round (inject_Z k * t / t) = k.
Proof.
  intro T. rewrite <- (py_round_inject_Z k) at 2.
  apply py_round_comp. field. exact T.
Qed.

(** X1: with a tick size other than 0, [normalize_price] returns a whole
    number of ticks that lies within half a tick of the price, and
    [normalize_quantity] a whole number of quantity steps within half a
    step of the quantity; with a tick size (quantity step) of 0 the call
    raises [ZeroDivisionError]. *)
Theorem normalize_within_half_step (cfg : Config) (x : Q) :
  (tick_size (grid cfg) == 0 -> normalize_price cfg x = Raise ZeroDivisionError)
  /\ (qty_step (grid cfg) == 0 ->
      normalize_quantity cfg x = Raise ZeroDivisionError)
  /\ (~ tick_size (grid cfg) == 0 ->
      exists k,
        normalize_price cfg x = Ok (inject_Z k * tick_size (grid cfg))
        /\ Qabs (inject_Z k * tick_size (grid cfg) - x)
           <= Qabs (tick_size (grid cfg)) * (1 # 2))
  /\ (~ qty_step (grid cfg) == 0 ->
      exists k,
        normalize_quantity cfg x = Ok (inject_Z k * qty_step (grid cfg))
        /\ Qabs (inject_Z k * qty_step (grid cfg) - x)
           <= Qabs (qty_step (grid cfg)) * (1 # 2)).
Proof.
  split; [|split; [|split]].
  - intro Z. unfold normalize_price, pdiv.
    apply Qeq_bool_iff in Z. rewrite Z. reflexivity.
  - intro Z. unfold normalize_quantity, pdiv.
    apply Qeq_bool_iff in Z. rewrite Z. reflexivity.
  - intro T. exists (py_round (x / tick_size (grid cfg))). split.
    + unfold normalize_price. rewrite (pdiv_ok _ _ T). reflexivity.
    + apply snap_near. exact T.
  - intro T. exists (py_round (x / qty_step (grid cfg))). split.
    + unfold normalize_quantity. rewrite (pdiv_ok _ _ T). reflexivity.
    + apply snap_near. exact T.
Qed.

Lemma normalize_within_half_step_witness :
  ~ tick_size (grid demo_config) == 0
  /\ exists k,
       normalize_price demo_config (4482123504 # 100000)
       = Ok (inject_Z k * tick_size (grid demo_config))
       /\ Qabs (inject_Z k * tick_size (grid demo_config)
                - (4482123504 # 100000))
          <= Qabs (tick_size (grid demo_config)) * (1 # 2).
Proof.
  assert (T : ~ tick_size (grid demo_config) == 0).
  { intro H. vm_compute in H. discriminate H. }
  split; [exact T|].
  exact (proj1 (proj2 (proj2
           (normalize_within_half_step demo_config (4482123504 # 100000)))) T).
Defined.

(** X2: normalizing is idempotent: a price that [normalize_price]
    returned is returned unchanged when normalized again, and likewise a
    quantity and [normalize_quantity]. *)
Theorem normalize_idempotent (cfg : Config) (x r : Q) :
  (normalize_price cfg x = Ok r -> normalize_price cfg r = Ok r)
  /\ (normalize_quantity cfg x = Ok r -> normalize_quantity cfg r = Ok r).
Proof.
  split; intro H.
  - unfold normalize_price in *. unfold pdiv in *.
    destruct (Qeq_bool (tick_size (grid cfg)) 0) eqn:E; [discriminate H|].
    cbn [bind] in *. injection H as <-. f_equal. f_equal. f_equal.
    apply snap_multiple. intro Z. apply Qeq_bool_iff in Z. congruence.
  - unfold normalize_quantity in *. unfold pdiv in *.
    destruct (Qeq_bool (qty_step (grid cfg)) 0) eqn:E; [discriminate H|].
    cbn [bind] in *. injection H as <-. f_equal. f_equal. f_equal.
    apply snap_multiple. intro Z. apply Qeq_bool_iff in Z. congruence.
Qed.

Lemma normalize_idempotent_witness :
  normalize_price demo_config (4482123504 # 100000) = Ok (4482124 # 100)
  /\ normalize_price demo_config (4482124 # 100) = Ok (4482124 # 100).
Proof.
  assert (H : normalize_price demo_config (4482123504 # 100000)
              = Ok (4482124 # 100)) by (vm_compute; reflexivity).
  split; [exact H|].
  exact (proj1 (normalize_idempotent demo_config (4482123504 # 100000)
                  (4482124 # 100)) H).
Defined.

(** ** Position sizes *)

Lemma Qsum_map_const (c : Q) (l : list nat) :
  Qsum (map (fun _ => c) l) == inject_Z (Z.of_nat (List.length l)) * c.
Proof.
  induction l as [|x l IH].
  - cbn [map List.length]. change (Qsum []) with 0. cbn. ring.
  - cbn [map List.length]. rewrite Qsum_cons, IH, Nat2Z.inj_succ.
    unfold Z.succ. rewrite inject_Z_plus. ring.
Qed.

Lemma Qsum_map_factor {A : Type} (c : Q) (f h : A -> Q) (l : list A) :
  (forall x, h x == c * f x) -> Qsum (map h l) == c * Qsum (map f l).
Proof.
  intro H. induction l as [|x l IH].
  - cbn [map]. change (Qsum []) with 0. ring.
  - cbn [map]. rewrite !Qsum_cons, IH, H. ring.
Qed.

Lemma Qsum_pos (l : list Q) :
  l <> [] -> Forall (fun x => 0 < x) l -> 0 < Qsum l.
Proof.
  induction l as [|x l IH]; [congruence|].
  intros _ F. inversion F as [|? ? Hx Hl]; subst. rewrite Qsum_cons.
  destruct l as [|y l'].
  - change (Qsum []) with 0. lra.
  - assert (0 < Qsum (y :: l')) by (apply IH; [discriminate|exact Hl]). lra.
Qed.

(** The weights [1.2**i] of the geometric mode. *)
Lemma weights_pos (n : Z) :
  Forall (fun w => 0 < w) (map (fun i => Qpower (12 # 10) i) (py_range 0 n)).
Proof.
  apply Forall_forall. intros w Hw. apply in_map_iff in Hw.
  destruct Hw as (i & <- & _). apply Qpower_0_lt. reflexivity.
Qed.

Lemma weights_length (n : Z) :
  List.length (map (fun i => Qpower (12 # 10) i) (py_range 0 n)) = Z.to_nat n.
Proof.
  unfold py_range. rewrite !length_map, length_seq. f_equal. lia.
Qed.

Lemma weights_total_nonzero (n : Z) :
  (0 < n)%Z ->
  ~ Qsum (map (fun i => Qpower (12 # 10) i) (py_range 0 n)) == 0.
Proof.
  intros Hn Z.
  assert (P : 0 < Qsum (map (fun i => Qpower (12 # 10) i) (py_range 0 n))).
  { apply Qsum_pos; [|apply weights_pos].
    intro E. apply (f_equal (@List.length Q)) in E.
    rewrite weights_length in E. cbn in E. lia. }
  rewrite Z in P. apply (Qlt_irrefl 0). exact P.
Qed.

(** The size of level [i]: its share of 90% of the cash, times the skew
    factor. *)
Lemma size_per_level cfg s i p :
  (0 < levels_below (grid cfg))%Z ->
  (i < Z.to_nat (levels_below (grid cfg)))%nat ->
  ~ cash s + base_holdings s * p == 0 ->
  exists size,
    calculate_position_size cfg s i p = Ok size
    /\ size
       == (if String.eqb (sizing_mode (grid cfg)) "linear"
           then cash s * (9 # 10) / inject_Z (levels_below (grid cfg))
           else cash s * (9 # 10)
                / Qsum (map (fun k => Qpower (12 # 10) k)
                            (py_range 0 (levels_below (grid cfg))))
                * nth i (map (fun k => Qpower (12 # 10) k)
                             (py_range 0 (levels_below (grid cfg)))) 0)
          * skew_factor cfg
              (base_holdings s * p / (cash s + base_holdings s * p)).
Proof.
  intros Hn Hi He. unfold calculate_position_size. cbv zeta.
  destruct (String.eqb (sizing_mode (grid cfg)) "linear") eqn:Em.
  - rewrite pdiv_ok.
    2:{ intro Z. unfold Qeq in Z. cbn in Z. lia. }
    cbn [bind]. rewrite (pdiv_ok _ _ He). cbn [bind]. unfold skew_factor.
    destruct (Qlt_bool _ _); eexists; (split; [reflexivity|ring]).
  - rewrite (pdiv_ok _ _ (weights_total_nonzero _ Hn)). cbn [bind].
    destruct (nth_error _ i) as [w|] eqn:N.
    2:{ apply nth_error_None in N. rewrite weights_length in N. lia. }
    cbn [bind]. rewrite (pdiv_ok _ _ He). cbn [bind]. unfold skew_factor.
    rewrite (nth_error_nth _ _ 0 N).
    destruct (Qlt_bool _ _); eexists; (split; [reflexivity|ring]).
Qed.

Lemma Qsum_Forall2 (l1 l2 : list Q) :
  Forall2 Qeq l1 l2 -> Qsum l1 == Qsum l2.
Proof.
  induction 1 as [|x y l1 l2 E F IH]; [reflexivity|].
  rewrite !Qsum_cons, E, IH. reflexivity.
Qed.

Lemma collect_outcomes (f : nat -> outcome Q) (g : nat -> Q) (l : list nat) :
  (forall i, In i l -> exists x, f i = Ok x /\ x == g i) ->
  exists xs, map f l = map Ok xs /\ Forall2 Qeq xs (map g l).
Proof.
  induction l as [|i l IH]; intro H.
  - exists []. split; [reflexivity|constructor].
  - destruct (H i (or_introl eq_refl)) as (x & Fx & Ex).
    destruct IH as (xs & Fxs & Exs); [intros j Hj; apply H; right; exact Hj|].
    exists (x :: xs). split.
    + cbn [map]. rewrite Fx, Fxs. reflexivity.
    + cbn [map]. constructor; assumption.
Qed.

Lemma map_nth_seq_all (l : list Q) :
  map (fun i => nth i l 0) (seq 0 (List.length l)) = l.
Proof.
  apply (nth_ext _ _ 0 0).
  - rewrite length_map, length_seq. reflexivity.
  - intros n Hn. rewrite length_map, length_seq in Hn.
    rewrite (nth_indep _ _ (nth 0 l 0)) by (rewrite length_map, length_seq; exact Hn).
    rewrite (map_nth (fun i => nth i l 0)), seq_nth by exact Hn. reflexivity.
Qed.

(** X3: the sizes [calculate_position_size] gives to the level indices
    [0 .. levels_below - 1] add up to 90% of the cash times the skew
    factor, in linear and in geometric mode alike (the equity of the tick
    must not be 0, or the inventory ratio cannot be computed). When the
    inventory is not below target the factor is 1 and the levels share
    exactly 90% of the cash. *)
Theorem sizes_add_up (cfg : Config) (s : State) (p : Q) :
  (0 < levels_below (grid cfg))%Z ->
  ~ cash s + base_holdings s * p == 0 ->
  exists sizes,
    map (fun i => calculate_position_size cfg s i p)
        (seq 0 (Z.to_nat (levels_below (grid cfg))))
    = map Ok sizes
    /\ Qsum sizes
       == cash s * (9 # 10)
          * skew_factor cfg
              (base_holdings s * p / (cash s + base_holdings s * p)).
Proof.
  intros Hn He.
  set (sk := skew_factor cfg
               (base_holdings s * p / (cash s + base_holdings s * p))).
  set (ws := map (fun k => Qpower (12 # 10) k)
                 (py_range 0 (levels_below (grid cfg)))).
  set (g := fun i : nat =>
              (if String.eqb (sizing_mode (grid cfg)) "linear"
               then cash s * (9 # 10) / inject_Z (levels_below (grid cfg))
               else cash s * (9 # 10) / Qsum ws * nth i ws 0) * sk).
  destruct (collect_outcomes
              (fun i => calculate_position_size cfg s i p) g
              (seq 0 (Z.to_nat (levels_below (grid cfg)))))
    as (sizes & M & E).
  { intros i Hi. apply in_seq in Hi.
    apply size_per_level; [exact Hn|lia|exact He]. }
  exists sizes. split; [exact M|].
  rewrite (Qsum_Forall2 _ _ E). unfold g.
  destruct (String.eqb (sizing_mode (grid cfg)) "linear").
  - rewrite Qsum_map_const, length_seq, Z2Nat.id by lia.
    field. intro Z. unfold Qeq in Z. cbn in Z. lia.
  - assert (W : Qsum (map (fun i => nth i ws 0)
                          (seq 0 (Z.to_nat (levels_below (grid cfg)))))
                == Qsum ws).
    { rewrite <- (weights_length (levels_below (grid cfg))).
      fold ws. rewrite map_nth_seq_all. reflexivity. }
    assert (R : Qsum (map (fun i => cash s * (9 # 10) / Qsum ws * nth i ws 0 * sk)
                          (seq 0 (Z.to_nat (levels_below (grid cfg)))))
                == cash s * (9 # 10) / Qsum ws * sk
                   * Qsum (map (fun i => nth i ws 0)
                               (seq 0 (Z.to_nat (levels_below (grid cfg)))))).
    { apply Qsum_map_factor. intro i. ring. }
    rewrite R, W. field. apply weights_total_nonzero. exact Hn.
Qed.

Lemma sizes_add_up_witness :
  (0 < levels_below (grid geometric_config))%Z
  /\ ~ cash before_crash + base_holdings before_crash * 45000 == 0
  /\ exists sizes,
       map (fun i => calculate_position_size geometric_config before_crash i 45000)
           (seq 0 (Z.to_nat (levels_below (grid geometric_config))))
       = map Ok sizes
       /\ Qsum sizes
          == cash before_crash * (9 # 10)
             * skew_factor geometric_config
                 (base_holdings before_crash * 45000
                  / (cash before_crash + base_holdings before_crash * 45000)).
Proof.
  assert (Hn : (0 < levels_below (grid geometric_config))%Z) by (cbn; lia).
  assert (He : ~ cash before_crash + base_holdings before_crash * 45000 == 0).
  { intro H. vm_compute in H. discriminate H. }
  split; [exact Hn|]. split; [exact He|].
  exact (sizes_add_up geometric_config before_crash 45000 Hn He).
Defined.

(** X4: where [calculate_position_size] raises. In linear mode with
    [levels_below = 0], and in geometric mode with [levels_below <= 0]
    (no weight to divide by), it raises [ZeroDivisionError]; in geometric
    mode a level index at or beyond [levels_below] raises [IndexError];
    and with a size in hand, an equity of 0 at the tick raises
    [ZeroDivisionError] when the inventory ratio is computed. *)
Theorem calculate_position_size_raises
    (cfg : Config) (s : State) (i : nat) (p : Q) :
  (sizing_mode (grid cfg) = "linear" -> levels_below (grid cfg) = 0%Z ->
   calculate_position_size cfg s i p = Raise ZeroDivisionError)
  /\ (sizing_mode (grid cfg) <> "linear" -> (levels_below (grid cfg) <= 0)%Z ->
      calculate_position_size cfg s i p = Raise ZeroDivisionError)
  /\ (sizing_mode (grid cfg) <> "linear" -> (0 < levels_below (grid cfg))%Z ->
      (Z.to_nat (levels_below (grid cfg)) <= i)%nat ->
      calculate_position_size cfg s i p = Raise IndexError)
  /\ ((0 < levels_below (grid cfg))%Z ->
      (i < Z.to_nat (levels_below (grid cfg)))%nat ->
      cash s + base_holdings s * p == 0 ->
      calculate_position_size cfg s i p = Raise ZeroDivisionError).
Proof.
  split; [|split; [|split]].
  - intros Hm Hn. unfold calculate_position_size. cbv zeta.
    rewrite Hm, Hn. reflexivity.
  - intros Hm Hn. unfold calculate_position_size. cbv zeta.
    apply String.eqb_neq in Hm. rewrite Hm.
    unfold py_range. replace (Z.to_nat (levels_below (grid cfg) - 0)) with 0%nat
      by lia.
    reflexivity.
  - intros Hm Hn Hi. unfold calculate_position_size. cbv zeta.
    apply String.eqb_neq in Hm. rewrite Hm.
    rewrite (pdiv_ok _ _ (weights_total_nonzero _ Hn)). cbn [bind].
    destruct (nth_error _ i) as [w|] eqn:N; [|reflexivity].
    assert (L : (i < Z.to_nat (levels_below (grid cfg)))%nat).
    { rewrite <- (weights_length (levels_below (grid cfg))).
      apply nth_error_Some. rewrite N. discriminate. }
    lia.
  - intros Hn Hi He. unfold calculate_position_size. cbv zeta.
    assert (D : pdiv (base_holdings s * p) (cash s + base_holdings s * p)
                = Raise ZeroDivisionError).
    { unfold pdiv. apply Qeq_bool_iff in He. rewrite He. reflexivity. }
    destruct (String.eqb (sizing_mode (grid cfg)) "linear").
    + rewrite pdiv_ok by (intro Z; unfold Qeq in Z; cbn in Z; lia).
      cbn [bind]. rewrite D. reflexivity.
    + rewrite (pdiv_ok _ _ (weights_total_nonzero _ Hn)). cbn [bind].
      destruct (nth_error _ i) as [w|] eqn:N.
      * cbn [bind]. rewrite D. reflexivity.
      * apply nth_error_None in N. rewrite weights_length in N. lia.
Qed.

Lemma calculate_position_size_raises_witness :
  sizing_mode (grid geometric_config) <> "linear"
  /\ (0 < levels_below (grid geometric_config))%Z
  /\ (Z.to_nat (levels_below (grid geometric_config)) <= 3)%nat
  /\ calculate_position_size geometric_config before_crash 3 45000
     = Raise IndexError.
Proof.
  assert (Hm : sizing_mode (grid geometric_config) <> "linear") by discriminate.
  assert (Hn : (0 < levels_below (grid geometric_config))%Z) by (cbn; lia).
  assert (Hi : (Z.to_nat (levels_below (grid geometric_config)) <= 3)%nat)
    by (cbn; lia).
  split; [exact Hm|]. split; [exact Hn|]. split; [exact Hi|].
  exact (proj1 (proj2 (proj2
           (calculate_position_size_raises geometric_config before_crash 3 45000)))
           Hm Hn Hi).
Defined.

(** ** Levels and the orders of one tick *)

Lemma Qsum_nonneg (l : list Q) : Forall (fun x => 0 <= x) l -> 0 <= Qsum l.
Proof.
  induction 1 as [|x l Hx Hl IH].
  - change (Qsum []) with 0. lra.
  - rewrite Qsum_cons. lra.
Qed.

Lemma np_mean_nonneg (l : list Q) :
  Forall (fun x => 0 <= x) l -> 0 <= np_mean l.
Proof.
  intro H. unfold np_mean, Qdiv. apply Qmult_le_0_compat.
  - apply Qsum_nonneg. exact H.
  - apply Qinv_le_0_compat. unfold Qle. cbn. lia.
Qed.

Lemma get_grid_step_nonneg cfg s p :
  0 <= p -> 0 <= step_percent (grid cfg) -> 0 <= atr_k (grid cfg) ->
  0 <= get_grid_step cfg s p.
Proof.
  intros Hp Hs Hk. unfold get_grid_step.
  destruct (String.eqb (mode (grid cfg)) "percent").
  - apply Qmult_le_0_compat; assumption.
  - destruct (_ <? _)%Z.
    + apply Qmult_le_0_compat; [exact Hp|]. unfold Qle. cbn. lia.
    + cbv zeta. apply Qmult_le_0_compat; [|exact Hk].
      match goal with |- 0 <= match ?hl with _ => _ end => remember hl as hl' eqn:E end.
      destruct hl' as [|d ds].
      * apply Qmult_le_0_compat; [exact Hp|]. unfold Qle. cbn. lia.
      * apply np_mean_nonneg. rewrite E.
        apply Forall_forall. intros x Hx. apply in_map_iff in Hx.
        destruct Hx as (pr & <- & _). apply Qabs_nonneg.
Qed.

(** The levels of a tick: [levels_below] prices under the current price,
    then [levels_above] prices over it. *)
Lemma get_target_levels_split cfg s p :
  exists below above,
    get_target_levels cfg s p = (below ++ above)%list
    /\ List.length below = Z.to_nat (levels_below (grid cfg))
    /\ List.length above = Z.to_nat (levels_above (grid cfg))
    /\ (forall i, (i < List.length below)%nat ->
          nth i below 0
          = p - inject_Z (1 + Z.of_nat i) * get_grid_step cfg s p)
    /\ (forall i, (i < List.length above)%nat ->
          nth i above 0
          = p + inject_Z (1 + Z.of_nat i) * get_grid_step cfg s p).
Proof.
  unfold get_target_levels. cbv zeta. eexists. eexists.
  split; [reflexivity|].
  unfold py_range. rewrite !length_map, !length_seq.
  split; [f_equal; lia|]. split; [f_equal; lia|]. split.
  - intros i Hi.
    rewrite (nth_indep _ _ ((fun z => p - inject_Z z * get_grid_step cfg s p) 0%Z))
      by (rewrite !length_map, length_seq; exact Hi).
    rewrite (map_nth (fun z => p - inject_Z z * get_grid_step cfg s p)).
    rewrite (nth_indep _ _ ((fun k => (1 + Z.of_nat k)%Z) 0%nat))
      by (rewrite length_map, length_seq; exact Hi).
    rewrite (map_nth (fun k => (1 + Z.of_nat k)%Z)), seq_nth by exact Hi.
    reflexivity.
  - intros i Hi.
    rewrite (nth_indep _ _ ((fun z => p + inject_Z z * get_grid_step cfg s p) 0%Z))
      by (rewrite !length_map, length_seq; exact Hi).
    rewrite (map_nth (fun z => p + inject_Z z * get_grid_step cfg s p)).
    rewrite (nth_indep _ _ ((fun k => (1 + Z.of_nat k)%Z) 0%nat))
      by (rewrite length_map, length_seq; exact Hi).
    rewrite (map_nth (fun k => (1 + Z.of_nat k)%Z)), seq_nth by exact Hi.
    reflexivity.
Qed.

Lemma inject_Z_succ_pos (i : nat) : 0 < inject_Z (1 + Z.of_nat i).
Proof.
  change 0 with (inject_Z 0). rewrite <- Zlt_Qlt. lia.
Qed.

(** X5: with a positive grid step, [get_target_levels] returns
    [levels_below] prices strictly under the current price, each farther
    level lower than the one before, followed by [levels_above] prices
    strictly over it. *)
Theorem target_levels_around_price (cfg : Config) (s : State) (p : Q) :
  0 < get_grid_step cfg s p ->
  exists below above,
    get_target_levels cfg s p = (below ++ above)%list
    /\ List.length below = Z.to_nat (levels_below (grid cfg))
    /\ List.length above = Z.to_nat (levels_above (grid cfg))
    /\ Forall (fun l => l < p) below
    /\ Forall (fun l => p < l) above
    /\ (forall i j, (i < j)%nat -> (j < List.length below)%nat ->
          nth j below 0 < nth i below 0).
Proof.
  intro Hs.
  destruct (get_target_levels_split cfg s p)
    as (below & above & E & Lb & La & Nb & Na).
  exists below, above.
  split; [exact E|]. split; [exact Lb|]. split; [exact La|].
  split; [|split].
  - apply Forall_forall. intros l Hl.
    destruct (In_nth _ _ 0 Hl) as (i & Hi & <-). rewrite (Nb i Hi).
    pose proof (Qmult_lt_0_compat _ _ (inject_Z_succ_pos i) Hs) as M.
    revert M. generalize (inject_Z (1 + Z.of_nat i) * get_grid_step cfg s p).
    intros m M. lra.
  - apply Forall_forall. intros l Hl.
    destruct (In_nth _ _ 0 Hl) as (i & Hi & <-). rewrite (Na i Hi).
    pose proof (Qmult_lt_0_compat _ _ (inject_Z_succ_pos i) Hs) as M.
    revert M. generalize (inject_Z (1 + Z.of_nat i) * get_grid_step cfg s p).
    intros m M. lra.
  - intros i j Hij Hj. rewrite (Nb i), (Nb j) by lia.
    assert (D : inject_Z (1 + Z.of_nat i) < inject_Z (1 + Z.of_nat j)).
    { rewrite <- Zlt_Qlt. lia. }
    assert (M : inject_Z (1 + Z.of_nat i) * get_grid_step cfg s p
                < inject_Z (1 + Z.of_nat j) * get_grid_step cfg s p).
    { apply Qmult_lt_compat_r; assumption. }
    revert M.
    generalize (inject_Z (1 + Z.of_nat i) * get_grid_step cfg s p).
    generalize (inject_Z (1 + Z.of_nat j) * get_grid_step cfg s p).
    intros mj mi M. lra.
Qed.

Lemma target_levels_around_price_witness :
  0 < get_grid_step demo_config (fresh demo_config) 45000
  /\ exists below above,
       get_target_levels demo_config (fresh demo_config) 45000
       = (below ++ above)%list
       /\ List.length below = 3%nat
       /\ Forall (fun l => l < 45000) below
       /\ Forall (fun l => 45000 < l) above.
Proof.
  assert (Hs : 0 < get_grid_step demo_config (fresh demo_config) 45000).
  { vm_compute. reflexivity. }
  split; [exact Hs|].
  destruct (target_levels_around_price demo_config (fresh demo_config) 45000 Hs)
    as (below & above & E & Lb & _ & Fb & Fa & _).
  exists below, above. repeat split; assumption.
Defined.

Lemma filter_none {A : Type} (f : A -> bool) (l : list A) :
  (forall x, In x l -> f x = false) -> filter f l = [].
Proof.
  induction l as [|x l IH]; intro H; [reflexivity|].
  cbn [filter]. rewrite (H x (or_introl eq_refl)).
  apply IH. intros y Hy. apply H. right. exact Hy.
Qed.

Lemma build_buy_order_shape cfg s i level p o :
  build_buy_order cfg s i level p = Ok o -> placed_shape cfg o.
Proof.
  unfold build_buy_order. intro H. unbind H.
  injection H as <-. repeat split.
Qed.

Lemma place_loop_count cfg p items : forall s acts acts',
  snd (place_loop cfg p items s acts) = Ok acts' ->
  (List.length (place_orders acts')
   <= List.length (place_orders acts)
      + List.length (filter (fun it => negb (Qle_bool p (snd it))) items))%nat.
Proof.
  induction items as [|[i level] rest IH]; intros s acts acts';
    cbn [place_loop filter snd].
  - intro H. injection H as <-. lia.
  - destruct (Qle_bool p level); cbn [negb]; [apply IH|].
    cbn [List.length].
    destruct (can_place_buy cfg s level p) as [[[|] r]|e]; [| |discriminate].
    + destruct (build_buy_order cfg s i level p) as [order|e]; [|discriminate].
      intro H. apply IH in H. cbn [place_orders] in H.
      rewrite length_app in H. cbn [List.length] in H. lia.
    + intro H. apply IH in H. lia.
Qed.

Lemma place_loop_shape cfg p items : forall s acts acts',
  snd (place_loop cfg p items s acts) = Ok acts' ->
  Forall (placed_shape cfg) (place_orders acts) ->
  Forall (placed_shape cfg) (place_orders acts').
Proof.
  induction items as [|[i level] rest IH]; intros s acts acts';
    cbn [place_loop].
  - intro H. injection H as <-. trivial.
  - destruct (Qle_bool p level); [apply IH|].
    destruct (can_place_buy cfg s level p) as [[[|] r]|e];
      [|apply IH|discriminate].
    destruct (build_buy_order cfg s i level p) as [order|e] eqn:B;
      [|discriminate].
    intros H F. apply IH in H; [exact H|]. cbn [place_orders].
    apply Forall_app. split; [exact F|].
    constructor; [exact (build_buy_order_shape _ _ _ _ _ _ B)|constructor].
Qed.

Lemma filter_enumerate_length {A : Type} (f : A -> bool) (l : list A) :
  forall a,
    List.length (filter (fun it => f (snd it)) (combine (seq a (List.length l)) l))
    = List.length (filter f l).
Proof.
  induction l as [|x l IH]; intro a; [reflexivity|].
  cbn [List.length seq combine filter snd].
  destruct (f x); cbn [List.length]; rewrite IH; reflexivity.
Qed.

Lemma place_levels_count cfg s p acts :
  0 <= get_grid_step cfg s p ->
  snd (place_loop cfg p (enumerate (get_target_levels cfg s p)) s
         (mkActions [] [] []))
  = Ok acts ->
  (List.length (place_orders acts) <= Z.to_nat (levels_below (grid cfg)))%nat.
Proof.
  intros G H.
  destruct (get_target_levels_split cfg s p)
    as (below & above & E & Lb & La & Nb & Na).
  rewrite E in H. apply place_loop_count in H.
  cbn [place_orders List.length] in H. unfold enumerate in H.
  rewrite (filter_enumerate_length (fun l => negb (Qle_bool p l))) in H.
  rewrite filter_app, length_app in H.
  assert (Z : filter (fun l => negb (Qle_bool p l)) above = []).
  { apply filter_none.
    intros l Hl. destruct (In_nth _ _ 0 Hl) as (i & Hi & <-).
    rewrite (Na i Hi). apply negb_false_iff. apply Qle_bool_iff.
    pose proof (Qmult_le_0_compat _ _
                  (Qlt_le_weak _ _ (inject_Z_succ_pos i)) G) as M.
    revert M. generalize (inject_Z (1 + Z.of_nat i) * get_grid_step cfg s p).
    intros m M. lra. }
  rewrite Z in H. cbn [List.length] in H.
  pose proof (filter_length_le (fun l => negb (Qle_bool p l)) below) as F.
  lia.
Qed.

(** X6: for a non-negative price and non-negative step parameters, a tick
    that returns places at most [levels_below] orders; each of them is a
    BUY order with status NEW for the configured symbol, and nothing is
    cancelled. *)
Theorem step_book_orders_per_tick
    (cfg : Config) (s : State) (p b a : Q) (acts : Actions) :
  0 <= p -> 0 <= step_percent (grid cfg) -> 0 <= atr_k (grid cfg) ->
  snd (step_book cfg s p b a) = Ok acts ->
  (List.length (place_orders acts) <= Z.to_nat (levels_below (grid cfg)))%nat
  /\ Forall (fun o => side o = BUY /\ status o = NEW
                      /\ symbol o = runtime_symbol cfg)
            (place_orders acts)
  /\ cancel_orders acts = [].
Proof.
  intros Hp Hs Hk H.
  split; [|split; [|exact (step_book_cancels_nothing cfg s p b a acts H)]];
    revert H; unfold step_book; cbv zeta.
  - destruct (pdiv _ _) as [dd|e]; [|discriminate].
    destruct (Qlt_bool (dd_pause_frac (risk cfg)) dd);
      [intro H; injection H as <-; cbn; lia|].
    destruct (Qlt_bool (kill_switch_frac (risk cfg)) dd);
      [intro H; injection H as <-; cbn; lia|].
    apply place_levels_count. apply get_grid_step_nonneg; assumption.
  - destruct (pdiv _ _) as [dd|e]; [|discriminate].
    destruct (Qlt_bool (dd_pause_frac (risk cfg)) dd);
      [intro H; injection H as <-; constructor|].
    destruct (Qlt_bool (kill_switch_frac (risk cfg)) dd);
      [intro H; injection H as <-; constructor|].
    intro H. apply place_loop_shape in H; [exact H|constructor].
Qed.

Lemma step_book_orders_per_tick_witness :
  exists acts,
    snd (step_book demo_config (fresh demo_config) 45000 44990 45010) = Ok acts
    /\ (List.length (place_orders acts)
        <= Z.to_nat (levels_below (grid demo_config)))%nat
    /\ List.length (place_orders acts) = 3%nat.
Proof.
  assert (Hp : 0 <= 45000) by (vm_compute; discriminate).
  assert (Hs : 0 <= step_percent (grid demo_config)) by (vm_compute; discriminate).
  assert (Hk : 0 <= atr_k (grid demo_config)) by (vm_compute; discriminate).
  destruct (snd (step_book demo_config (fresh demo_config) 45000 44990 45010))
    as [acts|e] eqn:E; [|vm_compute in E; discriminate E].
  exists acts. split; [reflexivity|]. split.
  - exact (proj1 (step_book_orders_per_tick demo_config (fresh demo_config)
                    45000 44990 45010 acts Hp Hs Hk E)).
  - vm_compute in E. injection E as <-. reflexivity.
Defined.

(** ** What admission guarantees *)

Lemma can_place_buy_admitted cfg s level p r :
  can_place_buy cfg s level p = Ok (true, r) ->
  exists nl opn ps q qty,
    normalize_price cfg level = Ok nl
    /\ dict_mem (format_fixed 8 nl) (positions s) = false
    /\ normalize_price cfg (level * (1 - maker_buffer_frac (grid cfg))) = Ok opn
    /\ existsb
         (fun order =>
            OrderType_eqb (side order) BUY
            && Qlt_bool (Qabs (price order - opn)) (tick_size (grid cfg)))
         (dict_values (active_orders s)) = false
    /\ calculate_position_size cfg s 0 p = Ok ps
    /\ pdiv ps opn = Ok q
    /\ normalize_quantity cfg q = Ok qty
    /\ Qlt_bool (qty * opn) (min_notional (grid cfg)) = false
    /\ Qlt_bool (cash s) ps = false.
Proof.
  unfold can_place_buy. intro H.
  destruct (normalize_price cfg level) as [nl|] eqn:E1; [|discriminate H].
  cbn [bind] in H. cbv zeta in H.
  destruct (dict_mem (format_fixed 8 nl) (positions s)) eqn:E2;
    [discriminate H|].
  destruct (normalize_price cfg (level * (1 - maker_buffer_frac (grid cfg))))
    as [opn|] eqn:E3; [|discriminate H].
  cbn [bind] in H.
  destruct (existsb _ (dict_values (active_orders s))) eqn:E4;
    [discriminate H|].
  destruct (calculate_position_size cfg s 0 p) as [ps|] eqn:E5;
    [|discriminate H].
  cbn [bind] in H.
  destruct (pdiv ps opn) as [q|] eqn:E6; [|discriminate H].
  cbn [bind] in H.
  destruct (normalize_quantity cfg q) as [qty|] eqn:E7; [|discriminate H].
  cbn [bind] in H. cbv zeta in H.
  destruct (Qlt_bool (qty * opn) (min_notional (grid cfg))) eqn:E8;
    [discriminate H|].
  destruct (Qlt_bool (cash s) ps) eqn:E9; [discriminate H|].
  exists nl, opn, ps, q, qty. repeat split; assumption.
Qed.

Lemma build_buy_order_fields cfg s i level p o :
  build_buy_order cfg s i level p = Ok o ->
  exists ps q,
    normalize_price cfg (level * (1 - maker_buffer_frac (grid cfg)))
    = Ok (price o)
    /\ calculate_position_size cfg s i p = Ok ps
    /\ pdiv ps (price o) = Ok q
    /\ normalize_quantity cfg q = Ok (quantity o)
    /\ id o = "BUY_" ++ format_fixed 2 level ++ "_"
              ++ nat_str (List.length (active_orders s)).
Proof.
  unfold build_buy_order. cbv zeta. intro H.
  destruct (normalize_price cfg (level * (1 - maker_buffer_frac (grid cfg))))
    as [op|] eqn:E1; [|discriminate H].
  cbn [bind] in H.
  destruct (calculate_position_size cfg s i p) as [ps|] eqn:E2;
    [|discriminate H].
  cbn [bind] in H.
  destruct (pdiv ps op) as [q|] eqn:E3; [|discriminate H].
  cbn [bind] in H.
  destruct (normalize_quantity cfg q) as [qty|] eqn:E4; [|discriminate H].
  cbn [bind] in H.
  destruct (normalize_price cfg level) as [nl|] eqn:E5; [|discriminate H].
  cbn [bind] in H. injection H as <-. cbn [price quantity id].
  exists ps, q. repeat split; assumption.
Qed.

(** ** Spacing of the active BUY orders *)

Lemma apart_sym cfg a b : apart cfg a b -> apart cfg b a.
Proof.
  unfold apart. intros H Hb Ha.
  rewrite <- Qabs_opp.
  assert (E : - (price b - price a) == price a - price b) by ring.
  rewrite E. apply H; assumption.
Qed.

Lemma FOP_dict_set cfg k v (m : dict Order) :
  ForallOrdPairs (apart cfg) (dict_values m) ->
  Forall (fun x => apart cfg x v) (dict_values m) ->
  ForallOrdPairs (apart cfg) (dict_values (dict_set k v m)).
Proof.
  induction m as [|[k' v'] m IH]; cbn [dict_set dict_values map snd];
    intros P F.
  - constructor; constructor.
  - inversion P as [|? ? Pv Pm]; subst.
    inversion F as [|? ? Fv Fm]; subst.
    destruct (String.eqb k k'); cbn [map snd].
    + constructor; [|exact Pm].
      eapply Forall_impl; [|exact Fm]. intros x Hx. apply apart_sym. exact Hx.
    + constructor; [|apply IH; assumption].
      apply (dict_set_values (apart cfg v')); assumption.
Qed.

Lemma FOP_dict_del cfg k (m : dict Order) :
  ForallOrdPairs (apart cfg) (dict_values m) ->
  ForallOrdPairs (apart cfg) (dict_values (dict_del k m)).
Proof.
  induction m as [|[k' v'] m IH]; cbn [dict_del dict_values map snd];
    intro P; [constructor|].
  inversion P as [|? ? Pv Pm]; subst.
  destruct (String.eqb k k'); cbn [map snd]; [exact Pm|].
  constructor; [|apply IH; exact Pm].
  apply (dict_del_values (apart cfg v')). exact Pv.
Qed.

(** Replacing an order by one with the same side and price. *)
Lemma FOP_dict_replace cfg k v v' (m : dict Order) :
  dict_get k m = Some v ->
  side v' = side v -> price v' = price v ->
  ForallOrdPairs (apart cfg) (dict_values m) ->
  ForallOrdPairs (apart cfg) (dict_values (dict_set k v' m)).
Proof.
  intros G Sd Pr.
  assert (T : forall x, apart cfg v x -> apart cfg v' x).
  { unfold apart. intros x H. rewrite Sd, Pr. exact H. }
  assert (T' : forall x, apart cfg x v -> apart cfg x v').
  { unfold apart. intros x H. rewrite Sd, Pr. exact H. }
  revert G. induction m as [|[k0 v0] m IH];
    cbn [dict_get dict_set dict_values map snd]; intros G P; [discriminate|].
  inversion P as [|? ? Pv Pm]; subst.
  destruct (String.eqb k k0); cbn [map snd].
  - injection G as ->. constructor; [|exact Pm].
    eapply Forall_impl; [|exact Pv]. exact T.
  - constructor; [|apply IH; assumption].
    clear IH P Pm. revert G Pv.
    induction m as [|[k1 v1] m IHm];
      cbn [dict_get dict_set dict_values map snd]; intros G Pv; [discriminate|].
    inversion Pv as [|? ? Q1 Qm]; subst.
    destruct (String.eqb k k1); cbn [map snd].
    + injection G as ->. constructor; [apply T'; exact Q1|exact Qm].
    + constructor; [exact Q1|apply IHm; assumption].
Qed.

Lemma not_within_tick_apart cfg opn (l : list Order) (o : Order) :
  price o = opn ->
  existsb
    (fun order =>
       OrderType_eqb (side order) BUY
       && Qlt_bool (Qabs (price order - opn)) (tick_size (grid cfg)))
    l = false ->
  Forall (fun x => apart cfg x o) l.
Proof.
  intros Po E. apply Forall_forall. intros x Hx Sx _.
  destruct (Qlt_bool (Qabs (price x - opn)) (tick_size (grid cfg))) eqn:L.
  - exfalso.
    assert (T : existsb
                  (fun order =>
                     OrderType_eqb (side order) BUY
                     && Qlt_bool (Qabs (price order - opn))
                                 (tick_size (grid cfg))) l = true).
    { apply existsb_exists. exists x. split; [exact Hx|].
      rewrite Sx, L. reflexivity. }
    congruence.
  - apply Qlt_bool_false_iff in L. rewrite Po. exact L.
Qed.

Lemma place_loop_apart cfg p items : forall s acts,
  buy_prices_apart cfg s ->
  buy_prices_apart cfg (fst (place_loop cfg p items s acts)).
Proof.
  unfold buy_prices_apart.
  induction items as [|[i level] rest IH]; intros s acts Hs; cbn [place_loop].
  - exact Hs.
  - destruct (Qle_bool p level); [apply IH; exact Hs|].
    destruct (can_place_buy cfg s level p) as [[[|] r]|e] eqn:C;
      [| apply IH; exact Hs | exact Hs].
    destruct (build_buy_order cfg s i level p) as [order|e] eqn:B;
      [| exact Hs].
    apply IH. cbn [active_orders set_active_orders].
    apply FOP_dict_set; [exact Hs|].
    destruct (can_place_buy_admitted _ _ _ _ _ C)
      as (nl & opn & ps & q & qty & _ & _ & N & E & _).
    destruct (build_buy_order_fields _ _ _ _ _ _ B) as (ps' & q' & N' & _).
    rewrite N in N'. injection N' as N'.
    apply (not_within_tick_apart cfg opn); [symmetry; exact N'|exact E].
Qed.

Lemma step_book_apart cfg s p b a :
  buy_prices_apart cfg s -> buy_prices_apart cfg (fst (step_book cfg s p b a)).
Proof.
  intro Hs. unfold step_book. cbv zeta.
  destruct (pdiv _ _) as [dd|e]; [|exact Hs].
  destruct (Qlt_bool (dd_pause_frac (risk cfg)) dd); [exact Hs|].
  destruct (Qlt_bool (kill_switch_frac (risk cfg)) dd); [exact Hs|].
  apply place_loop_apart.
  destruct (Qlt_bool _ _); exact Hs.
Qed.

(** The book of active orders after a fill: the order is marked FILLED
    and, unless the call raised, removed. *)
Lemma on_order_filled_orders cfg s o p q :
  match dict_get o (active_orders s) with
  | None => active_orders (fill_state (on_order_filled cfg s o p q))
            = active_orders s
  | Some order =>
      active_orders (fill_state (on_order_filled cfg s o p q))
      = dict_set o (set_status FILLED order) (active_orders s)
      \/ active_orders (fill_state (on_order_filled cfg s o p q))
         = dict_del o (dict_set o (set_status FILLED order) (active_orders s))
  end.
Proof.
  unfold on_order_filled.
  destruct (dict_get o (active_orders s)) as [order|]; [|reflexivity].
  cbv zeta. cbn [side set_status]. destruct (side order).
  - unfold _handle_buy_fill. cbv zeta.
    destruct (normalize_price _ _) as [t|e]; [right|left]; reflexivity.
  - unfold _handle_sell_fill.
    destruct (find_position _ _) as [[k pos]|]; [|right; reflexivity].
    destruct (String.eqb k ""); [right; reflexivity|].
    cbv zeta. destruct (compound (capital cfg)); right; reflexivity.
Qed.

Lemma on_order_filled_apart cfg s o p q :
  buy_prices_apart cfg s ->
  buy_prices_apart cfg (fill_state (on_order_filled cfg s o p q)).
Proof.
  unfold buy_prices_apart. intro Hs.
  pose proof (on_order_filled_orders cfg s o p q) as K.
  destruct (dict_get o (active_orders s)) as [order|] eqn:G.
  - assert (R : ForallOrdPairs (apart cfg)
                  (dict_values
                     (dict_set o (set_status FILLED order) (active_orders s)))).
    { apply (FOP_dict_replace cfg o order); [exact G|reflexivity|reflexivity|].
      exact Hs. }
    destruct K as [K|K]; rewrite K; [exact R|].
    apply FOP_dict_del. exact R.
  - rewrite K. exact Hs.
Qed.

(** X7: along every run of ticks and fills from a freshly constructed
    engine, any two active BUY orders are at least one tick apart in
    price: this, not one order per level key, is what the duplicate test
    of [can_place_buy] maintains. *)
Theorem active_buy_prices_one_tick_apart (cfg : Config) (tr : list event) :
  ForallOrdPairs
    (fun a b =>
       side a = BUY -> side b = BUY ->
       tick_size (grid cfg) <= Qabs (price a - price b))
    (dict_values (active_orders (run cfg (fresh cfg) tr))).
Proof.
  change (buy_prices_apart cfg (run cfg (fresh cfg) tr)).
  assert (G : forall s, buy_prices_apart cfg s ->
                        buy_prices_apart cfg (run cfg s tr)).
  { induction tr as [|e tr IH]; intros s Hs; [exact Hs|].
    unfold run. cbn [fold_left]. apply IH.
    destruct e as [p b a|o p q]; cbn [apply_event].
    - apply step_book_apart. exact Hs.
    - apply on_order_filled_apart. exact Hs. }
  apply G. unfold buy_prices_apart. cbn. constructor.
Qed.

(** ** The price history *)

Lemma step_book_history cfg s p b a :
  price_history (fst (step_book cfg s p b a))
  = next_history cfg (price_history s) p.
Proof.
  unfold step_book, next_history. cbv zeta.
  destruct (pdiv _ _) as [dd|e]; [|reflexivity].
  destruct (Qlt_bool (dd_pause_frac (risk cfg)) dd); [reflexivity|].
  destruct (Qlt_bool (kill_switch_frac (risk cfg)) dd); [reflexivity|].
  match goal with
  | |- context [place_loop cfg p ?items ?s1 ?a1] =>
      destruct (place_loop_frame cfg p items s1 a1) as (_ & _ & F); rewrite F
  end.
  destruct (Qlt_bool _ _); reflexivity.
Qed.

Lemma on_order_filled_history cfg s o p q :
  price_history (fill_state (on_order_filled cfg s o p q)) = price_history s.
Proof.
  unfold on_order_filled.
  destruct (dict_get o (active_orders s)) as [order|]; [|reflexivity].
  cbv zeta. destruct (side (set_status FILLED order)).
  - unfold _handle_buy_fill. cbv zeta.
    destruct (normalize_price _ _) as [t|e]; reflexivity.
  - unfold _handle_sell_fill.
    destruct (find_position _ _) as [[k pos]|]; [|reflexivity].
    destruct (String.eqb k ""); [reflexivity|].
    cbv zeta. destruct (compound (capital cfg)); reflexivity.
Qed.

Lemma next_history_bounded cfg h p :
  (1 <= atr_window (grid cfg))%Z ->
  (Z.of_nat (List.length h) <= 2 * atr_window (grid cfg))%Z ->
  (Z.of_nat (List.length (next_history cfg h p)) <= 2 * atr_window (grid cfg))%Z.
Proof.
  intros W H. unfold next_history.
  destruct (_ <? _)%Z eqn:E.
  - unfold py_slice_from.
    destruct (- atr_window (grid cfg) <? 0)%Z eqn:N;
      [|apply Z.ltb_ge in N; lia].
    rewrite length_skipn. lia.
  - apply Z.ltb_ge in E. lia.
Qed.

Lemma next_history_no_window cfg h p :
  atr_window (grid cfg) = 0%Z ->
  next_history cfg h p = (h ++ [p])%list.
Proof.
  intro W. unfold next_history. rewrite W.
  destruct (_ <? _)%Z; [|reflexivity].
  unfold py_slice_from. cbn [Z.opp Z.ltb Z.compare].
  replace (Z.to_nat (Z.min 0 (Z.of_nat (List.length (h ++ [p]))))) with 0%nat
    by lia.
  reflexivity.
Qed.

(** X8: with [atr_window >= 1] the price history never holds more than
    [2 * atr_window] samples, whatever the run from a fresh engine; with
    [atr_window = 0] the pruning slice [history[-0:]] is the whole list,
    so nothing is ever dropped and the history has one sample per tick. *)
Theorem price_history_bound (cfg : Config) (tr : list event) :
  ((1 <= atr_window (grid cfg))%Z ->
   (Z.of_nat (List.length (price_history (run cfg (fresh cfg) tr)))
    <= 2 * atr_window (grid cfg))%Z)
  /\ (atr_window (grid cfg) = 0%Z ->
      List.length (price_history (run cfg (fresh cfg) tr)) = ticks tr).
Proof.
  split.
  - intro W.
    assert (G : forall s,
              (Z.of_nat (List.length (price_history s))
               <= 2 * atr_window (grid cfg))%Z ->
              (Z.of_nat (List.length (price_history (run cfg s tr)))
               <= 2 * atr_window (grid cfg))%Z).
    { induction tr as [|e tr IH]; intros s Hs; [exact Hs|].
      unfold run. cbn [fold_left]. apply IH.
      destruct e as [p b a|o p q]; cbn [apply_event].
      - rewrite step_book_history. apply next_history_bounded; assumption.
      - rewrite on_order_filled_history. exact Hs. }
    apply G. change (price_history (fresh cfg)) with (@nil Q).
    cbn [List.length]. lia.
  - intro W.
    assert (G : forall s,
              List.length (price_history (run cfg s tr))
              = (List.length (price_history s) + ticks tr)%nat).
    { induction tr as [|e tr IH]; intro s.
      - cbn. lia.
      - unfold run. cbn [fold_left]. fold (run cfg (apply_event cfg s e) tr).
        rewrite IH. destruct e as [p b a|o p q]; cbn [apply_event].
        + rewrite step_book_history, (next_history_no_window _ _ _ W).
          rewrite length_app. unfold ticks. cbn [filter List.length]. lia.
        + rewrite on_order_filled_history. unfold ticks. cbn [filter]. lia. }
    rewrite G. change (price_history (fresh cfg)) with (@nil Q).
    cbn [List.length]. lia.
Qed.

Lemma price_history_bound_witness :
  (1 <= atr_window (grid atr_config))%Z
  /\ (Z.of_nat (List.length (price_history (run atr_config (fresh atr_config)
                                               (five_ticks ++ five_ticks))))
      <= 2 * atr_window (grid atr_config))%Z
  /\ atr_window (grid no_window_config) = 0%Z
  /\ List.length (price_history (run no_window_config (fresh no_window_config)
                                     (five_ticks ++ five_ticks)))
     = 10%nat.
Proof.
  assert (W : (1 <= atr_window (grid atr_config))%Z) by (cbn; lia).
  assert (Z0 : atr_window (grid no_window_config) = 0%Z) by reflexivity.
  split; [exact W|]. split.
  - exact (proj1 (price_history_bound atr_config (five_ticks ++ five_ticks)) W).
  - split; [exact Z0|].
    exact (proj2 (price_history_bound no_window_config
                    (five_ticks ++ five_ticks)) Z0).
Defined.

(** ** Keys of the book *)

Section DictKeys.
Context {V : Type}.

Lemma dict_get_None_keys (k : string) (m : dict V) :
  dict_get k m = None <-> ~ In k (map fst m).
Proof.
  induction m as [|[k' v'] m IH]; cbn [dict_get map fst].
  - split; [intros _ []|reflexivity].
  - destruct (String.eqb k k') eqn:E.
    + apply String.eqb_eq in E. subst k'. split; [discriminate|].
      intro H. exfalso. apply H. left. reflexivity.
    + apply String.eqb_neq in E. rewrite IH. split.
      * intros H [F|F]; [congruence|exact (H F)].
      * intros H F. apply H. right. exact F.
Qed.

Lemma dict_set_keys (k : string) (v : V) (m : dict V) :
  map fst (dict_set k v m)
  = if dict_mem k m then map fst m else (map fst m ++ [k])%list.
Proof.
  unfold dict_mem.
  induction m as [|[k' v'] m IH]; cbn [dict_get dict_set map fst];
    [reflexivity|].
  destruct (String.eqb k k') eqn:E; cbn [map fst]; [reflexivity|].
  rewrite IH. destruct (dict_get k m); reflexivity.
Qed.

Lemma dict_set_keys_unique (k : string) (v : V) (m : dict V) :
  NoDup (map fst m) -> NoDup (map fst (dict_set k v m)).
Proof.
  intro N. rewrite dict_set_keys. unfold dict_mem.
  destruct (dict_get k m) eqn:G; [exact N|].
  apply dict_get_None_keys in G.
  apply NoDup_app; [exact N|constructor; [intros []|constructor]|].
  intros x Hx [<-|[]]. exact (G Hx).
Qed.

Lemma dict_del_keys_incl (k : string) (m : dict V) :
  incl (map fst (dict_del k m)) (map fst m).
Proof.
  induction m as [|[k' v'] m IH]; cbn [dict_del map fst]; [apply incl_refl|].
  destruct (String.eqb k k'); cbn [map fst].
  - apply incl_tl, incl_refl.
  - intros x [<-|Hx]; [left; reflexivity|right; exact (IH x Hx)].
Qed.

Lemma dict_del_keys_unique (k : string) (m : dict V) :
  NoDup (map fst m) -> NoDup (map fst (dict_del k m)).
Proof.
  induction m as [|[k' v'] m IH]; cbn [dict_del map fst]; intro N;
    [constructor|].
  inversion N as [|? ? Hk Hm]; subst.
  destruct (String.eqb k k'); cbn [map fst]; [exact Hm|].
  constructor; [|apply IH; exact Hm].
  intro F. apply Hk. exact (dict_del_keys_incl k m _ F).
Qed.

Lemma dict_get_del_same (k : string) (m : dict V) :
  NoDup (map fst m) -> dict_get k (dict_del k m) = None.
Proof.
  induction m as [|[k' v'] m IH]; cbn [dict_del map fst]; intro N;
    [reflexivity|].
  inversion N as [|? ? Hk Hm]; subst.
  destruct (String.eqb k k') eqn:E.
  - apply String.eqb_eq in E. subst k'. apply dict_get_None_keys. exact Hk.
  - cbn [dict_get]. rewrite E. apply IH. exact Hm.
Qed.

End DictKeys.

Lemma place_loop_keys_unique cfg p items : forall s acts,
  keys_unique s -> keys_unique (fst (place_loop cfg p items s acts)).
Proof.
  unfold keys_unique.
  induction items as [|[i level] rest IH]; intros s acts Hs; cbn [place_loop].
  - exact Hs.
  - destruct (Qle_bool p level); [apply IH; exact Hs|].
    destruct (can_place_buy cfg s level p) as [[[|] r]|e];
      [| apply IH; exact Hs | exact Hs].
    destruct (build_buy_order cfg s i level p) as [order|e]; [|exact Hs].
    apply IH. cbn [active_orders set_active_orders].
    apply dict_set_keys_unique. exact Hs.
Qed.

Lemma step_book_keys_unique cfg s p b a :
  keys_unique s -> keys_unique (fst (step_book cfg s p b a)).
Proof.
  intro Hs. unfold step_book. cbv zeta.
  destruct (pdiv _ _) as [dd|e]; [|exact Hs].
  destruct (Qlt_bool (dd_pause_frac (risk cfg)) dd); [exact Hs|].
  destruct (Qlt_bool (kill_switch_frac (risk cfg)) dd); [exact Hs|].
  apply place_loop_keys_unique.
  destruct (Qlt_bool _ _); exact Hs.
Qed.

Lemma on_order_filled_keys_unique cfg s o p q :
  keys_unique s -> keys_unique (fill_state (on_order_filled cfg s o p q)).
Proof.
  unfold keys_unique. intro Hs.
  pose proof (on_order_filled_orders cfg s o p q) as K.
  destruct (dict_get o (active_orders s)) as [order|].
  - destruct K as [K|K]; rewrite K.
    + apply dict_set_keys_unique. exact Hs.
    + apply dict_del_keys_unique, dict_set_keys_unique. exact Hs.
  - rewrite K. exact Hs.
Qed.

Lemma run_keys_unique cfg tr : forall s,
  keys_unique s -> keys_unique (run cfg s tr).
Proof.
  induction tr as [|e tr IH]; intros s Hs; [exact Hs|].
  unfold run. cbn [fold_left]. apply IH.
  destruct e as [p b a|o p q]; cbn [apply_event].
  - apply step_book_keys_unique. exact Hs.
  - apply on_order_filled_keys_unique. exact Hs.
Qed.

Lemma fresh_keys_unique cfg : keys_unique (fresh cfg).
Proof.
  unfold keys_unique. cbn. constructor.
Qed.

(** With a tick size other than 0 a fill of a known order returns, and
    the order leaves the book. *)
Lemma on_order_filled_removes cfg s o order p q :
  ~ tick_size (grid cfg) == 0 ->
  dict_get o (active_orders s) = Some order ->
  fill_result (on_order_filled cfg s o p q) = Ok tt
  /\ active_orders (fill_state (on_order_filled cfg s o p q))
     = dict_del o (dict_set o (set_status FILLED order) (active_orders s)).
Proof.
  intros T G. unfold on_order_filled. rewrite G.
  cbv zeta. cbn [side set_status]. destruct (side order).
  - unfold _handle_buy_fill. cbv zeta. rewrite (normalize_price_ok _ _ T).
    split; reflexivity.
  - unfold _handle_sell_fill.
    destruct (find_position _ _) as [[k pos]|]; [|split; reflexivity].
    destruct (String.eqb k ""); [split; reflexivity|].
    cbv zeta. destruct (compound (capital cfg)); split; reflexivity.
Qed.

(** X9: a fill is applied once. In a book without duplicate keys (as
    every book reached from a fresh engine is) and with a tick size other
    than 0, once [on_order_filled] has handled an order id, a second
    report of the same id, at any price and quantity, is an unknown order:
    it changes nothing and prints the diagnostic. *)
Theorem repeated_fill_ignored
    (cfg : Config) (s : State) (o : string) (p q p' q' : Q) :
  ~ tick_size (grid cfg) == 0 ->
  NoDup (map fst (active_orders s)) ->
  on_order_filled cfg (fill_state (on_order_filled cfg s o p q)) o p' q'
  = mkFill (fill_state (on_order_filled cfg s o p q))
           ["Неизвестный ордер: " ++ o] (Ok tt).
Proof.
  intros T N. apply on_order_filled_unknown.
  destruct (dict_get o (active_orders s)) as [order|] eqn:G.
  - destruct (on_order_filled_removes cfg s o order p q T G) as [_ E].
    rewrite E. apply dict_get_del_same. apply dict_set_keys_unique. exact N.
  - rewrite (on_order_filled_unknown cfg s o p q G). exact G.
Qed.

Lemma repeated_fill_ignored_witness :
  ~ tick_size (grid demo_config) == 0
  /\ NoDup (map fst (active_orders after_first_tick))
  /\ on_order_filled demo_config before_crash "BUY_44820.00_0"
       (4479759 # 100) (8371 # 100000)
     = mkFill before_crash ["Неизвестный ордер: BUY_44820.00_0"] (Ok tt).
Proof.
  assert (T : ~ tick_size (grid demo_config) == 0).
  { intro H. vm_compute in H. discriminate H. }
  assert (N : NoDup (map fst (active_orders after_first_tick))).
  { apply (run_keys_unique demo_config), fresh_keys_unique. }
  split; [exact T|]. split; [exact N|].
  exact (repeated_fill_ignored demo_config after_first_tick "BUY_44820.00_0"
           (4479759 # 100) (8371 # 100000) (4479759 # 100) (8371 # 100000) T N).
Defined.

(** ** What the engine never does by itself *)

Lemma on_order_filled_buy_book cfg s o p q :
  only_buys s ->
  realized_pnl (fill_state (on_order_filled cfg s o p q)) = realized_pnl s
  /\ total_pnl (fill_state (on_order_filled cfg s o p q)) = total_pnl s
  /\ (positions (fill_state (on_order_filled cfg s o p q)) = positions s
      \/ exists k pos,
           tp_order_id pos = None
           /\ positions (fill_state (on_order_filled cfg s o p q))
              = dict_set k pos (positions s)).
Proof.
  intro B. unfold on_order_filled.
  destruct (dict_get o (active_orders s)) as [order|] eqn:G;
    [|cbn; repeat split; left; reflexivity].
  assert (S : side order = BUY) by exact (dict_get_values _ _ _ _ B G).
  cbv zeta. cbn [side set_status]. rewrite S.
  unfold _handle_buy_fill. cbv zeta.
  destruct (normalize_price _ _) as [t|e]; cbn.
  - split; [reflexivity|]. split; [reflexivity|].
    right. eexists. eexists. split; [|reflexivity]. reflexivity.
  - split; [reflexivity|]. split; [reflexivity|]. left. reflexivity.
Qed.

(** X10: along every run of ticks and fills from a freshly constructed
    engine, every active order is a BUY order, no position carries the id
    of a take-profit order, and [realized_pnl] and [total_pnl] stay 0:
    the SELL branch of the fill handler is never reached through the
    engine's own methods. *)
Theorem engine_never_realizes (cfg : Config) (tr : list event) :
  Forall (fun o => side o = BUY)
         (dict_values (active_orders (run cfg (fresh cfg) tr)))
  /\ Forall (fun pos => tp_order_id pos = None)
            (dict_values (positions (run cfg (fresh cfg) tr)))
  /\ realized_pnl (run cfg (fresh cfg) tr) = 0
  /\ total_pnl (run cfg (fresh cfg) tr) = 0.
Proof.
  change (only_buys (run cfg (fresh cfg) tr)
          /\ no_take_profit_link (run cfg (fresh cfg) tr)
          /\ realized_pnl (run cfg (fresh cfg) tr) = 0
          /\ total_pnl (run cfg (fresh cfg) tr) = 0).
  assert (G : forall s,
            only_buys s /\ no_take_profit_link s
            /\ realized_pnl s = 0 /\ total_pnl s = 0 ->
            only_buys (run cfg s tr) /\ no_take_profit_link (run cfg s tr)
            /\ realized_pnl (run cfg s tr) = 0 /\ total_pnl (run cfg s tr) = 0).
  { induction tr as [|e tr IH]; intros s Hs; [exact Hs|].
    unfold run. cbn [fold_left]. apply IH.
    destruct Hs as (B & L & R & T).
    destruct e as [p b a|o p q]; cbn [apply_event].
    - destruct (step_book_frame cfg s p b a) as (_ & _ & Hp & Ht & Hr).
      split; [apply step_book_only_buys; exact B|].
      unfold no_take_profit_link. rewrite Hp, Ht, Hr. repeat split; assumption.
    - destruct (on_order_filled_buy_book cfg s o p q B) as (Hr & Ht & Hp).
      split; [apply on_order_filled_only_buys; exact B|].
      rewrite Hr, Ht. split; [|split; assumption].
      unfold no_take_profit_link.
      destruct Hp as [Hp|(k & pos & Hn & Hp)]; rewrite Hp; [exact L|].
      apply dict_set_values; [exact Hn|exact L]. }
  apply G. unfold only_buys, no_take_profit_link. cbn.
  repeat split; constructor.
Qed.

Lemma step_book_zero_watermark cfg s p b a :
  max_equity s == 0 ->
  step_book cfg s p b a
  = (set_price_history (next_history cfg (price_history s) p) s,
     Raise ZeroDivisionError).
Proof.
  intro Z. unfold step_book, next_history. cbv zeta.
  cbn [set_price_history cash base_holdings max_equity].
  unfold pdiv. apply Qeq_bool_iff in Z. rewrite Z. reflexivity.
Qed.

(** X11: an engine constructed with [quote_start] equal to 0 never
    trades: [max_equity] starts at 0 and stays there, so after any run
    every [step_book] call raises [ZeroDivisionError] when it computes the
    drawdown, before any order is placed, [get_status] raises as well, and
    the book of active orders stays empty. *)
Theorem unfunded_engine_raises (cfg : Config) (tr : list event) (p b a : Q) :
  quote_start (capital cfg) == 0 ->
  snd (step_book cfg (run cfg (fresh cfg) tr) p b a) = Raise ZeroDivisionError
  /\ get_status cfg (run cfg (fresh cfg) tr) = Raise ZeroDivisionError
  /\ active_orders (run cfg (fresh cfg) tr) = [].
Proof.
  intro Z.
  assert (G : forall s,
            max_equity s == 0 /\ active_orders s = [] ->
            max_equity (run cfg s tr) == 0 /\ active_orders (run cfg s tr) = []).
  { induction tr as [|e tr IH]; intros s Hs; [exact Hs|].
    unfold run. cbn [fold_left]. apply IH. destruct Hs as [M A].
    destruct e as [p0 b0 a0|o p0 q0]; cbn [apply_event].
    - rewrite (step_book_zero_watermark cfg s p0 b0 a0 M). cbn.
      split; assumption.
    - assert (U : dict_get o (active_orders s) = None) by (rewrite A; reflexivity).
      rewrite (on_order_filled_unknown cfg s o p0 q0 U). cbn.
      split; assumption. }
  destruct (G (fresh cfg)) as [M A]; [split; [exact Z|reflexivity]|].
  split; [|split; [|exact A]].
  - rewrite (step_book_zero_watermark cfg _ p b a M). reflexivity.
  - unfold get_status, pdiv. cbv zeta.
    apply Qeq_bool_iff in M. rewrite M. reflexivity.
Qed.

Lemma unfunded_engine_raises_witness :
  quote_start (capital unfunded_config) == 0
  /\ snd (step_book unfunded_config
            (run unfunded_config (fresh unfunded_config) five_ticks)
            45000 44990 45010)
     = Raise ZeroDivisionError.
Proof.
  assert (Z : quote_start (capital unfunded_config) == 0) by reflexivity.
  split; [exact Z|].
  exact (proj1 (unfunded_engine_raises unfunded_config five_ticks
                  45000 44990 45010 Z)).
Defined.

(** ** Minimum notional *)

Lemma linear_size_any_index cfg s i p :
  sizing_mode (grid cfg) = "linear" ->
  calculate_position_size cfg s i p = calculate_position_size cfg s 0 p.
Proof.
  intro L. unfold calculate_position_size. cbv zeta. rewrite L. reflexivity.
Qed.

Lemma place_loop_min_notional cfg p items :
  sizing_mode (grid cfg) = "linear" ->
  forall s acts acts',
    snd (place_loop cfg p items s acts) = Ok acts' ->
    Forall (fun o => min_notional (grid cfg) <= quantity o * price o)
           (place_orders acts) ->
    Forall (fun o => min_notional (grid cfg) <= quantity o * price o)
           (place_orders acts').
Proof.
  intro L.
  induction items as [|[i level] rest IH]; intros s acts acts';
    cbn [place_loop].
  - intro H. injection H as <-. trivial.
  - destruct (Qle_bool p level); [apply IH|].
    destruct (can_place_buy cfg s level p) as [[[|] r]|e] eqn:C;
      [|apply IH|discriminate].
    destruct (build_buy_order cfg s i level p) as [order|e] eqn:B;
      [|discriminate].
    intros H F. apply IH in H; [exact H|]. cbn [place_orders].
    apply Forall_app. split; [exact F|]. constructor; [|constructor].
    destruct (can_place_buy_admitted _ _ _ _ _ C)
      as (nl & opn & ps & q & qty & _ & _ & N & _ & S & D & Nq & M & _).
    destruct (build_buy_order_fields _ _ _ _ _ _ B)
      as (ps' & q' & N' & S' & D' & Nq' & _).
    rewrite (linear_size_any_index cfg s i p L), S in S'. injection S' as <-.
    rewrite N in N'. injection N' as N'. rewrite <- N' in D'.
    rewrite D in D'. injection D' as <-.
    rewrite Nq in Nq'. injection Nq' as Nq'.
    rewrite <- Nq', <- N'. apply Qlt_bool_false_iff. exact M.
Qed.

(** X12: in linear sizing mode every order that [step_book] places has a
    notional [quantity * price] of at least [min_notional]: the order is
    built from the very size, price and quantity that admission checked. *)
Theorem placed_orders_meet_min_notional
    (cfg : Config) (s : State) (p b a : Q) (acts : Actions) :
  sizing_mode (grid cfg) = "linear" ->
  snd (step_book cfg s p b a) = Ok acts ->
  Forall (fun o => min_notional (grid cfg) <= quantity o * price o)
         (place_orders acts).
Proof.
  intros L. unfold step_book. cbv zeta.
  destruct (pdiv _ _) as [dd|e]; [|discriminate].
  destruct (Qlt_bool (dd_pause_frac (risk cfg)) dd);
    [intro H; injection H as <-; constructor|].
  destruct (Qlt_bool (kill_switch_frac (risk cfg)) dd);
    [intro H; injection H as <-; constructor|].
  intro H. apply (place_loop_min_notional cfg p _ L) in H; [exact H|constructor].
Qed.

Lemma placed_orders_meet_min_notional_witness :
  exists acts,
    snd (step_book demo_config (fresh demo_config) 45000 44990 45010) = Ok acts
    /\ List.length (place_orders acts) = 3%nat
    /\ Forall (fun o => min_notional (grid demo_config) <= quantity o * price o)
              (place_orders acts).
Proof.
  assert (L : sizing_mode (grid demo_config) = "linear") by reflexivity.
  destruct (snd (step_book demo_config (fresh demo_config) 45000 44990 45010))
    as [acts|e] eqn:E; [|vm_compute in E; discriminate E].
  exists acts. split; [reflexivity|]. split.
  - vm_compute in E. injection E as <-. reflexivity.
  - exact (placed_orders_meet_min_notional demo_config (fresh demo_config)
             45000 44990 45010 acts L E).
Defined.

(** * The backtest driver *)

(** X13: [simulate_execution] never reports an execution: the outer test
    wants [order_type] to be "LIMIT" and both inner tests want the same
    argument to be "BUY" or "SELL", so every call returns
    [(False, 0.0, 0.0)]. *)
Theorem simulate_execution_never_fills
    (order_type : string) (price quantity market_price : Q) :
  simulate_execution order_type price quantity market_price = (false, 0, 0).
Proof.
  unfold simulate_execution.
  destruct (String.eqb order_type "LIMIT") eqn:E; [|reflexivity].
  apply String.eqb_eq in E. subst order_type. reflexivity.
Qed.

Lemma enumerate_cons {A : Type} (x : A) (l : list A) :
  exists rest, enumerate (x :: l) = (0%nat, x) :: rest.
Proof.
  unfold enumerate. cbn [List.length seq combine]. eexists. reflexivity.
Qed.

(** X14: on a data frame of 1 to 19 rows [run_backtest] raises
    [ZeroDivisionError] at its first row, in the progress test
    [i % (total_rows // 20)], before the strategy sees any price: the
    strategy and the equity curve are as they were. On an empty data
    frame the loop returns at once. *)
Theorem run_backtest_short_frame (cfg : Config) (df : list Candle) (bt : Backtest) :
  (df = [] ->
   run_backtest_loop cfg df bt = mkRun bt ["🚀 Запуск бэктестинга..."] (Ok tt))
  /\ ((1 <= List.length df < 20)%nat ->
      run_backtest_loop cfg df bt
      = mkRun bt ["🚀 Запуск бэктестинга..."] (Raise ZeroDivisionError)).
Proof.
  split.
  - intros ->. reflexivity.
  - intros [L U]. unfold run_backtest_loop.
    destruct df as [|row df']; [cbn in L; lia|].
    destruct (enumerate_cons row df') as [rest ->].
    cbn [backtest_rows].
    rewrite (Nat.div_small _ 20) by exact U. reflexivity.
Qed.

Lemma run_backtest_short_frame_witness :
  (1 <= List.length seven_candles < 20)%nat
  /\ run_backtest_loop demo_config seven_candles (backtest_init demo_config)
     = mkRun (backtest_init demo_config) ["🚀 Запуск бэктестинга..."]
             (Raise ZeroDivisionError).
Proof.
  assert (H : (1 <= List.length seven_candles < 20)%nat) by (cbn; lia).
  split; [exact H|].
  exact (proj2 (run_backtest_short_frame demo_config seven_candles
                  (backtest_init demo_config)) H).
Defined.

Lemma get_status_fields cfg s st :
  get_status cfg s = Ok st ->
  st_equity st = cash s + base_holdings s * 45000
  /\ st_cash st = cash s
  /\ st_base_holdings st = base_holdings s
  /\ st_realized_pnl st = realized_pnl s.
Proof.
  unfold get_status. cbv zeta. intro H. unbind H.
  injection H as <-. repeat split.
Qed.

Lemma backtest_rows_flat cfg n s0 rows : forall bt out,
  cash (bt_strategy bt) = cash s0 ->
  base_holdings (bt_strategy bt) = base_holdings s0 ->
  realized_pnl (bt_strategy bt) = realized_pnl s0 ->
  exists new,
    bt_equity_curve (run_engine (backtest_rows cfg n rows bt out))
    = (bt_equity_curve bt ++ new)%list
    /\ Forall (flat_point s0) new
    /\ (run_result (backtest_rows cfg n rows bt out) = Ok tt ->
        map ep_price new = map (fun r => c_close (snd r)) rows).
Proof.
  induction rows as [|[i row] rest IH]; intros bt out Hc Hb Hr;
    cbn [backtest_rows].
  - exists []. cbn. rewrite app_nil_r. repeat split. constructor.
  - destruct (n / 20)%nat as [|k].
    { exists []. cbn. rewrite app_nil_r.
      split; [reflexivity|]. split; [constructor|discriminate]. }
    cbv zeta.
    destruct (step_book cfg (bt_strategy bt) (c_close row)
                (c_close row * (999 # 1000)) (c_close row * (1001 # 1000)))
      as [s r] eqn:E.
    assert (F : same_account (bt_strategy bt) s).
    { pose proof (step_book_frame cfg (bt_strategy bt) (c_close row)
                    (c_close row * (999 # 1000)) (c_close row * (1001 # 1000)))
        as F. rewrite E in F. exact F. }
    destruct F as (Fc & Fb & _ & _ & Fr).
    destruct r as [acts|e].
    2:{ exists []. cbn. rewrite app_nil_r.
        split; [reflexivity|]. split; [constructor|discriminate]. }
    destruct (get_status cfg s) as [st|e] eqn:G.
    2:{ exists []. cbn. rewrite app_nil_r.
        split; [reflexivity|]. split; [constructor|discriminate]. }
    destruct (get_status_fields cfg s st G) as (Se & Sc & Sb & Sr).
    match goal with
    | |- context [backtest_rows cfg n rest ?bt1 ?out1] =>
        destruct (IH bt1 out1) as (new & Ec & Fl & Pr)
    end.
    { cbn. congruence. }
    { cbn. congruence. }
    { cbn. congruence. }
    cbn [bt_equity_curve] in Ec.
    exists (mkPoint (c_timestamp row) (c_close row) (st_equity st) (st_cash st)
                    (st_base_holdings st) (st_realized_pnl st) :: new).
    split; [rewrite Ec, <- app_assoc; reflexivity|].
    split.
    + constructor; [|exact Fl].
      unfold flat_point. cbn. rewrite Se, Sc, Sb, Sr. repeat split; congruence.
    + intro Hok. cbn [map snd ep_price]. rewrite (Pr Hok). reflexivity.
Qed.

(** X15: the backtest never moves the account. Whatever the prices of
    the data frame, every point that [run_backtest] adds to the equity
    curve shows the cash, the holdings and the realized P&L the strategy
    had before the run, and the equity [cash + base_holdings * 45000]:
    the loop places orders but simulates no fill, and [get_status] values
    the holdings at a fixed price. When the loop returns there is one
    point per row, carrying the close of that row. *)
Theorem backtest_equity_curve_is_flat
    (cfg : Config) (df : list Candle) (bt : Backtest) :
  exists new,
    bt_equity_curve (run_engine (run_backtest_loop cfg df bt))
    = (bt_equity_curve bt ++ new)%list
    /\ Forall (fun pt =>
                 ep_equity pt
                 = cash (bt_strategy bt) + base_holdings (bt_strategy bt) * 45000
                 /\ ep_cash pt = cash (bt_strategy bt)
                 /\ ep_base_holdings pt = base_holdings (bt_strategy bt)
                 /\ ep_realized_pnl pt = realized_pnl (bt_strategy bt))
              new
    /\ (run_result (run_backtest_loop cfg df bt) = Ok tt ->
        map ep_price new = map c_close df).
Proof.
  unfold run_backtest_loop.
  destruct (backtest_rows_flat cfg (List.length df) (bt_strategy bt)
              (enumerate df) bt ["🚀 Запуск бэктестинга..."]
              eq_refl eq_refl eq_refl)
    as (new & E & F & P).
  exists new. split; [exact E|]. split; [exact F|].
  intro H. rewrite (P H). unfold enumerate.
  rewrite <- (map_map snd c_close).
  f_equal. clear. generalize 0%nat.
  induction df as [|x l IH]; intro a; [reflexivity|].
  cbn [List.length seq combine map snd]. rewrite IH. reflexivity.
Qed.

Lemma backtest_equity_curve_is_flat_witness :
  run_result (run_backtest_loop demo_config twenty_candles
                (backtest_init demo_config)) = Ok tt
  /\ map ep_equity
         (bt_equity_curve
            (run_engine (run_backtest_loop demo_config twenty_candles
                           (backtest_init demo_config))))
     = repeat (10000 + (0 # 45000) * 45000) 20.
Proof.
  assert (H : run_result (run_backtest_loop demo_config twenty_candles
                            (backtest_init demo_config)) = Ok tt).
  { vm_compute. reflexivity. }
  split; [exact H|].
  destruct (backtest_equity_curve_is_flat demo_config twenty_candles
              (backtest_init demo_config)) as (new & E & F & P).
  rewrite E. cbn [backtest_init bt_equity_curve app].
  assert (L : List.length new = 20%nat).
  { rewrite <- (length_map ep_price), (P H). reflexivity. }
  clear E P H. revert L. generalize 20%nat.
  induction F as [|pt new (Fe & _) F IH]; intros n L.
  - cbn in L. subst n. reflexivity.
  - destruct n as [|n]; [discriminate L|].
    cbn [map repeat]. injection L as L. rewrite (IH n L), Fe. reflexivity.
Defined.

(** * The mock exchange client *)

Lemma to_uint_not_Nil (n : nat) : Nat.to_uint n <> Decimal.Nil.
Proof.
  rewrite <- (DecimalNat.Unsigned.of_to n) at 1.
  rewrite DecimalNat.Unsigned.to_of. unfold Decimal.unorm.
  destruct (Decimal.nzhead (Nat.to_uint n)); discriminate.
Qed.

Lemma nat_str_NilEmpty (n : nat) :
  nat_str n = NilEmpty.string_of_uint (Nat.to_uint n).
Proof.
  unfold nat_str, NilZero.string_of_uint.
  pose proof (to_uint_not_Nil n) as H.
  destruct (Nat.to_uint n); [congruence|reflexivity..].
Qed.

Lemma nat_str_inj (n m : nat) : nat_str n = nat_str m -> n = m.
Proof.
  rewrite !nat_str_NilEmpty. intro H.
  apply DecimalNat.Unsigned.to_uint_inj.
  pose proof (NilEmpty.usu (Nat.to_uint n)) as A.
  pose proof (NilEmpty.usu (Nat.to_uint m)) as B.
  rewrite H in A. congruence.
Qed.

(** A numeral never has the form of an order id of the strategy. *)
Lemma nat_str_not_engine_id (n : nat) : String.prefix "BUY_" (nat_str n) = false.
Proof.
  rewrite nat_str_NilEmpty.
  pose proof (to_uint_not_Nil n) as H.
  destruct (Nat.to_uint n); [congruence|reflexivity..].
Qed.

Lemma nat_str_fresh (n : nat) :
  ~ In (nat_str (n + 1)) (map nat_str (seq 1 n)).
Proof.
  intro H. apply in_map_iff in H. destruct H as (k & E & K).
  apply nat_str_inj in E. apply in_seq in K. lia.
Qed.

Lemma NoDup_map_nat_str (l : list nat) : NoDup l -> NoDup (map nat_str l).
Proof.
  induction 1 as [|x l Hx Hl IH]; cbn [map]; constructor; [|exact IH].
  intro H. apply in_map_iff in H. destruct H as (y & E & Hy).
  apply nat_str_inj in E. subst y. exact (Hx Hy).
Qed.

Lemma mock_wf_keys_unique (m : Mock) :
  mock_wf m -> NoDup (map fst (mock_orders m)).
Proof.
  intros [K _]. rewrite K. apply NoDup_map_nat_str, seq_NoDup.
Qed.

Lemma dict_set_length_fresh {V : Type} (k : string) (v : V) (m : dict V) :
  dict_get k m = None -> List.length (dict_set k v m) = (List.length m + 1)%nat.
Proof.
  intro G. rewrite (dict_set_fresh _ _ _ G), length_app. reflexivity.
Qed.

Lemma dict_set_length_present {V : Type} (k : string) (v : V) (m : dict V) :
  dict_get k m <> None -> List.length (dict_set k v m) = List.length m.
Proof.
  intro G. rewrite <- !(length_map fst), dict_set_keys. unfold dict_mem.
  destruct (dict_get k m); [reflexivity|congruence].
Qed.

Lemma dict_set_pairs {V : Type} (P : string * V -> Prop) k v (m : dict V) :
  P (k, v) -> Forall P m -> Forall P (dict_set k v m).
Proof.
  intro Pv. induction m as [|[k' v'] m IH]; cbn [dict_set]; intro F.
  - constructor; [exact Pv|constructor].
  - inversion F as [|? ? Hv Hm]; subst.
    destruct (String.eqb k k') eqn:E.
    + apply String.eqb_eq in E. subst k'. constructor; assumption.
    + constructor; [exact Hv|apply IH; exact Hm].
Qed.

Lemma dict_get_In {V : Type} (k : string) (v : V) (m : dict V) :
  dict_get k m = Some v -> In (k, v) m.
Proof.
  induction m as [|[k' v'] m IH]; cbn [dict_get]; [discriminate|].
  destruct (String.eqb k k') eqn:E.
  - apply String.eqb_eq in E. subst k'. intro H. injection H as ->.
    left. reflexivity.
  - intro H. right. apply IH. exact H.
Qed.

Lemma mock_wf_fresh_id (m : Mock) :
  mock_wf m ->
  dict_get (nat_str (List.length (mock_orders m) + 1)) (mock_orders m) = None.
Proof.
  intros [K _]. apply dict_get_None_keys. rewrite K. apply nat_str_fresh.
Qed.

Lemma mock_init_wf : mock_wf mock_init.
Proof.
  split; [reflexivity|constructor].
Qed.

Lemma mock_place_order_wf m sym sd qty pr ty :
  mock_wf m -> mock_wf (fst (mock_place_order m sym sd qty pr ty)).
Proof.
  intro W. pose proof (mock_wf_fresh_id m W) as G. destruct W as [K F].
  unfold mock_wf, mock_place_order. cbv zeta.
  cbn [fst mock_orders set_mock_orders].
  split.
  - rewrite (dict_set_length_fresh _ _ _ G), (dict_set_fresh _ _ _ G).
    rewrite map_app, K. cbn [map fst].
    rewrite Nat.add_1_r, seq_S, map_app. cbn [map]. reflexivity.
  - apply dict_set_pairs; [reflexivity|exact F].
Qed.

Lemma mock_cancel_order_wf m sym k :
  mock_wf m -> mock_wf (fst (mock_cancel_order m sym k)).
Proof.
  intro W. unfold mock_cancel_order.
  destruct k as [k|]; [|exact W].
  destruct (dict_get k (mock_orders m)) as [o|] eqn:G; [|exact W].
  destruct W as [K F]. unfold mock_wf. cbv zeta.
  cbn [fst mock_orders set_mock_orders].
  split.
  - rewrite dict_set_length_present by congruence.
    rewrite dict_set_keys. unfold dict_mem. rewrite G. exact K.
  - apply dict_set_pairs; [|exact F]. cbn.
    apply dict_get_In in G.
    exact (proj1 (Forall_forall _ _) F _ G).
Qed.

(** X16: on a mock whose orders were all made by [place_order], a new
    order gets the next numeral as its id, is stored after the others
    without replacing any of them, and is listed by [open_orders] for its
    symbol after the orders listed before. *)
Theorem mock_place_order_appends
    (m : Mock) (sym sd : string) (qty : Q) (pr : option Q) (ty : string) :
  mock_wf m ->
  mo_orderId (snd (mock_place_order m sym sd qty pr ty))
  = nat_str (List.length (mock_orders m) + 1)
  /\ mo_status (snd (mock_place_order m sym sd qty pr ty)) = "NEW"
  /\ mock_orders (fst (mock_place_order m sym sd qty pr ty))
     = (mock_orders m
        ++ [(nat_str (List.length (mock_orders m) + 1),
             snd (mock_place_order m sym sd qty pr ty))])%list
  /\ mock_open_orders (fst (mock_place_order m sym sd qty pr ty)) (Some sym)
     = (mock_open_orders m (Some sym)
        ++ [snd (mock_place_order m sym sd qty pr ty)])%list
  /\ mock_wf (fst (mock_place_order m sym sd qty pr ty)).
Proof.
  intro W. pose proof (mock_wf_fresh_id m W) as G.
  split; [reflexivity|]. split; [reflexivity|].
  assert (E : mock_orders (fst (mock_place_order m sym sd qty pr ty))
              = (mock_orders m
                 ++ [(nat_str (List.length (mock_orders m) + 1),
                      snd (mock_place_order m sym sd qty pr ty))])%list).
  { unfold mock_place_order. cbv zeta. cbn [fst snd mock_orders set_mock_orders].
    apply dict_set_fresh. exact G. }
  split; [exact E|]. split; [|apply mock_place_order_wf; exact W].
  unfold mock_open_orders, dict_values. rewrite E, map_app, filter_app.
  f_equal. cbn [map snd filter].
  assert (T : String.eqb (mo_status (snd (mock_place_order m sym sd qty pr ty)))
                "NEW"
              && String.eqb (mo_symbol (snd (mock_place_order m sym sd qty pr ty)))
                   sym = true).
  { unfold mock_place_order. cbv zeta. cbn [snd mo_status mo_symbol].
    rewrite !String.eqb_refl. reflexivity. }
  rewrite T. reflexivity.
Qed.

Lemma mock_place_order_appends_witness :
  mock_wf mock_three
  /\ mo_orderId (snd (mock_place_order mock_three "BTCUSDT" "BUY" (1 # 10)
                        (Some 42000) "LIMIT")) = "4"
  /\ map mo_orderId
         (mock_open_orders
            (fst (mock_place_order mock_three "BTCUSDT" "BUY" (1 # 10)
                    (Some 42000) "LIMIT"))
            (Some "BTCUSDT"))
     = ["1"; "4"].
Proof.
  assert (W : mock_wf mock_three).
  { unfold mock_three. cbv zeta.
    apply mock_cancel_order_wf.
    repeat apply mock_place_order_wf. exact mock_init_wf. }
  split; [exact W|].
  destruct (mock_place_order_appends mock_three "BTCUSDT" "BUY" (1 # 10)
              (Some 42000) "LIMIT" W) as (I & _ & _ & O & _).
  split; [rewrite I; reflexivity|].
  rewrite O, map_app. reflexivity.
Defined.

Lemma filter_all {A : Type} (f : A -> bool) (l : list A) :
  (forall x, In x l -> f x = true) -> filter f l = l.
Proof.
  induction l as [|x l IH]; intro H; [reflexivity|].
  cbn [filter]. rewrite (H x (or_introl eq_refl)). f_equal.
  apply IH. intros y Hy. apply H. right. exact Hy.
Qed.

(** Marking the order stored under [k]: what a filter that rejects the
    marked order still lets through. *)
Lemma filter_after_mark (f : MockOrder -> bool) k o o' (m : dict MockOrder) :
  NoDup (map fst m) ->
  Forall (fun kv => mo_orderId (snd kv) = fst kv) m ->
  dict_get k m = Some o ->
  f o' = false ->
  filter f (dict_values (dict_set k o' m))
  = filter (fun x => negb (String.eqb (mo_orderId x) k))
           (filter f (dict_values m)).
Proof.
  intros N F G Fo. revert N F G.
  induction m as [|[k' v'] m IH];
    cbn [dict_get dict_set dict_values map fst snd]; intros N F G;
    [discriminate|].
  inversion N as [|? ? Nk Nm]; subst.
  inversion F as [|? ? Fv Fm]; subst. cbn [fst snd] in Fv.
  destruct (String.eqb k k') eqn:E.
  - apply String.eqb_eq in E. subst k'. cbn [map snd filter]. rewrite Fo.
    assert (R : filter (fun x => negb (String.eqb (mo_orderId x) k))
                       (filter f (map snd m))
                = filter f (map snd m)).
    { apply filter_all. intros x Hx. apply filter_In in Hx.
      destruct Hx as [Hx _]. apply in_map_iff in Hx.
      destruct Hx as ([kx vx] & <- & Hin). cbn [snd].
      pose proof (proj1 (Forall_forall _ _) Fm _ Hin) as Ex. cbn in Ex.
      rewrite Ex. apply negb_true_iff, String.eqb_neq. intros ->.
      apply Nk. apply in_map_iff. exists (k, vx). split; [reflexivity|exact Hin]. }
    destruct (f v'); [|exact (eq_sym R)].
    cbn [filter]. rewrite Fv, String.eqb_refl. cbn [negb]. exact (eq_sym R).
  - cbn [map snd filter]. fold (dict_values (dict_set k o' m)).
    fold (dict_values m). rewrite (IH Nm Fm G).
    destruct (f v'); [|reflexivity].
    cbn [filter]. rewrite Fv.
    assert (Q : String.eqb k' k = false).
    { apply String.eqb_neq. intros ->. rewrite String.eqb_refl in E.
      discriminate E. }
    rewrite Q. reflexivity.
Qed.

Lemma mock_cancel_open_orders m sym k o sym' :
  mock_wf m ->
  dict_get k (mock_orders m) = Some o ->
  mock_open_orders (fst (mock_cancel_order m sym (Some k))) sym'
  = filter (fun x => negb (String.eqb (mo_orderId x) k))
           (mock_open_orders m sym').
Proof.
  intros W G. unfold mock_cancel_order. rewrite G. cbv zeta.
  unfold mock_open_orders. cbn [fst mock_orders set_mock_orders].
  apply (filter_after_mark _ k o);
    [apply mock_wf_keys_unique; exact W|exact (proj2 W)|exact G|].
  reflexivity.
Qed.

(** X17: [cancel_order] on the mock. Without an order id, or with one
    the mock does not hold, it raises [ValueError] and changes nothing.
    With the id of an order it holds (cancelled before or not) it returns
    that order with status CANCELED, and from then on [open_orders], for
    any symbol filter, lists what it listed before without that order. *)
Theorem mock_cancel_order_cases (m : Mock) (sym k : string) :
  mock_wf m ->
  mock_cancel_order m sym None = (m, ApiValueError "Ордер None не найден")
  /\ (dict_get k (mock_orders m) = None ->
      mock_cancel_order m sym (Some k)
      = (m, ApiValueError ("Ордер " ++ k ++ " не найден")))
  /\ (forall o,
        dict_get k (mock_orders m) = Some o ->
        snd (mock_cancel_order m sym (Some k))
        = ApiOk (set_mo_status "CANCELED" o)
        /\ mock_wf (fst (mock_cancel_order m sym (Some k)))
        /\ forall sym',
             mock_open_orders (fst (mock_cancel_order m sym (Some k))) sym'
             = filter (fun x => negb (String.eqb (mo_orderId x) k))
                      (mock_open_orders m sym')).
Proof.
  intro W. split; [reflexivity|]. split.
  - intro G. unfold mock_cancel_order. rewrite G. reflexivity.
  - intros o G. split; [|split].
    + unfold mock_cancel_order. rewrite G. reflexivity.
    + apply mock_cancel_order_wf. exact W.
    + intro sym'. apply (mock_cancel_open_orders m sym k o sym' W G).
Qed.

Lemma mock_cancel_order_cases_witness :
  mock_wf mock_three
  /\ mock_cancel_order mock_three "BTCUSDT" (Some "9")
     = (mock_three, ApiValueError "Ордер 9 не найден")
  /\ map mo_orderId
         (mock_open_orders
            (fst (mock_cancel_order mock_three "BTCUSDT" (Some "1"))) None)
     = ["3"].
Proof.
  assert (W : mock_wf mock_three).
  { unfold mock_three. cbv zeta.
    apply mock_cancel_order_wf.
    repeat apply mock_place_order_wf. exact mock_init_wf. }
  split; [exact W|].
  destruct (mock_cancel_order_cases mock_three "BTCUSDT" "9" W) as (_ & U & _).
  split; [apply U; reflexivity|].
  destruct (mock_cancel_order_cases mock_three "BTCUSDT" "1" W) as (_ & _ & K).
  destruct (dict_get "1" (mock_orders mock_three)) as [o|] eqn:G;
    [|vm_compute in G; discriminate G].
  destruct (K o eq_refl) as (_ & _ & O).
  rewrite O. vm_compute. reflexivity.
Defined.

(** * The live driver *)

Lemma dict_get_present {V : Type} (k : string) (m : dict V) :
  In k (map fst m) -> exists e, dict_get k m = Some e.
Proof.
  intro H. destruct (dict_get k m) as [e|] eqn:G; [exists e; reflexivity|].
  apply dict_get_None_keys in G. contradiction.
Qed.

Lemma filter_twice {A : Type} (f g : A -> bool) (l : list A) :
  filter f (filter g l) = filter (fun x => g x && f x) l.
Proof.
  induction l as [|x l IH]; [reflexivity|].
  cbn [filter]. destruct (g x); cbn [filter andb]; rewrite IH; reflexivity.
Qed.

Lemma mock_order_listed_held (m : Mock) (sym : option string) (o : MockOrder) :
  mock_wf m ->
  In o (mock_open_orders m sym) ->
  In (mo_orderId o, o) (mock_orders m).
Proof.
  intros [_ F] H. unfold mock_open_orders in H. apply filter_In in H.
  destruct H as [H _]. apply in_map_iff in H.
  destruct H as ([k v] & <- & Hin). cbn [snd].
  pose proof (proj1 (Forall_forall _ _) F _ Hin) as E. cbn in E.
  rewrite E. exact Hin.
Qed.

Lemma mock_cancel_keys m sym k :
  map fst (mock_orders (fst (mock_cancel_order m sym k)))
  = map fst (mock_orders m).
Proof.
  unfold mock_cancel_order. destruct k as [k|]; [|reflexivity].
  destruct (dict_get k (mock_orders m)) eqn:G; [|reflexivity].
  cbv zeta. cbn [fst mock_orders set_mock_orders].
  rewrite dict_set_keys. unfold dict_mem. rewrite G. reflexivity.
Qed.

Lemma cancel_all_spec sym (active : list MockOrder) : forall m,
  mock_wf m ->
  (forall o, In o active -> In (mo_orderId o) (map fst (mock_orders m))) ->
  mock_wf (cancel_all m sym active)
  /\ map fst (mock_orders (cancel_all m sym active)) = map fst (mock_orders m)
  /\ forall sym',
       mock_open_orders (cancel_all m sym active) sym'
       = filter
           (fun x =>
              negb (existsb (fun o => String.eqb (mo_orderId x) (mo_orderId o))
                            active))
           (mock_open_orders m sym').
Proof.
  induction active as [|o rest IH]; intros m W H; cbn [cancel_all].
  - split; [exact W|]. split; [reflexivity|].
    intro sym'. cbn [existsb negb]. symmetry. apply filter_all. reflexivity.
  - destruct (dict_get_present _ _ (H o (or_introl eq_refl))) as [e G].
    pose proof (mock_cancel_order_wf m sym (Some (mo_orderId o)) W) as W1.
    pose proof (mock_cancel_keys m sym (Some (mo_orderId o))) as K1.
    pose proof (fun sym' =>
                  mock_cancel_open_orders m sym (mo_orderId o) e sym' W G) as O1.
    assert (R : snd (mock_cancel_order m sym (Some (mo_orderId o)))
                = ApiOk (set_mo_status "CANCELED" e)).
    { unfold mock_cancel_order. rewrite G. reflexivity. }
    destruct (mock_cancel_order m sym (Some (mo_orderId o))) as [m1 r].
    cbn [fst snd] in W1, K1, O1, R. subst r.
    destruct (IH m1 W1) as (W2 & K2 & O2).
    { intros x Hx. rewrite K1. apply H. right. exact Hx. }
    split; [exact W2|]. split; [rewrite K2; exact K1|].
    intro sym'. rewrite O2, O1, filter_twice.
    apply filter_ext. intro x. cbn [existsb]. rewrite negb_orb. reflexivity.
Qed.

Lemma dict_value_by_key {V : Type} (k : string) (v1 v2 : V) (m : dict V) :
  NoDup (map fst m) -> In (k, v1) m -> In (k, v2) m -> v1 = v2.
Proof.
  induction m as [|[k' v'] m IH]; cbn [map fst]; intros N H1 H2; [destruct H1|].
  inversion N as [|? ? Nk Nm]; subst.
  destruct H1 as [E1|H1], H2 as [E2|H2].
  - congruence.
  - injection E1 as -> ->. exfalso. apply Nk.
    apply in_map_iff. exists (k, v2). split; [reflexivity|exact H2].
  - injection E2 as -> ->. exfalso. apply Nk.
    apply in_map_iff. exists (k, v1). split; [reflexivity|exact H1].
  - exact (IH Nm H1 H2).
Qed.

(** X18: [stop] on the mock client cancels every open order of the
    bot's symbol: afterwards [open_orders] lists none for that symbol,
    the open orders of every other symbol are listed as before, and no
    order has been removed from the mock. *)
Theorem stop_cancels_open_orders (m : Mock) (sym : string) :
  mock_wf m ->
  mock_open_orders (bot_stop m sym) (Some sym) = []
  /\ (forall sym', sym' <> sym ->
        mock_open_orders (bot_stop m sym) (Some sym')
        = mock_open_orders m (Some sym'))
  /\ map fst (mock_orders (bot_stop m sym)) = map fst (mock_orders m)
  /\ mock_wf (bot_stop m sym).
Proof.
  intro W. unfold bot_stop.
  destruct (cancel_all_spec sym (mock_open_orders m (Some sym)) m W)
    as (W' & K & O).
  { intros o Ho. apply in_map_iff. exists (mo_orderId o, o).
    split; [reflexivity|]. exact (mock_order_listed_held m _ o W Ho). }
  split; [|split; [|split; [exact K|exact W']]].
  - rewrite O. apply filter_none. intros x Hx.
    apply negb_false_iff, existsb_exists. exists x.
    split; [exact Hx|apply String.eqb_refl].
  - intros sym' D. rewrite O. apply filter_all. intros x Hx.
    apply negb_true_iff.
    destruct (existsb _ _) eqn:E; [|reflexivity]. exfalso.
    apply existsb_exists in E. destruct E as (o & Ho & Eo).
    apply String.eqb_eq in Eo.
    pose proof (mock_order_listed_held m _ x W Hx) as Ix.
    pose proof (mock_order_listed_held m _ o W Ho) as Io.
    rewrite Eo in Ix.
    pose proof (dict_value_by_key _ _ _ _ (mock_wf_keys_unique m W) Ix Io) as XO.
    subst o. unfold mock_open_orders in Hx, Ho.
    apply filter_In in Hx. apply filter_In in Ho.
    destruct Hx as [_ Hx], Ho as [_ Ho].
    apply andb_true_iff in Hx. apply andb_true_iff in Ho.
    destruct Hx as [_ Hx], Ho as [_ Ho].
    apply String.eqb_eq in Hx. apply String.eqb_eq in Ho. congruence.
Qed.

Lemma stop_cancels_open_orders_witness :
  mock_wf mock_three
  /\ map mo_orderId (mock_open_orders mock_three (Some "BTCUSDT")) = ["1"]
  /\ mock_open_orders (bot_stop mock_three "BTCUSDT") (Some "BTCUSDT") = []
  /\ map mo_orderId (mock_open_orders (bot_stop mock_three "BTCUSDT")
                       (Some "ETHUSDT"))
     = ["3"].
Proof.
  assert (W : mock_wf mock_three).
  { unfold mock_three. cbv zeta.
    apply mock_cancel_order_wf.
    repeat apply mock_place_order_wf. exact mock_init_wf. }
  split; [exact W|]. split; [vm_compute; reflexivity|].
  destruct (stop_cancels_open_orders mock_three "BTCUSDT" W) as (E & D & _).
  split; [exact E|].
  rewrite (D "ETHUSDT") by discriminate. vm_compute. reflexivity.
Defined.

(** ** Reconciliation *)

Lemma dict_del_filter {V : Type} (k : string) (m : dict V) :
  NoDup (map fst m) ->
  dict_del k m = filter (fun kv => negb (String.eqb k (fst kv))) m.
Proof.
  induction m as [|[k' v'] m IH]; cbn [dict_del map fst filter]; intro N;
    [reflexivity|].
  inversion N as [|? ? Nk Nm]; subst.
  destruct (String.eqb k k') eqn:E; cbn [negb].
  - apply String.eqb_eq in E. subst k'. symmetry. apply filter_all.
    intros [kx vx] Hx. cbn [fst]. apply negb_true_iff, String.eqb_neq.
    intros <-. apply Nk. apply in_map_iff. exists (k, vx).
    split; [reflexivity|exact Hx].
  - rewrite (IH Nm). reflexivity.
Qed.

Lemma NoDup_keys_filter {V : Type} (f : string * V -> bool) (m : dict V) :
  NoDup (map fst m) -> NoDup (map fst (filter f m)).
Proof.
  induction m as [|kv m IH]; cbn [map filter]; intro N; [constructor|].
  inversion N as [|? ? Nk Nm]; subst.
  destruct (f kv); cbn [map]; [|exact (IH Nm)].
  constructor; [|exact (IH Nm)].
  intro H. apply Nk. apply in_map_iff in H. destruct H as (x & E & Hx).
  apply filter_In in Hx. apply in_map_iff. exists x. tauto.
Qed.

Lemma set_active_orders_same (s : State) : set_active_orders (active_orders s) s = s.
Proof.
  destruct s. reflexivity.
Qed.

Lemma set_active_orders_twice (a b : dict Order) (s : State) :
  set_active_orders a (set_active_orders b s) = set_active_orders a s.
Proof.
  reflexivity.
Qed.

Lemma drop_fold (missing : list string) : forall s,
  keys_unique s ->
  fold_left
    (fun st order_id =>
       if dict_mem order_id (active_orders st)
       then set_active_orders (dict_del order_id (active_orders st)) st
       else st)
    missing s
  = set_active_orders
      (filter (fun kv => negb (existsb (fun k => String.eqb k (fst kv)) missing))
              (active_orders s))
      s.
Proof.
  unfold keys_unique.
  induction missing as [|k rest IH]; intros s N; cbn [fold_left].
  - cbn [existsb negb]. rewrite filter_all by reflexivity.
    symmetry. apply set_active_orders_same.
  - assert (D : (if dict_mem k (active_orders s)
                 then set_active_orders (dict_del k (active_orders s)) s
                 else s)
                = set_active_orders
                    (filter (fun kv => negb (String.eqb k (fst kv)))
                            (active_orders s)) s).
    { unfold dict_mem. destruct (dict_get k (active_orders s)) eqn:G.
      - rewrite (dict_del_filter k _ N). reflexivity.
      - rewrite filter_all; [symmetry; apply set_active_orders_same|].
        intros [kx vx] Hx. cbn [fst]. apply negb_true_iff, String.eqb_neq.
        intros <-. apply dict_get_None_keys in G. apply G.
        apply in_map_iff. exists (k, vx). split; [reflexivity|exact Hx]. }
    rewrite D, IH.
    + rewrite set_active_orders_twice.
      cbn [active_orders set_active_orders]. rewrite filter_twice.
      apply (f_equal (fun a => set_active_orders a s)).
      apply filter_ext. intros kv.
      cbn [existsb]. rewrite negb_orb. reflexivity.
    + cbn [active_orders set_active_orders]. apply NoDup_keys_filter. exact N.
Qed.

Lemma drop_missing_filter (ids : list string) (s : State) :
  keys_unique s ->
  drop_missing ids s
  = set_active_orders
      (filter (fun kv => existsb (String.eqb (fst kv)) ids) (active_orders s))
      s.
Proof.
  intro N. unfold drop_missing. cbv zeta. rewrite (drop_fold _ s N).
  f_equal. apply filter_ext_in. intros [k v] Hin. cbn [fst].
  destruct (existsb (String.eqb k) ids) eqn:E.
  - apply negb_true_iff.
    destruct (existsb _ (filter _ _)) eqn:X; [|reflexivity]. exfalso.
    apply existsb_exists in X. destruct X as (k0 & Hk0 & Ek).
    apply String.eqb_eq in Ek. subst k0.
    apply filter_In in Hk0. destruct Hk0 as [_ Hk0].
    rewrite E in Hk0. discriminate Hk0.
  - apply negb_false_iff, existsb_exists. exists k.
    split; [|apply String.eqb_refl].
    apply filter_In. split; [|rewrite E; reflexivity].
    apply in_map_iff. exists (k, v). split; [reflexivity|exact Hin].
Qed.

(** X19: reconciliation against a list of exchange order ids keeps, in
    their order and unchanged, exactly the orders of the strategy whose
    id is on the list, and touches nothing else of the strategy: cash,
    holdings, positions and P&L are as before, so an order that vanished
    from the exchange is forgotten without any fill being applied.
    Reconciling again against the same list changes nothing. *)
Theorem reconcile_keeps_listed_orders (ids : list string) (s : State) :
  NoDup (map fst (active_orders s)) ->
  drop_missing ids s
  = set_active_orders
      (filter (fun kv => existsb (String.eqb (fst kv)) ids) (active_orders s))
      s
  /\ drop_missing ids (drop_missing ids s) = drop_missing ids s.
Proof.
  intro N. split; [exact (drop_missing_filter ids s N)|].
  rewrite (drop_missing_filter ids s N).
  rewrite drop_missing_filter.
  - rewrite set_active_orders_twice.
    cbn [active_orders set_active_orders]. rewrite filter_twice.
    apply (f_equal (fun a => set_active_orders a s)).
    apply filter_ext. intro kv.
    destruct (existsb _ ids); reflexivity.
  - unfold keys_unique. cbn [active_orders set_active_orders].
    apply NoDup_keys_filter. exact N.
Qed.

Lemma reconcile_keeps_listed_orders_witness :
  NoDup (map fst (active_orders after_first_tick))
  /\ map fst
         (active_orders
            (drop_missing ["BUY_44640.00_1"; "17"] after_first_tick))
     = ["BUY_44640.00_1"]
  /\ cash (drop_missing ["BUY_44640.00_1"; "17"] after_first_tick)
     = cash after_first_tick.
Proof.
  assert (N : NoDup (map fst (active_orders after_first_tick))).
  { apply (run_keys_unique demo_config), fresh_keys_unique. }
  split; [exact N|].
  rewrite (proj1 (reconcile_keeps_listed_orders ["BUY_44640.00_1"; "17"]
                    after_first_tick N)).
  split; [vm_compute; reflexivity|reflexivity].
Defined.

Lemma prefix_append (a b : string) : String.prefix a (a ++ b) = true.
Proof.
  induction a as [|c a IH]; cbn [String.append String.prefix]; [destruct b; reflexivity|].
  destruct (ascii_dec c c) as [_|N]; [exact IH|congruence].
Qed.

Lemma place_loop_keys_from_engine cfg p items : forall s acts,
  keys_from_engine s -> keys_from_engine (fst (place_loop cfg p items s acts)).
Proof.
  unfold keys_from_engine.
  induction items as [|[i level] rest IH]; intros s acts Hs; cbn [place_loop].
  - exact Hs.
  - destruct (Qle_bool p level); [apply IH; exact Hs|].
    destruct (can_place_buy cfg s level p) as [[[|] r]|e];
      [| apply IH; exact Hs | exact Hs].
    destruct (build_buy_order cfg s i level p) as [order|e] eqn:B; [|exact Hs].
    apply IH. cbn [active_orders set_active_orders].
    rewrite dict_set_keys. destruct (dict_mem _ _); [exact Hs|].
    apply Forall_app. split; [exact Hs|]. constructor; [|constructor].
    destruct (build_buy_order_fields _ _ _ _ _ _ B) as (_ & _ & _ & _ & _ & _ & I).
    rewrite I. apply prefix_append.
Qed.

Lemma step_book_keys_from_engine cfg s p b a :
  keys_from_engine s -> keys_from_engine (fst (step_book cfg s p b a)).
Proof.
  intro Hs. unfold step_book. cbv zeta.
  destruct (pdiv _ _) as [dd|e]; [|exact Hs].
  destruct (Qlt_bool (dd_pause_frac (risk cfg)) dd); [exact Hs|].
  destruct (Qlt_bool (kill_switch_frac (risk cfg)) dd); [exact Hs|].
  apply place_loop_keys_from_engine.
  destruct (Qlt_bool _ _); exact Hs.
Qed.

Lemma on_order_filled_keys_from_engine cfg s o p q :
  keys_from_engine s ->
  keys_from_engine (fill_state (on_order_filled cfg s o p q)).
Proof.
  unfold keys_from_engine. intro Hs.
  pose proof (on_order_filled_orders cfg s o p q) as K.
  destruct (dict_get o (active_orders s)) as [order|] eqn:G.
  - assert (S : map fst (dict_set o (set_status FILLED order) (active_orders s))
                = map fst (active_orders s)).
    { rewrite dict_set_keys. unfold dict_mem. rewrite G. reflexivity. }
    destruct K as [K|K]; rewrite K.
    + rewrite S. exact Hs.
    + apply Forall_forall. intros k Hk.
      apply dict_del_keys_incl in Hk. rewrite S in Hk.
      exact (proj1 (Forall_forall _ _) Hs k Hk).
  - rewrite K. exact Hs.
Qed.

Lemma run_keys_from_engine cfg tr : forall s,
  keys_from_engine s -> keys_from_engine (run cfg s tr).
Proof.
  induction tr as [|e tr IH]; intros s Hs; [exact Hs|].
  unfold run. cbn [fold_left]. apply IH.
  destruct e as [p b a|o p q]; cbn [apply_event].
  - apply step_book_keys_from_engine. exact Hs.
  - apply on_order_filled_keys_from_engine. exact Hs.
Qed.

Lemma fresh_keys_from_engine cfg : keys_from_engine (fresh cfg).
Proof.
  unfold keys_from_engine. cbn. constructor.
Qed.

Lemma mock_ids_are_numerals (m : Mock) (sym : option string) (k : string) :
  mock_wf m ->
  In k (map mo_orderId (mock_open_orders m sym)) ->
  exists n, k = nat_str n.
Proof.
  intros W H. apply in_map_iff in H. destruct H as (o & <- & Ho).
  pose proof (mock_order_listed_held m sym o W Ho) as I.
  destruct W as [K _].
  assert (Hk : In (mo_orderId o) (map fst (mock_orders m))).
  { apply in_map_iff. exists (mo_orderId o, o). split; [reflexivity|exact I]. }
  rewrite K in Hk. apply in_map_iff in Hk. destruct Hk as (n & E & _).
  exists n. symmetry. exact E.
Qed.

(** X20: on the mock client [reconcile_orders] forgets every order of
    the strategy. The strategy files its orders under the ids it made up
    itself ("BUY_<level>_<n>") and the mock numbers its orders "1", "2",
    ...; so in a book whose keys are all of the strategy's making no key
    is among the ids the mock lists, and the reconciliation deletes them
    all. The account is left alone. *)
Theorem reconcile_on_mock_empties_book (s : State) (m : Mock) (sym : string) :
  Forall (fun k => String.prefix "BUY_" k = true) (map fst (active_orders s)) ->
  NoDup (map fst (active_orders s)) ->
  mock_wf m ->
  reconcile_orders s m sym = set_active_orders [] s.
Proof.
  intros E N W. unfold reconcile_orders.
  rewrite (drop_missing_filter _ s N).
  apply (f_equal (fun a => set_active_orders a s)).
  apply filter_none. intros [k v] Hin. cbn [fst].
  destruct (existsb _ _) eqn:X; [|reflexivity]. exfalso.
  apply existsb_exists in X. destruct X as (id & Hid & Ek).
  apply String.eqb_eq in Ek. subst id.
  destruct (mock_ids_are_numerals m _ k W Hid) as [n ->].
  assert (P : String.prefix "BUY_" (nat_str n) = true).
  { apply (proj1 (Forall_forall _ _) E).
    apply in_map_iff. exists (nat_str n, v). split; [reflexivity|exact Hin]. }
  rewrite nat_str_not_engine_id in P. discriminate P.
Qed.

Lemma reconcile_on_mock_empties_book_witness :
  List.length (active_orders after_first_tick) = 3%nat
  /\ List.length (mock_open_orders mock_three (Some "BTCUSDT")) = 1%nat
  /\ reconcile_orders after_first_tick mock_three "BTCUSDT"
     = set_active_orders [] after_first_tick.
Proof.
  assert (E : Forall (fun k => String.prefix "BUY_" k = true)
                     (map fst (active_orders after_first_tick))).
  { apply (run_keys_from_engine demo_config), fresh_keys_from_engine. }
  assert (N : NoDup (map fst (active_orders after_first_tick))).
  { apply (run_keys_unique demo_config), fresh_keys_unique. }
  assert (W : mock_wf mock_three).
  { unfold mock_three. cbv zeta.
    apply mock_cancel_order_wf.
    repeat apply mock_place_order_wf. exact mock_init_wf. }
  split; [vm_compute; reflexivity|]. split; [vm_compute; reflexivity|].
  exact (reconcile_on_mock_empties_book after_first_tick mock_three "BTCUSDT"
           E N W).
Defined.

(** ** Levels that hold a position *)

Lemma build_buy_order_level_key cfg s i level p o :
  build_buy_order cfg s i level p = Ok o ->
  exists nl,
    normalize_price cfg level = Ok nl
    /\ level_key o = Some (format_fixed 8 nl).
Proof.
  unfold build_buy_order. cbv zeta. intro H.
  destruct (normalize_price cfg (level * (1 - maker_buffer_frac (grid cfg))))
    as [op|] eqn:E1; [|discriminate H].
  cbn [bind] in H.
  destruct (calculate_position_size cfg s i p) as [ps|] eqn:E2;
    [|discriminate H].
  cbn [bind] in H.
  destruct (pdiv ps op) as [q|] eqn:E3; [|discriminate H].
  cbn [bind] in H.
  destruct (normalize_quantity cfg q) as [qty|] eqn:E4; [|discriminate H].
  cbn [bind] in H.
  destruct (normalize_price cfg level) as [nl|] eqn:E5; [|discriminate H].
  cbn [bind] in H. injection H as <-. cbn [level_key].
  exists nl. split; reflexivity.
Qed.

Lemma place_loop_free_levels cfg p items : forall s acts acts',
  snd (place_loop cfg p items s acts) = Ok acts' ->
  Forall (free_level (positions s)) (place_orders acts) ->
  Forall (free_level (positions s)) (place_orders acts').
Proof.
  induction items as [|[i level] rest IH]; intros s acts acts';
    cbn [place_loop].
  - intro H. injection H as <-. trivial.
  - destruct (Qle_bool p level); [apply IH|].
    destruct (can_place_buy cfg s level p) as [[[|] r]|e] eqn:C;
      [|apply IH|discriminate].
    destruct (build_buy_order cfg s i level p) as [order|e] eqn:B;
      [|discriminate].
    intros H F. apply IH in H; [exact H|]. cbn [place_orders].
    change (positions (set_active_orders _ s)) with (positions s).
    apply Forall_app. split; [exact F|]. constructor; [|constructor].
    destruct (can_place_buy_admitted _ _ _ _ _ C)
      as (nl & opn & ps & q & qty & N & M & _).
    destruct (build_buy_order_level_key _ _ _ _ _ _ B) as (nl' & N' & K).
    rewrite N in N'. injection N' as <-.
    exists (format_fixed 8 nl). split; assumption.
Qed.

(** X21: [step_book] never places an order on a level that holds a
    position: every order of a tick that returns carries a level key
    under which [positions] has no entry, and the tick leaves [positions]
    as it was. This is the half of the anti-accumulation rule that the
    level key does enforce. *)
Theorem placed_levels_hold_no_position
    (cfg : Config) (s : State) (p b a : Q) (acts : Actions) :
  snd (step_book cfg s p b a) = Ok acts ->
  positions (fst (step_book cfg s p b a)) = positions s
  /\ Forall (free_level (positions s)) (place_orders acts).
Proof.
  intro H. split.
  - apply (step_book_frame cfg s p b a).
  - revert H. unfold step_book. cbv zeta.
    destruct (pdiv _ _) as [dd|e]; [|discriminate].
    destruct (Qlt_bool (dd_pause_frac (risk cfg)) dd);
      [intro H; injection H as <-; constructor|].
    destruct (Qlt_bool (kill_switch_frac (risk cfg)) dd);
      [intro H; injection H as <-; constructor|].
    intro H.
    apply place_loop_free_levels in H; [|constructor].
    destruct (Qlt_bool _ _) in H; exact H.
Qed.

Lemma placed_levels_hold_no_position_witness :
  exists acts,
    snd (step_book demo_config before_crash 44000 43990 44010) = Ok acts
    /\ List.length (place_orders acts) = 3%nat
    /\ Forall (free_level (positions before_crash)) (place_orders acts).
Proof.
  destruct (snd (step_book demo_config before_crash 44000 43990 44010))
    as [acts|e] eqn:E; [|vm_compute in E; discriminate E].
  exists acts. split; [reflexivity|]. split.
  - vm_compute in E. injection E as <-. reflexivity.
  - exact (proj2 (placed_levels_hold_no_position demo_config before_crash
                    44000 43990 44010 acts E)).
Defined.

(** ** A fill on a level that holds a position *)

Lemma total_quantity_set_present
    (k : string) (pos old : Position) (ps : dict Position) :
  dict_get k ps = Some old ->
  List.length (dict_set k pos ps) = List.length ps
  /\ total_quantity (dict_set k pos ps)
     == total_quantity ps - pos_quantity old + pos_quantity pos.
Proof.
  unfold total_quantity, dict_values.
  induction ps as [|[k' v'] ps IH]; cbn [dict_get dict_set]; [discriminate|].
  destruct (String.eqb k k').
  - intro H. injection H as ->. split; [reflexivity|].
    cbn [map snd]. rewrite !Qsum_cons. ring.
  - intro H. destruct (IH H) as [L T]. split.
    + cbn [List.length]. rewrite L. reflexivity.
    + cbn [map snd]. rewrite !Qsum_cons, T. ring.
Qed.

(** X22: a BUY fill on a level key that already holds a position
    replaces that position. The book of positions keeps its size, the
    sum of the position quantities loses the quantity of the position
    overwritten, and [base_holdings] still grows by the fill: from then
    on the holdings exceed what the positions account for by that
    quantity more. *)
Theorem buy_fill_overwrites_position
    (cfg : Config) (s : State) (o : string) (order : Order) (p q : Q)
    (old : Position) :
  ~ tick_size (grid cfg) == 0 ->
  dict_get o (active_orders s) = Some order ->
  side order = BUY ->
  dict_get (fill_level_key order p) (positions s) = Some old ->
  List.length (positions (fill_state (on_order_filled cfg s o p q)))
  = List.length (positions s)
  /\ total_quantity (positions (fill_state (on_order_filled cfg s o p q)))
     == total_quantity (positions s) - pos_quantity old + q
  /\ base_holdings (fill_state (on_order_filled cfg s o p q))
     = base_holdings s + q
  /\ base_holdings (fill_state (on_order_filled cfg s o p q))
     - total_quantity (positions (fill_state (on_order_filled cfg s o p q)))
     == base_holdings s - total_quantity (positions s) + pos_quantity old.
Proof.
  intros T G B P.
  destruct (buy_fill_effect cfg s o order p q T G B) as [tp E].
  rewrite E. cbn [fill_state].
  change (positions (set_active_orders ?a ?s')) with (positions s').
  change (base_holdings (set_active_orders ?a ?s')) with (base_holdings s').
  cbn [positions base_holdings set_positions set_base_holdings set_cash].
  destruct (total_quantity_set_present (fill_level_key order p)
              (mkPosition p q p (Some tp) None) old (positions s) P)
    as [L Q].
  cbn [pos_quantity] in Q.
  split; [exact L|]. split; [exact Q|]. split; [reflexivity|].
  rewrite Q. ring.
Qed.

Lemma buy_fill_overwrites_position_witness :
  List.length (positions one_of_two_filled) = 1%nat
  /\ List.length
       (positions
          (fill_state
             (on_order_filled demo_config one_of_two_filled "BUY_44738.58_4"
                (4471622 # 100) (8386 # 100000)))) = 1%nat
  /\ base_holdings
       (fill_state
          (on_order_filled demo_config one_of_two_filled "BUY_44738.58_4"
             (4471622 # 100) (8386 # 100000)))
     - total_quantity
         (positions
            (fill_state
               (on_order_filled demo_config one_of_two_filled "BUY_44738.58_4"
                  (4471622 # 100) (8386 # 100000))))
     == 8386 # 100000.
Proof.
  assert (T : ~ tick_size (grid demo_config) == 0) by (vm_compute; discriminate).
  assert (G : exists order,
             dict_get "BUY_44738.58_4" (active_orders one_of_two_filled)
             = Some order
             /\ side order = BUY
             /\ fill_level_key order (4471622 # 100) = "44738.58000000").
  { eexists. split; [vm_compute; reflexivity|].
    split; vm_compute; reflexivity. }
  destruct G as (order & G & B & K).
  assert (P : exists old,
             dict_get (fill_level_key order (4471622 # 100))
                      (positions one_of_two_filled) = Some old
             /\ pos_quantity old = (8386 # 100000)).
  { rewrite K. eexists. split; vm_compute; reflexivity. }
  destruct P as (old & P & Qo).
  destruct (buy_fill_overwrites_position demo_config one_of_two_filled
              "BUY_44738.58_4" order (4471622 # 100) (8386 # 100000) old
              T G B P) as (L & _ & _ & D).
  split; [vm_compute; reflexivity|]. split.
  - rewrite L. vm_compute. reflexivity.
  - rewrite D, Qo. vm_compute. reflexivity.
Defined.

(** ** Geometric sizing *)

Lemma nth_weight (n : Z) (i : nat) :
  (i < Z.to_nat n)%nat ->
  nth i (map (fun k => Qpower (12 # 10) k) (py_range 0 n)) 0
  = Qpower (12 # 10) (Z.of_nat i).
Proof.
  intro H. unfold py_range. rewrite map_map, Z.sub_0_r.
  rewrite (nth_indep _ 0 ((fun k => (12 # 10) ^ (0 + Z.of_nat k)) 0%nat))
    by (rewrite length_map, length_seq; exact H).
  rewrite (map_nth (fun k => (12 # 10) ^ (0 + Z.of_nat k))).
  rewrite seq_nth by exact H. reflexivity.
Qed.

(** X23: in geometric sizing mode each level gets 1.2 times the size of
    the level before it: for two consecutive level indices within
    [levels_below], and an equity other than 0 at the tick,
    [calculate_position_size] returns for the farther one 1.2 times what
    it returns for the nearer one. *)
Theorem geometric_sizes_grow (cfg : Config) (s : State) (i : nat) (p : Q) :
  sizing_mode (grid cfg) <> "linear" ->
  (S i < Z.to_nat (levels_below (grid cfg)))%nat ->
  ~ cash s + base_holdings s * p == 0 ->
  exists near far,
    calculate_position_size cfg s i p = Ok near
    /\ calculate_position_size cfg s (S i) p = Ok far
    /\ far == (12 # 10) * near.
Proof.
  intros G I E.
  assert (L : (0 < levels_below (grid cfg))%Z) by lia.
  destruct (size_per_level cfg s i p L ltac:(lia) E) as (near & Hn & En).
  destruct (size_per_level cfg s (S i) p L I E) as (far & Hf & Ef).
  exists near, far. split; [exact Hn|]. split; [exact Hf|].
  apply String.eqb_neq in G. rewrite G in En, Ef.
  rewrite nth_weight in En by lia. rewrite nth_weight in Ef by exact I.
  rewrite Ef, En, Nat2Z.inj_succ. unfold Z.succ.
  rewrite Qpower_plus by (intro Z0; discriminate Z0).
  change ((12 # 10) ^ 1) with (12 # 10). ring.
Qed.

Lemma geometric_sizes_grow_witness :
  exists near far,
    calculate_position_size geometric_config (fresh geometric_config) 1 45000
    = Ok near
    /\ calculate_position_size geometric_config (fresh geometric_config) 2 45000
       = Ok far
    /\ far == (12 # 10) * near.
Proof.
  apply (geometric_sizes_grow geometric_config (fresh geometric_config) 1 45000).
  - discriminate.
  - vm_compute. lia.
  - vm_compute. discriminate.
Defined.

(** ** A grid step of 0 *)

Lemma place_loop_all_skipped cfg p items : forall s acts,
  Forall (fun it => p <= snd it) items ->
  place_loop cfg p items s acts = (s, Ok acts).
Proof.
  induction items as [|[i level] rest IH]; intros s acts F;
    cbn [place_loop]; [reflexivity|].
  inversion F as [|x l Hx Hl]; subst. cbn [snd] in Hx.
  apply Qle_bool_iff in Hx. rewrite Hx. apply IH. exact Hl.
Qed.

Lemma enumerate_snd {A : Type} (P : A -> Prop) (l : list A) :
  Forall P l -> Forall (fun it => P (snd it)) (enumerate l).
Proof.
  unfold enumerate. generalize 0%nat.
  induction l as [|x l IH]; intros n F; cbn [List.length seq combine];
    [constructor|].
  inversion F; subst. constructor; [assumption|]. apply IH. assumption.
Qed.

Lemma zero_step_levels cfg s p :
  get_grid_step cfg s p == 0 ->
  Forall (fun l => p <= l) (get_target_levels cfg s p).
Proof.
  intro Z0. unfold get_target_levels. cbv zeta.
  apply Forall_app. split; apply Forall_map, Forall_forall; intros i _;
    rewrite Z0; ring_simplify; apply Qle_refl.
Qed.

Lemma get_grid_step_history cfg s s' p :
  price_history s' = price_history s ->
  get_grid_step cfg s' p = get_grid_step cfg s p.
Proof.
  intro H. unfold get_grid_step. rewrite H. reflexivity.
Qed.

Lemma Qsum_zero (l : list Q) : Forall (fun x => x == 0) l -> Qsum l == 0.
Proof.
  induction 1 as [|x l Hx Hl IH].
  - reflexivity.
  - rewrite Qsum_cons, Hx, IH. reflexivity.
Qed.

Lemma abs_diffs_flat (c : Q) (l : list Q) :
  Forall (fun x => x == c) l -> Forall (fun x => x == 0) (abs_diffs l).
Proof.
  induction l as [|a t IH]; intro F; [constructor|].
  inversion F as [|x l Ha Ht]; subst.
  destruct t as [|b t']; [constructor|].
  change (abs_diffs (a :: b :: t')) with (Qabs (b - a) :: abs_diffs (b :: t')).
  constructor; [|apply IH; exact Ht].
  inversion Ht as [|x l Hb _]; subst.
  rewrite Ha, Hb. setoid_replace (c - c) with 0 by ring. reflexivity.
Qed.

Lemma flat_history_zero_step cfg s p c :
  mode (grid cfg) <> "percent" ->
  (2 <= atr_window (grid cfg))%Z ->
  (atr_window (grid cfg) <= Z.of_nat (List.length (price_history s)))%Z ->
  Forall (fun x => x == c)
         (last_samples (Z.to_nat (atr_window (grid cfg))) (price_history s)) ->
  get_grid_step cfg s p == 0.
Proof.
  intros M W L F.
  rewrite (get_grid_step_atr cfg s p M W L).
  unfold mean_abs_diff, Qdiv.
  rewrite (Qsum_zero _ (abs_diffs_flat c _ F)). ring.
Qed.

(** X24: a tick whose grid step is 0 places nothing. When the step
    computed on the history the tick leaves is 0, every target level
    equals the current price and is skipped by the test
    [level >= current_price]: a tick that returns places no order and
    leaves the book of active orders as it was. In ATR mode, with a
    window of at least two samples, this is the case whenever the last
    [atr_window] samples of that history, the current price among them,
    are all equal. *)
Theorem zero_step_places_nothing (cfg : Config) (s : State) (p b a : Q) :
  (forall acts,
     snd (step_book cfg s p b a) = Ok acts ->
     get_grid_step cfg (fst (step_book cfg s p b a)) p == 0 ->
     place_orders acts = []
     /\ active_orders (fst (step_book cfg s p b a)) = active_orders s)
  /\ (forall c,
        mode (grid cfg) <> "percent" ->
        (2 <= atr_window (grid cfg))%Z ->
        (atr_window (grid cfg)
         <= Z.of_nat (List.length (next_history cfg (price_history s) p)))%Z ->
        Forall (fun x => x == c)
               (last_samples (Z.to_nat (atr_window (grid cfg)))
                             (next_history cfg (price_history s) p)) ->
        get_grid_step cfg (fst (step_book cfg s p b a)) p == 0).
Proof.
  split.
  - intros acts H Z0.
    rewrite (get_grid_step_history cfg
               (set_price_history (next_history cfg (price_history s) p) s)
               (fst (step_book cfg s p b a)) p) in Z0
      by (rewrite step_book_history; reflexivity).
    revert H Z0. unfold step_book, next_history. cbv zeta.
    set (s1 := set_price_history _ s).
    destruct (pdiv _ _) as [dd|e]; [|discriminate].
    destruct (Qlt_bool (dd_pause_frac (risk cfg)) dd);
      [intros H _; injection H as <-; split; reflexivity|].
    destruct (Qlt_bool (kill_switch_frac (risk cfg)) dd);
      [intros H _; injection H as <-; split; reflexivity|].
    set (s2 := if Qlt_bool _ _ then _ else s1).
    intros H Z0.
    assert (E : price_history s2 = price_history s1)
      by (unfold s2; destruct (Qlt_bool _ _); reflexivity).
    rewrite <- (get_grid_step_history cfg s1 s2 p E) in Z0.
    rewrite (place_loop_all_skipped cfg p _ s2 (mkActions [] [] [])) in H |- *
      by (apply enumerate_snd, zero_step_levels; exact Z0).
    cbn [fst snd] in H |- *. injection H as <-. split; [reflexivity|].
    unfold s2. destruct (Qlt_bool _ _); reflexivity.
  - intros c M W L F.
    apply (flat_history_zero_step cfg _ p c M W);
      rewrite step_book_history; assumption.
Qed.

Lemma zero_step_places_nothing_witness :
  get_grid_step atr_config
    (fst (step_book atr_config flat_atr_state 100 (999 # 10) (1001 # 10))) 100
  == 0
  /\ exists acts,
       snd (step_book atr_config flat_atr_state 100 (999 # 10) (1001 # 10))
       = Ok acts
       /\ place_orders acts = []
       /\ active_orders
            (fst (step_book atr_config flat_atr_state 100 (999 # 10) (1001 # 10)))
          = active_orders flat_atr_state.
Proof.
  destruct (zero_step_places_nothing atr_config flat_atr_state 100
              (999 # 10) (1001 # 10)) as [A B].
  assert (Z0 : get_grid_step atr_config
                 (fst (step_book atr_config flat_atr_state 100
                         (999 # 10) (1001 # 10))) 100 == 0).
  { apply (B 100).
    - discriminate.
    - vm_compute. discriminate.
    - vm_compute. discriminate.
    - vm_compute. repeat constructor. }
  split; [exact Z0|].
  destruct (snd (step_book atr_config flat_atr_state 100 (999 # 10) (1001 # 10)))
    as [acts|e] eqn:E; [|vm_compute in E; discriminate E].
  exists acts. split; [reflexivity|]. exact (A acts eq_refl Z0).
Defined.

(** ** The cash test of the admission *)

Lemma linear_size_at_most_cash cfg s i p ps :
  sizing_mode (grid cfg) = "linear" ->
  (2 <= levels_below (grid cfg))%Z ->
  0 <= cash s -> 0 <= base_holdings s * p ->
  target_inventory_ratio (capital cfg) <= 1 ->
  skew_strength (grid cfg) <= 1 ->
  calculate_position_size cfg s i p = Ok ps ->
  ps <= cash s.
Proof.
  intros M L C B T K. unfold calculate_position_size. cbv zeta.
  rewrite M, String.eqb_refl. unfold pdiv.
  destruct (Qeq_bool (inject_Z (levels_below (grid cfg))) 0);
    [discriminate|].
  cbn [bind].
  destruct (Qeq_bool (cash s + base_holdings s * p) 0) eqn:E; [discriminate|].
  cbn [bind]. apply Qeq_bool_neq in E.
  assert (Hl : 2 <= inject_Z (levels_below (grid cfg))).
  { change 2 with (inject_Z 2). rewrite <- Zle_Qle. exact L. }
  assert (Hq : 0 < cash s + base_holdings s * p).
  { destruct (Qlt_le_dec 0 (cash s + base_holdings s * p)) as [|N];
      [assumption|].
    exfalso. apply E. apply Qle_antisym; [exact N|lra]. }
  assert (U0 : 0 <= cash s * (9 # 10) / inject_Z (levels_below (grid cfg))).
  { apply Qle_shift_div_l; lra. }
  assert (U1 : cash s * (9 # 10) / inject_Z (levels_below (grid cfg))
               <= cash s * (9 # 20)).
  { apply Qle_shift_div_r; [lra|].
    generalize dependent (inject_Z (levels_below (grid cfg))). intros l Hl.
    nra. }
  assert (R0 : 0 <= base_holdings s * p / (cash s + base_holdings s * p)).
  { apply Qle_shift_div_l; lra. }
  generalize dependent (cash s * (9 # 10) / inject_Z (levels_below (grid cfg))).
  intros u U0 U1.
  generalize dependent (base_holdings s * p / (cash s + base_holdings s * p)).
  intros r R0.
  destruct (Qlt_bool r (target_inventory_ratio (capital cfg))) eqn:Lt;
    intro H; injection H as <-; [|lra].
  apply Qlt_bool_iff in Lt.
  generalize dependent (target_inventory_ratio (capital cfg)). intros t T Lt.
  generalize dependent (skew_strength (grid cfg)). intros st K.
  generalize dependent (cash s). intros c C _ _ U1.
  assert (S2 : (t - r) * st <= 1) by nra.
  nra.
Qed.

(** X25: the cash test of [can_place_buy] never rejects in linear mode
    with at least two levels. With non-negative cash and inventory value,
    a target inventory ratio of at most 1 and a skew strength of at most
    1, the size of one level is at most 90% of the cash, so
    [position_size > self.cash] is false: whatever [can_place_buy]
    returns, its reason is never the lack of cash. *)
Theorem cash_test_never_rejects
    (cfg : Config) (s : State) (level p : Q) (ok : bool) (r : reason) :
  sizing_mode (grid cfg) = "linear" ->
  (2 <= levels_below (grid cfg))%Z ->
  0 <= cash s -> 0 <= base_holdings s * p ->
  target_inventory_ratio (capital cfg) <= 1 ->
  skew_strength (grid cfg) <= 1 ->
  can_place_buy cfg s level p = Ok (ok, r) ->
  forall size c, r <> InsufficientCash size c.
Proof.
  intros M L C B T K H size c. revert H.
  unfold can_place_buy. cbv zeta.
  destruct (normalize_price cfg level) as [nl|]; [|discriminate].
  cbn [bind].
  destruct (dict_mem _ _); [intro H; injection H as <- <-; discriminate|].
  destruct (normalize_price cfg _) as [opn|]; [|discriminate].
  cbn [bind].
  destruct (existsb _ _); [intro H; injection H as <- <-; discriminate|].
  destruct (calculate_position_size cfg s 0 p) as [ps|] eqn:S0;
    [|discriminate].
  cbn [bind].
  destruct (pdiv ps opn) as [q|]; [|discriminate]. cbn [bind].
  destruct (normalize_quantity cfg q) as [qty|]; [|discriminate].
  cbn [bind].
  destruct (Qlt_bool (qty * opn) _);
    [intro H; injection H as <- <-; discriminate|].
  pose proof (linear_size_at_most_cash cfg s 0 p ps M L C B T K S0) as Le.
  apply Qlt_bool_false_iff in Le. rewrite Le.
  intro H; injection H as <- <-; discriminate.
Qed.

Lemma cash_test_never_rejects_witness :
  exists ok r,
    can_place_buy inventory_config (fresh inventory_config) 44820 45000
    = Ok (ok, r)
    /\ forall size c, r <> InsufficientCash size c.
Proof.
  destruct (can_place_buy inventory_config (fresh inventory_config) 44820 45000)
    as [[ok r]|e] eqn:E; [|vm_compute in E; discriminate E].
  exists ok, r. split; [reflexivity|].
  apply (cash_test_never_rejects inventory_config (fresh inventory_config)
           44820 45000 ok r); try exact E.
  - reflexivity.
  - vm_compute. discriminate.
  - vm_compute. discriminate.
  - vm_compute. discriminate.
  - vm_compute. discriminate.
  - vm_compute. discriminate.
Defined.

(** ** A SELL fill that matches no position *)

Lemma find_position_none (order_id : string) (ps : dict Position) :
  Forall (fun pos => tp_order_id pos <> Some order_id) (dict_values ps) ->
  find_position order_id ps = None.
Proof.
  unfold find_position, dict_values.
  induction ps as [|[k pos] ps IH]; cbn [map snd find]; intro F;
    [reflexivity|].
  inversion F as [|x l Hx Hl]; subst.
  destruct (tp_order_id pos) as [t|] eqn:T; [|apply IH; exact Hl].
  destruct (String.eqb t order_id) eqn:E; [|apply IH; exact Hl].
  apply String.eqb_eq in E. subst t. contradiction.
Qed.

(** X26: a SELL fill that matches no position is swallowed. When no
    position carries the id of the filled SELL order as its
    [tp_order_id], [on_order_filled] returns without printing, drops the
    order from the book and changes nothing else: the cash is not
    credited, [base_holdings] is not reduced and no profit is booked. *)
Theorem unmatched_sell_fill_swallowed
    (cfg : Config) (s : State) (o : string) (order : Order) (p q : Q) :
  dict_get o (active_orders s) = Some order ->
  side order = SELL ->
  Forall (fun pos => tp_order_id pos <> Some (id order))
         (dict_values (positions s)) ->
  on_order_filled cfg s o p q
  = mkFill
      (set_active_orders
         (dict_del o (dict_set o (set_status FILLED order) (active_orders s)))
         s)
      [] (Ok tt).
Proof.
  intros G S F. unfold on_order_filled. rewrite G. cbv zeta.
  cbn [side set_status]. rewrite S.
  unfold _handle_sell_fill. cbn [id set_status positions set_active_orders].
  rewrite (find_position_none _ _ F). reflexivity.
Qed.

Lemma unmatched_sell_fill_swallowed_witness :
  base_holdings
    (fill_state
       (on_order_filled demo_config tp_unrecorded "TP_1"
          (4497678 # 100) (8371 # 100000)))
  = base_holdings before_crash
  /\ cash
       (fill_state
          (on_order_filled demo_config tp_unrecorded "TP_1"
             (4497678 # 100) (8371 # 100000)))
     = cash before_crash
  /\ fill_stdout
       (on_order_filled demo_config tp_unrecorded "TP_1"
          (4497678 # 100) (8371 # 100000)) = [].
Proof.
  assert (G : dict_get "TP_1" (active_orders tp_unrecorded) = Some tp_order)
    by (vm_compute; reflexivity).
  assert (F : Forall (fun pos => tp_order_id pos <> Some (id tp_order))
                     (dict_values (positions tp_unrecorded))).
  { vm_compute. repeat constructor. discriminate. }
  rewrite (unmatched_sell_fill_swallowed demo_config tp_unrecorded "TP_1"
             tp_order (4497678 # 100) (8371 # 100000) G eq_refl F).
  cbn [fill_state fill_stdout]. repeat split.
Defined.

(** ** The take-profit round trip *)

(** C5, evaluated after a BUY fill. The fill at 44797.59 for 0.08371
    stores a position with that buy price and quantity and a take-profit
    price one step above, but with no take-profit order id, and the book
    holds BUY orders only: no SELL order was stored. Whatever order id a
    fill is then reported for, at whatever price and quantity,
    [realized_pnl] and [total_pnl] stay 0, where the round trip should
    have booked [step * Q] > 0. The handler itself is sound: once the
    take-profit order and its id are put into the state by hand
    ([tp_recorded]), its fill at [P + step] books exactly [step * Q]. *)
Theorem take_profit_fill_books_nothing :
  dict_get "44820.00000000" (positions before_crash) = Some first_position
  /\ buy_price first_position = (4479759 # 100)
  /\ pos_quantity first_position = (8371 # 100000)
  /\ tp_order_id first_position = None
  /\ Forall (fun o => side o = BUY) (dict_values (active_orders before_crash))
  /\ (forall o fp fq,
        realized_pnl
          (fill_state (on_order_filled demo_config before_crash o fp fq)) = 0
        /\ total_pnl
             (fill_state (on_order_filled demo_config before_crash o fp fq))
           = 0)
  /\ 0 < get_grid_step demo_config before_crash (4479759 # 100)
         * (8371 # 100000)
  /\ realized_pnl
       (fill_state
          (on_order_filled demo_config tp_recorded "TP_1"
             ((4479759 # 100)
              + get_grid_step demo_config before_crash (4479759 # 100))
             (8371 # 100000)))
     == get_grid_step demo_config before_crash (4479759 # 100)
        * (8371 # 100000).
Proof.
  assert (B : only_buys before_crash).
  { unfold only_buys. vm_compute. repeat constructor. }
  split; [vm_compute; reflexivity|]. split; [reflexivity|].
  split; [reflexivity|]. split; [reflexivity|]. split; [exact B|].
  split; [|split; vm_compute; reflexivity].
  intros o fp fq.
  destruct (on_order_filled_buy_book demo_config before_crash o fp fq B)
    as (R & T & _).
  rewrite R, T. split; vm_compute; reflexivity.
Qed.
